(** * LaddooHunt: the probing-and-checkpoint engine of [LaddooHunt.py]

    A shallow embedding of the functions of [src/LaddooHunt.py] that the
    specification talks about, and the properties proved of them.

    Conventions of the embedding.
    - A Python [str] is a [string]: the bytes of its UTF-8 encoding.
      [lower], [strip] and [int] read the code points from the bytes.  The
      required patterns and the category labels are ASCII, and a search for
      an ASCII needle gives the same answer on the bytes of a text as on its
      code points.
    - Python's [int] is [Z]; a [set] of hashable values is a [gset]; a
      dictionary with string keys is the list of its items.
    - Code that logs, writes files, talks to the network or raises runs in
      the monad [M]: a state transformer that returns either a value or a
      raised exception, with stdpp's notation for its bind.
      [try ... except Exception] is [catch].
    - The network, the [curl] binary and the notification channel are the
      fields of a [world]. *)

From Stdlib Require Import ZArith String Ascii List Lia Bool QArith Qcanon.
From stdpp Require Import base option list strings gmap sets countable pretty.

Local Open Scope Z_scope.
Set Warnings "-register-all,-clear-no-such-hyp".

(** ** Python strings *)

Module PyStr.

(** [s.startswith(p)]. *)
Fixpoint startswith (p s : string) : bool :=
  match p, s with
  | EmptyString, _ => true
  | String _ _, EmptyString => false
  | String a p', String b s' => if Ascii.eqb a b then startswith p' s' else false
  end.

(** [p in s]: [p] starts at some position of [s]. *)
Fixpoint contains (p s : string) : bool :=
  startswith p s ||
  match s with
  | EmptyString => false
  | String _ s' => contains p s'
  end.

(** The meaning of [in]: [p] is a contiguous part of [s]. *)
Definition substring_of (p s : string) : Prop :=
  ∃ l r : string, s = l +:+ p +:+ r.

(** *** The characters of a text *)

(** A character of a text: a code point, or a byte that is not part of a
    well-formed UTF-8 sequence. *)
Inductive char :=
  | Code (c : Z)
  | Byte (b : ascii).

Definition byte_val (a : ascii) : Z := Z.of_N (N_of_ascii a).

Definition byte_of (n : Z) : ascii := ascii_of_N (Z.to_N n).

(** A continuation byte, [10xxxxxx]. *)
Definition is_cont (b : Z) : bool := (0x80 <=? b) && (b <=? 0xBF).

(** The code points of a text, from its UTF-8 bytes.  Only the shortest form
    of a code point is read, and no surrogate; any other byte stands for
    itself. *)
Fixpoint decode (s : string) : list char :=
  match s with
  | EmptyString => []
  | String a0 s1 =>
      let b0 := byte_val a0 in
      if b0 <? 0x80 then Code b0 :: decode s1
      else
        match s1 with
        | String a1 s2 =>
            let b1 := byte_val a1 in
            if (0xC2 <=? b0) && (b0 <=? 0xDF) && is_cont b1
            then Code ((b0 - 0xC0) * 64 + (b1 - 0x80)) :: decode s2
            else
              match s2 with
              | String a2 s3 =>
                  let b2 := byte_val a2 in
                  let c3 :=
                    (b0 - 0xE0) * 4096 + (b1 - 0x80) * 64 + (b2 - 0x80) in
                  if (0xE0 <=? b0) && (b0 <=? 0xEF) && is_cont b1
                     && is_cont b2 && (0x800 <=? c3)
                     && negb ((0xD800 <=? c3) && (c3 <=? 0xDFFF))
                  then Code c3 :: decode s3
                  else
                    match s3 with
                    | String a3 s4 =>
                        let b3 := byte_val a3 in
                        let c4 :=
                          (b0 - 0xF0) * 262144 + (b1 - 0x80) * 4096
                          + (b2 - 0x80) * 64 + (b3 - 0x80) in
                        if (0xF0 <=? b0) && (b0 <=? 0xF4) && is_cont b1
                           && is_cont b2 && is_cont b3 && (0x10000 <=? c4)
                           && (c4 <=? 0x10FFFF)
                        then Code c4 :: decode s4
                        else Byte a0 :: decode s1
                    | EmptyString => Byte a0 :: decode s1
                    end
              | EmptyString => Byte a0 :: decode s1
              end
        | EmptyString => [Byte a0]
        end
  end.

(** The UTF-8 bytes of a character. *)
Definition encode_char (ch : char) : string :=
  match ch with
  | Byte b => String b EmptyString
  | Code c =>
      if c <? 0x80 then String (byte_of c) EmptyString
      else if c <? 0x800 then
        String (byte_of (0xC0 + c / 64))
          (String (byte_of (0x80 + c mod 64)) EmptyString)
      else if c <? 0x10000 then
        String (byte_of (0xE0 + c / 4096))
          (String (byte_of (0x80 + (c / 64) mod 64))
             (String (byte_of (0x80 + c mod 64)) EmptyString))
      else
        String (byte_of (0xF0 + c / 262144))
          (String (byte_of (0x80 + (c / 4096) mod 64))
             (String (byte_of (0x80 + (c / 64) mod 64))
                (String (byte_of (0x80 + c mod 64)) EmptyString)))
  end.

Definition encode (l : list char) : string :=
  foldr (λ ch rest, encode_char ch +:+ rest) EmptyString l.

Definition in_ranges (c : Z) (ranges : list (Z * Z)) : bool :=
  existsb (λ r, (r.1 <=? c) && (c <=? r.2)) ranges.

(** The simple lowercase mappings of Unicode 14.0, the version of Python
    3.11: the code points from [first] to [last] in steps of [step] are
    mapped to themselves plus [delta]. *)
Definition lowercase_table : list (Z * Z * Z * Z) :=
  [
   (0x41, 0x5A, 1, 32); (0xC0, 0xD6, 1, 32); (0xD8, 0xDE, 1, 32);
   (0x100, 0x12E, 2, 1); (0x132, 0x136, 2, 1); (0x139, 0x147, 2, 1);
   (0x14A, 0x176, 2, 1); (0x178, 0x178, 1, -121); (0x179, 0x17D, 2, 1);
   (0x181, 0x181, 1, 210); (0x182, 0x184, 2, 1); (0x186, 0x186, 1, 206);
   (0x187, 0x187, 1, 1); (0x189, 0x18A, 1, 205); (0x18B, 0x18B, 1, 1);
   (0x18E, 0x18E, 1, 79); (0x18F, 0x18F, 1, 202); (0x190, 0x190, 1, 203);
   (0x191, 0x191, 1, 1); (0x193, 0x193, 1, 205); (0x194, 0x194, 1, 207);
   (0x196, 0x196, 1, 211); (0x197, 0x197, 1, 209); (0x198, 0x198, 1, 1);
   (0x19C, 0x19C, 1, 211); (0x19D, 0x19D, 1, 213); (0x19F, 0x19F, 1, 214);
   (0x1A0, 0x1A4, 2, 1); (0x1A6, 0x1A6, 1, 218); (0x1A7, 0x1A7, 1, 1);
   (0x1A9, 0x1A9, 1, 218); (0x1AC, 0x1AC, 1, 1); (0x1AE, 0x1AE, 1, 218);
   (0x1AF, 0x1AF, 1, 1); (0x1B1, 0x1B2, 1, 217); (0x1B3, 0x1B5, 2, 1);
   (0x1B7, 0x1B7, 1, 219); (0x1B8, 0x1B8, 1, 1); (0x1BC, 0x1BC, 1, 1);
   (0x1C4, 0x1C4, 1, 2); (0x1C5, 0x1C5, 1, 1); (0x1C7, 0x1C7, 1, 2);
   (0x1C8, 0x1C8, 1, 1); (0x1CA, 0x1CA, 1, 2); (0x1CB, 0x1DB, 2, 1);
   (0x1DE, 0x1EE, 2, 1); (0x1F1, 0x1F1, 1, 2); (0x1F2, 0x1F4, 2, 1);
   (0x1F6, 0x1F6, 1, -97); (0x1F7, 0x1F7, 1, -56); (0x1F8, 0x21E, 2, 1);
   (0x220, 0x220, 1, -130); (0x222, 0x232, 2, 1); (0x23A, 0x23A, 1, 10795);
   (0x23B, 0x23B, 1, 1); (0x23D, 0x23D, 1, -163); (0x23E, 0x23E, 1, 10792);
   (0x241, 0x241, 1, 1); (0x243, 0x243, 1, -195); (0x244, 0x244, 1, 69);
   (0x245, 0x245, 1, 71); (0x246, 0x24E, 2, 1); (0x370, 0x372, 2, 1);
   (0x376, 0x376, 1, 1); (0x37F, 0x37F, 1, 116); (0x386, 0x386, 1, 38);
   (0x388, 0x38A, 1, 37); (0x38C, 0x38C, 1, 64); (0x38E, 0x38F, 1, 63);
   (0x391, 0x3A1, 1, 32); (0x3A3, 0x3AB, 1, 32); (0x3CF, 0x3CF, 1, 8);
   (0x3D8, 0x3EE, 2, 1); (0x3F4, 0x3F4, 1, -60); (0x3F7, 0x3F7, 1, 1);
   (0x3F9, 0x3F9, 1, -7); (0x3FA, 0x3FA, 1, 1); (0x3FD, 0x3FF, 1, -130);
   (0x400, 0x40F, 1, 80); (0x410, 0x42F, 1, 32); (0x460, 0x480, 2, 1);
   (0x48A, 0x4BE, 2, 1); (0x4C0, 0x4C0, 1, 15); (0x4C1, 0x4CD, 2, 1);
   (0x4D0, 0x52E, 2, 1); (0x531, 0x556, 1, 48); (0x10A0, 0x10C5, 1, 7264);
   (0x10C7, 0x10C7, 1, 7264); (0x10CD, 0x10CD, 1, 7264);
   (0x13A0, 0x13EF, 1, 38864); (0x13F0, 0x13F5, 1, 8);
   (0x1C90, 0x1CBA, 1, -3008); (0x1CBD, 0x1CBF, 1, -3008);
   (0x1E00, 0x1E94, 2, 1); (0x1E9E, 0x1E9E, 1, -7615);
   (0x1EA0, 0x1EFE, 2, 1); (0x1F08, 0x1F0F, 1, -8);
   (0x1F18, 0x1F1D, 1, -8); (0x1F28, 0x1F2F, 1, -8);
   (0x1F38, 0x1F3F, 1, -8); (0x1F48, 0x1F4D, 1, -8);
   (0x1F59, 0x1F5F, 2, -8); (0x1F68, 0x1F6F, 1, -8);
   (0x1F88, 0x1F8F, 1, -8); (0x1F98, 0x1F9F, 1, -8);
   (0x1FA8, 0x1FAF, 1, -8); (0x1FB8, 0x1FB9, 1, -8);
   (0x1FBA, 0x1FBB, 1, -74); (0x1FBC, 0x1FBC, 1, -9);
   (0x1FC8, 0x1FCB, 1, -86); (0x1FCC, 0x1FCC, 1, -9);
   (0x1FD8, 0x1FD9, 1, -8); (0x1FDA, 0x1FDB, 1, -100);
   (0x1FE8, 0x1FE9, 1, -8); (0x1FEA, 0x1FEB, 1, -112);
   (0x1FEC, 0x1FEC, 1, -7); (0x1FF8, 0x1FF9, 1, -128);
   (0x1FFA, 0x1FFB, 1, -126); (0x1FFC, 0x1FFC, 1, -9);
   (0x2126, 0x2126, 1, -7517); (0x212A, 0x212A, 1, -8383);
   (0x212B, 0x212B, 1, -8262); (0x2132, 0x2132, 1, 28);
   (0x2160, 0x216F, 1, 16); (0x2183, 0x2183, 1, 1);
   (0x24B6, 0x24CF, 1, 26); (0x2C00, 0x2C2F, 1, 48);
   (0x2C60, 0x2C60, 1, 1); (0x2C62, 0x2C62, 1, -10743);
   (0x2C63, 0x2C63, 1, -3814); (0x2C64, 0x2C64, 1, -10727);
   (0x2C67, 0x2C6B, 2, 1); (0x2C6D, 0x2C6D, 1, -10780);
   (0x2C6E, 0x2C6E, 1, -10749); (0x2C6F, 0x2C6F, 1, -10783);
   (0x2C70, 0x2C70, 1, -10782); (0x2C72, 0x2C72, 1, 1);
   (0x2C75, 0x2C75, 1, 1); (0x2C7E, 0x2C7F, 1, -10815);
   (0x2C80, 0x2CE2, 2, 1); (0x2CEB, 0x2CED, 2, 1); (0x2CF2, 0x2CF2, 1, 1);
   (0xA640, 0xA66C, 2, 1); (0xA680, 0xA69A, 2, 1); (0xA722, 0xA72E, 2, 1);
   (0xA732, 0xA76E, 2, 1); (0xA779, 0xA77B, 2, 1);
   (0xA77D, 0xA77D, 1, -35332); (0xA77E, 0xA786, 2, 1);
   (0xA78B, 0xA78B, 1, 1); (0xA78D, 0xA78D, 1, -42280);
   (0xA790, 0xA792, 2, 1); (0xA796, 0xA7A8, 2, 1);
   (0xA7AA, 0xA7AA, 1, -42308); (0xA7AB, 0xA7AB, 1, -42319);
   (0xA7AC, 0xA7AC, 1, -42315); (0xA7AD, 0xA7AD, 1, -42305);
   (0xA7AE, 0xA7AE, 1, -42308); (0xA7B0, 0xA7B0, 1, -42258);
   (0xA7B1, 0xA7B1, 1, -42282); (0xA7B2, 0xA7B2, 1, -42261);
   (0xA7B3, 0xA7B3, 1, 928); (0xA7B4, 0xA7C2, 2, 1);
   (0xA7C4, 0xA7C4, 1, -48); (0xA7C5, 0xA7C5, 1, -42307);
   (0xA7C6, 0xA7C6, 1, -35384); (0xA7C7, 0xA7C9, 2, 1);
   (0xA7D0, 0xA7D0, 1, 1); (0xA7D6, 0xA7D8, 2, 1); (0xA7F5, 0xA7F5, 1, 1);
   (0xFF21, 0xFF3A, 1, 32); (0x10400, 0x10427, 1, 40);
   (0x104B0, 0x104D3, 1, 40); (0x10570, 0x10594, 2, 39);
   (0x10571, 0x10579, 2, 39); (0x1057D, 0x10589, 2, 39);
   (0x1058D, 0x10591, 2, 39); (0x10595, 0x10595, 1, 39);
   (0x10C80, 0x10CB2, 1, 64); (0x118A0, 0x118BF, 1, 32);
   (0x16E40, 0x16E5F, 1, 32); (0x1E900, 0x1E921, 1, 34)
  ].

(** The code points with the property Cased, as ranges. *)
Definition cased_table : list (Z * Z) :=
  [
   (0x41, 0x5A); (0x61, 0x7A); (0xAA, 0xAA); (0xB5, 0xB5); (0xBA, 0xBA);
   (0xC0, 0xD6); (0xD8, 0xF6); (0xF8, 0x1BA); (0x1BC, 0x1BF);
   (0x1C4, 0x293); (0x295, 0x2B8); (0x2C0, 0x2C1); (0x2E0, 0x2E4);
   (0x345, 0x345); (0x370, 0x373); (0x376, 0x377); (0x37A, 0x37D);
   (0x37F, 0x37F); (0x386, 0x386); (0x388, 0x38A); (0x38C, 0x38C);
   (0x38E, 0x3A1); (0x3A3, 0x3F5); (0x3F7, 0x481); (0x48A, 0x52F);
   (0x531, 0x556); (0x560, 0x588); (0x10A0, 0x10C5); (0x10C7, 0x10C7);
   (0x10CD, 0x10CD); (0x10D0, 0x10FA); (0x10FD, 0x10FF); (0x13A0, 0x13F5);
   (0x13F8, 0x13FD); (0x1C80, 0x1C88); (0x1C90, 0x1CBA); (0x1CBD, 0x1CBF);
   (0x1D00, 0x1DBF); (0x1E00, 0x1F15); (0x1F18, 0x1F1D); (0x1F20, 0x1F45);
   (0x1F48, 0x1F4D); (0x1F50, 0x1F57); (0x1F59, 0x1F59); (0x1F5B, 0x1F5B);
   (0x1F5D, 0x1F5D); (0x1F5F, 0x1F7D); (0x1F80, 0x1FB4); (0x1FB6, 0x1FBC);
   (0x1FBE, 0x1FBE); (0x1FC2, 0x1FC4); (0x1FC6, 0x1FCC); (0x1FD0, 0x1FD3);
   (0x1FD6, 0x1FDB); (0x1FE0, 0x1FEC); (0x1FF2, 0x1FF4); (0x1FF6, 0x1FFC);
   (0x2071, 0x2071); (0x207F, 0x207F); (0x2090, 0x209C); (0x2102, 0x2102);
   (0x2107, 0x2107); (0x210A, 0x2113); (0x2115, 0x2115); (0x2119, 0x211D);
   (0x2124, 0x2124); (0x2126, 0x2126); (0x2128, 0x2128); (0x212A, 0x212D);
   (0x212F, 0x2134); (0x2139, 0x2139); (0x213C, 0x213F); (0x2145, 0x2149);
   (0x214E, 0x214E); (0x2160, 0x217F); (0x2183, 0x2184); (0x24B6, 0x24E9);
   (0x2C00, 0x2CE4); (0x2CEB, 0x2CEE); (0x2CF2, 0x2CF3); (0x2D00, 0x2D25);
   (0x2D27, 0x2D27); (0x2D2D, 0x2D2D); (0xA640, 0xA66D); (0xA680, 0xA69D);
   (0xA722, 0xA787); (0xA78B, 0xA78E); (0xA790, 0xA7CA); (0xA7D0, 0xA7D1);
   (0xA7D3, 0xA7D3); (0xA7D5, 0xA7D9); (0xA7F5, 0xA7F6); (0xA7F8, 0xA7FA);
   (0xAB30, 0xAB5A); (0xAB5C, 0xAB68); (0xAB70, 0xABBF); (0xFB00, 0xFB06);
   (0xFB13, 0xFB17); (0xFF21, 0xFF3A); (0xFF41, 0xFF5A);
   (0x10400, 0x1044F); (0x104B0, 0x104D3); (0x104D8, 0x104FB);
   (0x10570, 0x1057A); (0x1057C, 0x1058A); (0x1058C, 0x10592);
   (0x10594, 0x10595); (0x10597, 0x105A1); (0x105A3, 0x105B1);
   (0x105B3, 0x105B9); (0x105BB, 0x105BC); (0x10780, 0x10780);
   (0x10783, 0x10785); (0x10787, 0x107B0); (0x107B2, 0x107BA);
   (0x10C80, 0x10CB2); (0x10CC0, 0x10CF2); (0x118A0, 0x118DF);
   (0x16E40, 0x16E7F); (0x1D400, 0x1D454); (0x1D456, 0x1D49C);
   (0x1D49E, 0x1D49F); (0x1D4A2, 0x1D4A2); (0x1D4A5, 0x1D4A6);
   (0x1D4A9, 0x1D4AC); (0x1D4AE, 0x1D4B9); (0x1D4BB, 0x1D4BB);
   (0x1D4BD, 0x1D4C3); (0x1D4C5, 0x1D505); (0x1D507, 0x1D50A);
   (0x1D50D, 0x1D514); (0x1D516, 0x1D51C); (0x1D51E, 0x1D539);
   (0x1D53B, 0x1D53E); (0x1D540, 0x1D544); (0x1D546, 0x1D546);
   (0x1D54A, 0x1D550); (0x1D552, 0x1D6A5); (0x1D6A8, 0x1D6C0);
   (0x1D6C2, 0x1D6DA); (0x1D6DC, 0x1D6FA); (0x1D6FC, 0x1D714);
   (0x1D716, 0x1D734); (0x1D736, 0x1D74E); (0x1D750, 0x1D76E);
   (0x1D770, 0x1D788); (0x1D78A, 0x1D7A8); (0x1D7AA, 0x1D7C2);
   (0x1D7C4, 0x1D7CB); (0x1DF00, 0x1DF09); (0x1DF0B, 0x1DF1E);
   (0x1E900, 0x1E943); (0x1F130, 0x1F149); (0x1F150, 0x1F169);
   (0x1F170, 0x1F189)
  ].

(** The code points with the property Case_Ignorable, as ranges. *)
Definition case_ignorable_table : list (Z * Z) :=
  [
   (0x27, 0x27); (0x2E, 0x2E); (0x3A, 0x3A); (0x5E, 0x5E); (0x60, 0x60);
   (0xA8, 0xA8); (0xAD, 0xAD); (0xAF, 0xAF); (0xB4, 0xB4); (0xB7, 0xB8);
   (0x2B0, 0x36F); (0x374, 0x375); (0x37A, 0x37A); (0x384, 0x385);
   (0x387, 0x387); (0x483, 0x489); (0x559, 0x559); (0x55F, 0x55F);
   (0x591, 0x5BD); (0x5BF, 0x5BF); (0x5C1, 0x5C2); (0x5C4, 0x5C5);
   (0x5C7, 0x5C7); (0x5F4, 0x5F4); (0x600, 0x605); (0x610, 0x61A);
   (0x61C, 0x61C); (0x640, 0x640); (0x64B, 0x65F); (0x670, 0x670);
   (0x6D6, 0x6DD); (0x6DF, 0x6E8); (0x6EA, 0x6ED); (0x70F, 0x70F);
   (0x711, 0x711); (0x730, 0x74A); (0x7A6, 0x7B0); (0x7EB, 0x7F5);
   (0x7FA, 0x7FA); (0x7FD, 0x7FD); (0x816, 0x82D); (0x859, 0x85B);
   (0x888, 0x888); (0x890, 0x891); (0x898, 0x89F); (0x8C9, 0x902);
   (0x93A, 0x93A); (0x93C, 0x93C); (0x941, 0x948); (0x94D, 0x94D);
   (0x951, 0x957); (0x962, 0x963); (0x971, 0x971); (0x981, 0x981);
   (0x9BC, 0x9BC); (0x9C1, 0x9C4); (0x9CD, 0x9CD); (0x9E2, 0x9E3);
   (0x9FE, 0x9FE); (0xA01, 0xA02); (0xA3C, 0xA3C); (0xA41, 0xA42);
   (0xA47, 0xA48); (0xA4B, 0xA4D); (0xA51, 0xA51); (0xA70, 0xA71);
   (0xA75, 0xA75); (0xA81, 0xA82); (0xABC, 0xABC); (0xAC1, 0xAC5);
   (0xAC7, 0xAC8); (0xACD, 0xACD); (0xAE2, 0xAE3); (0xAFA, 0xAFF);
   (0xB01, 0xB01); (0xB3C, 0xB3C); (0xB3F, 0xB3F); (0xB41, 0xB44);
   (0xB4D, 0xB4D); (0xB55, 0xB56); (0xB62, 0xB63); (0xB82, 0xB82);
   (0xBC0, 0xBC0); (0xBCD, 0xBCD); (0xC00, 0xC00); (0xC04, 0xC04);
   (0xC3C, 0xC3C); (0xC3E, 0xC40); (0xC46, 0xC48); (0xC4A, 0xC4D);
   (0xC55, 0xC56); (0xC62, 0xC63); (0xC81, 0xC81); (0xCBC, 0xCBC);
   (0xCBF, 0xCBF); (0xCC6, 0xCC6); (0xCCC, 0xCCD); (0xCE2, 0xCE3);
   (0xD00, 0xD01); (0xD3B, 0xD3C); (0xD41, 0xD44); (0xD4D, 0xD4D);
   (0xD62, 0xD63); (0xD81, 0xD81); (0xDCA, 0xDCA); (0xDD2, 0xDD4);
   (0xDD6, 0xDD6); (0xE31, 0xE31); (0xE34, 0xE3A); (0xE46, 0xE4E);
   (0xEB1, 0xEB1); (0xEB4, 0xEBC); (0xEC6, 0xEC6); (0xEC8, 0xECD);
   (0xF18, 0xF19); (0xF35, 0xF35); (0xF37, 0xF37); (0xF39, 0xF39);
   (0xF71, 0xF7E); (0xF80, 0xF84); (0xF86, 0xF87); (0xF8D, 0xF97);
   (0xF99, 0xFBC); (0xFC6, 0xFC6); (0x102D, 0x1030); (0x1032, 0x1037);
   (0x1039, 0x103A); (0x103D, 0x103E); (0x1058, 0x1059); (0x105E, 0x1060);
   (0x1071, 0x1074); (0x1082, 0x1082); (0x1085, 0x1086); (0x108D, 0x108D);
   (0x109D, 0x109D); (0x10FC, 0x10FC); (0x135D, 0x135F); (0x1712, 0x1714);
   (0x1732, 0x1733); (0x1752, 0x1753); (0x1772, 0x1773); (0x17B4, 0x17B5);
   (0x17B7, 0x17BD); (0x17C6, 0x17C6); (0x17C9, 0x17D3); (0x17D7, 0x17D7);
   (0x17DD, 0x17DD); (0x180B, 0x180F); (0x1843, 0x1843); (0x1885, 0x1886);
   (0x18A9, 0x18A9); (0x1920, 0x1922); (0x1927, 0x1928); (0x1932, 0x1932);
   (0x1939, 0x193B); (0x1A17, 0x1A18); (0x1A1B, 0x1A1B); (0x1A56, 0x1A56);
   (0x1A58, 0x1A5E); (0x1A60, 0x1A60); (0x1A62, 0x1A62); (0x1A65, 0x1A6C);
   (0x1A73, 0x1A7C); (0x1A7F, 0x1A7F); (0x1AA7, 0x1AA7); (0x1AB0, 0x1ACE);
   (0x1B00, 0x1B03); (0x1B34, 0x1B34); (0x1B36, 0x1B3A); (0x1B3C, 0x1B3C);
   (0x1B42, 0x1B42); (0x1B6B, 0x1B73); (0x1B80, 0x1B81); (0x1BA2, 0x1BA5);
   (0x1BA8, 0x1BA9); (0x1BAB, 0x1BAD); (0x1BE6, 0x1BE6); (0x1BE8, 0x1BE9);
   (0x1BED, 0x1BED); (0x1BEF, 0x1BF1); (0x1C2C, 0x1C33); (0x1C36, 0x1C37);
   (0x1C78, 0x1C7D); (0x1CD0, 0x1CD2); (0x1CD4, 0x1CE0); (0x1CE2, 0x1CE8);
   (0x1CED, 0x1CED); (0x1CF4, 0x1CF4); (0x1CF8, 0x1CF9); (0x1D2C, 0x1D6A);
   (0x1D78, 0x1D78); (0x1D9B, 0x1DFF); (0x1FBD, 0x1FBD); (0x1FBF, 0x1FC1);
   (0x1FCD, 0x1FCF); (0x1FDD, 0x1FDF); (0x1FED, 0x1FEF); (0x1FFD, 0x1FFE);
   (0x200B, 0x200F); (0x2018, 0x2019); (0x2024, 0x2024); (0x2027, 0x2027);
   (0x202A, 0x202E); (0x2060, 0x2064); (0x2066, 0x206F); (0x2071, 0x2071);
   (0x207F, 0x207F); (0x2090, 0x209C); (0x20D0, 0x20F0); (0x2C7C, 0x2C7D);
   (0x2CEF, 0x2CF1); (0x2D6F, 0x2D6F); (0x2D7F, 0x2D7F); (0x2DE0, 0x2DFF);
   (0x2E2F, 0x2E2F); (0x3005, 0x3005); (0x302A, 0x302D); (0x3031, 0x3035);
   (0x303B, 0x303B); (0x3099, 0x309E); (0x30FC, 0x30FE); (0xA015, 0xA015);
   (0xA4F8, 0xA4FD); (0xA60C, 0xA60C); (0xA66F, 0xA672); (0xA674, 0xA67D);
   (0xA67F, 0xA67F); (0xA69C, 0xA69F); (0xA6F0, 0xA6F1); (0xA700, 0xA721);
   (0xA770, 0xA770); (0xA788, 0xA78A); (0xA7F2, 0xA7F4); (0xA7F8, 0xA7F9);
   (0xA802, 0xA802); (0xA806, 0xA806); (0xA80B, 0xA80B); (0xA825, 0xA826);
   (0xA82C, 0xA82C); (0xA8C4, 0xA8C5); (0xA8E0, 0xA8F1); (0xA8FF, 0xA8FF);
   (0xA926, 0xA92D); (0xA947, 0xA951); (0xA980, 0xA982); (0xA9B3, 0xA9B3);
   (0xA9B6, 0xA9B9); (0xA9BC, 0xA9BD); (0xA9CF, 0xA9CF); (0xA9E5, 0xA9E6);
   (0xAA29, 0xAA2E); (0xAA31, 0xAA32); (0xAA35, 0xAA36); (0xAA43, 0xAA43);
   (0xAA4C, 0xAA4C); (0xAA70, 0xAA70); (0xAA7C, 0xAA7C); (0xAAB0, 0xAAB0);
   (0xAAB2, 0xAAB4); (0xAAB7, 0xAAB8); (0xAABE, 0xAABF); (0xAAC1, 0xAAC1);
   (0xAADD, 0xAADD); (0xAAEC, 0xAAED); (0xAAF3, 0xAAF4); (0xAAF6, 0xAAF6);
   (0xAB5B, 0xAB5F); (0xAB69, 0xAB6B); (0xABE5, 0xABE5); (0xABE8, 0xABE8);
   (0xABED, 0xABED); (0xFB1E, 0xFB1E); (0xFBB2, 0xFBC2); (0xFE00, 0xFE0F);
   (0xFE13, 0xFE13); (0xFE20, 0xFE2F); (0xFE52, 0xFE52); (0xFE55, 0xFE55);
   (0xFEFF, 0xFEFF); (0xFF07, 0xFF07); (0xFF0E, 0xFF0E); (0xFF1A, 0xFF1A);
   (0xFF3E, 0xFF3E); (0xFF40, 0xFF40); (0xFF70, 0xFF70); (0xFF9E, 0xFF9F);
   (0xFFE3, 0xFFE3); (0xFFF9, 0xFFFB); (0x101FD, 0x101FD);
   (0x102E0, 0x102E0); (0x10376, 0x1037A); (0x10780, 0x10785);
   (0x10787, 0x107B0); (0x107B2, 0x107BA); (0x10A01, 0x10A03);
   (0x10A05, 0x10A06); (0x10A0C, 0x10A0F); (0x10A38, 0x10A3A);
   (0x10A3F, 0x10A3F); (0x10AE5, 0x10AE6); (0x10D24, 0x10D27);
   (0x10EAB, 0x10EAC); (0x10F46, 0x10F50); (0x10F82, 0x10F85);
   (0x11001, 0x11001); (0x11038, 0x11046); (0x11070, 0x11070);
   (0x11073, 0x11074); (0x1107F, 0x11081); (0x110B3, 0x110B6);
   (0x110B9, 0x110BA); (0x110BD, 0x110BD); (0x110C2, 0x110C2);
   (0x110CD, 0x110CD); (0x11100, 0x11102); (0x11127, 0x1112B);
   (0x1112D, 0x11134); (0x11173, 0x11173); (0x11180, 0x11181);
   (0x111B6, 0x111BE); (0x111C9, 0x111CC); (0x111CF, 0x111CF);
   (0x1122F, 0x11231); (0x11234, 0x11234); (0x11236, 0x11237);
   (0x1123E, 0x1123E); (0x112DF, 0x112DF); (0x112E3, 0x112EA);
   (0x11300, 0x11301); (0x1133B, 0x1133C); (0x11340, 0x11340);
   (0x11366, 0x1136C); (0x11370, 0x11374); (0x11438, 0x1143F);
   (0x11442, 0x11444); (0x11446, 0x11446); (0x1145E, 0x1145E);
   (0x114B3, 0x114B8); (0x114BA, 0x114BA); (0x114BF, 0x114C0);
   (0x114C2, 0x114C3); (0x115B2, 0x115B5); (0x115BC, 0x115BD);
   (0x115BF, 0x115C0); (0x115DC, 0x115DD); (0x11633, 0x1163A);
   (0x1163D, 0x1163D); (0x1163F, 0x11640); (0x116AB, 0x116AB);
   (0x116AD, 0x116AD); (0x116B0, 0x116B5); (0x116B7, 0x116B7);
   (0x1171D, 0x1171F); (0x11722, 0x11725); (0x11727, 0x1172B);
   (0x1182F, 0x11837); (0x11839, 0x1183A); (0x1193B, 0x1193C);
   (0x1193E, 0x1193E); (0x11943, 0x11943); (0x119D4, 0x119D7);
   (0x119DA, 0x119DB); (0x119E0, 0x119E0); (0x11A01, 0x11A0A);
   (0x11A33, 0x11A38); (0x11A3B, 0x11A3E); (0x11A47, 0x11A47);
   (0x11A51, 0x11A56); (0x11A59, 0x11A5B); (0x11A8A, 0x11A96);
   (0x11A98, 0x11A99); (0x11C30, 0x11C36); (0x11C38, 0x11C3D);
   (0x11C3F, 0x11C3F); (0x11C92, 0x11CA7); (0x11CAA, 0x11CB0);
   (0x11CB2, 0x11CB3); (0x11CB5, 0x11CB6); (0x11D31, 0x11D36);
   (0x11D3A, 0x11D3A); (0x11D3C, 0x11D3D); (0x11D3F, 0x11D45);
   (0x11D47, 0x11D47); (0x11D90, 0x11D91); (0x11D95, 0x11D95);
   (0x11D97, 0x11D97); (0x11EF3, 0x11EF4); (0x13430, 0x13438);
   (0x16AF0, 0x16AF4); (0x16B30, 0x16B36); (0x16B40, 0x16B43);
   (0x16F4F, 0x16F4F); (0x16F8F, 0x16F9F); (0x16FE0, 0x16FE1);
   (0x16FE3, 0x16FE4); (0x1AFF0, 0x1AFF3); (0x1AFF5, 0x1AFFB);
   (0x1AFFD, 0x1AFFE); (0x1BC9D, 0x1BC9E); (0x1BCA0, 0x1BCA3);
   (0x1CF00, 0x1CF2D); (0x1CF30, 0x1CF46); (0x1D167, 0x1D169);
   (0x1D173, 0x1D182); (0x1D185, 0x1D18B); (0x1D1AA, 0x1D1AD);
   (0x1D242, 0x1D244); (0x1DA00, 0x1DA36); (0x1DA3B, 0x1DA6C);
   (0x1DA75, 0x1DA75); (0x1DA84, 0x1DA84); (0x1DA9B, 0x1DA9F);
   (0x1DAA1, 0x1DAAF); (0x1E000, 0x1E006); (0x1E008, 0x1E018);
   (0x1E01B, 0x1E021); (0x1E023, 0x1E024); (0x1E026, 0x1E02A);
   (0x1E130, 0x1E13D); (0x1E2AE, 0x1E2AE); (0x1E2EC, 0x1E2EF);
   (0x1E8D0, 0x1E8D6); (0x1E944, 0x1E94B); (0x1F3FB, 0x1F3FF);
   (0xE0001, 0xE0001); (0xE0020, 0xE007F); (0xE0100, 0xE01EF)
  ].

(** The code points for which [str.isspace] holds, as ranges. *)
Definition whitespace_table : list (Z * Z) :=
  [
   (0x9, 0xD); (0x1C, 0x20); (0x85, 0x85); (0xA0, 0xA0); (0x1680, 0x1680);
   (0x2000, 0x200A); (0x2028, 0x2029); (0x202F, 0x202F); (0x205F, 0x205F);
   (0x3000, 0x3000)
  ].

(** The decimal digits: each range is a whole number of runs of the digits
    0 to 9. *)
Definition decimal_table : list (Z * Z) :=
  [
   (0x30, 0x39); (0x660, 0x669); (0x6F0, 0x6F9); (0x7C0, 0x7C9);
   (0x966, 0x96F); (0x9E6, 0x9EF); (0xA66, 0xA6F); (0xAE6, 0xAEF);
   (0xB66, 0xB6F); (0xBE6, 0xBEF); (0xC66, 0xC6F); (0xCE6, 0xCEF);
   (0xD66, 0xD6F); (0xDE6, 0xDEF); (0xE50, 0xE59); (0xED0, 0xED9);
   (0xF20, 0xF29); (0x1040, 0x1049); (0x1090, 0x1099); (0x17E0, 0x17E9);
   (0x1810, 0x1819); (0x1946, 0x194F); (0x19D0, 0x19D9); (0x1A80, 0x1A89);
   (0x1A90, 0x1A99); (0x1B50, 0x1B59); (0x1BB0, 0x1BB9); (0x1C40, 0x1C49);
   (0x1C50, 0x1C59); (0xA620, 0xA629); (0xA8D0, 0xA8D9); (0xA900, 0xA909);
   (0xA9D0, 0xA9D9); (0xA9F0, 0xA9F9); (0xAA50, 0xAA59); (0xABF0, 0xABF9);
   (0xFF10, 0xFF19); (0x104A0, 0x104A9); (0x10D30, 0x10D39);
   (0x11066, 0x1106F); (0x110F0, 0x110F9); (0x11136, 0x1113F);
   (0x111D0, 0x111D9); (0x112F0, 0x112F9); (0x11450, 0x11459);
   (0x114D0, 0x114D9); (0x11650, 0x11659); (0x116C0, 0x116C9);
   (0x11730, 0x11739); (0x118E0, 0x118E9); (0x11950, 0x11959);
   (0x11C50, 0x11C59); (0x11D50, 0x11D59); (0x11DA0, 0x11DA9);
   (0x16A60, 0x16A69); (0x16AC0, 0x16AC9); (0x16B50, 0x16B59);
   (0x1D7CE, 0x1D7FF); (0x1E140, 0x1E149); (0x1E2F0, 0x1E2F9);
   (0x1E950, 0x1E959); (0x1FBF0, 0x1FBF9)
  ].

(** *** [str.lower] *)

(** The lowercase form of a code point other than U+0130 and U+03A3. *)
Definition to_lower (c : Z) : Z :=
  match
    List.find
      (λ r, match r with
            | (first, last, step, _) =>
                (first <=? c) && (c <=? last) && ((c - first) mod step =? 0)
            end)
      lowercase_table
  with
  | Some (_, _, _, delta) => c + delta
  | None => c
  end.

(** The full mapping: U+0130 is the one code point whose lowercase form has
    two code points. *)
Definition to_lower_full (c : Z) : list Z :=
  if c =? 0x130 then [0x69; 0x307] else [to_lower c].

Definition is_cased (ch : char) : bool :=
  match ch with
  | Code c => in_ranges c cased_table
  | Byte _ => false
  end.

Definition is_case_ignorable (ch : char) : bool :=
  match ch with
  | Code c => in_ranges c case_ignorable_table
  | Byte _ => false
  end.

(** A cased character follows, after any number of ignorable ones. *)
Fixpoint followed_by_cased (l : list char) : bool :=
  match l with
  | [] => false
  | ch :: rest =>
      if is_case_ignorable ch then followed_by_cased rest else is_cased ch
  end.

(** The characters of the lowercase form.  [after_cased] tells whether the
    last character before [l] that is not ignorable is cased.  U+03A3 becomes
    the final sigma U+03C2 after a cased character and not before one, and
    U+03C3 otherwise. *)
Fixpoint lower_chars (after_cased : bool) (l : list char) : list char :=
  match l with
  | [] => []
  | ch :: rest =>
      match ch with
      | Byte b => [ch]
      | Code c =>
          if c =? 0x3A3 then
            [Code (if after_cased && negb (followed_by_cased rest)
                   then 0x3C2 else 0x3C3)]
          else Code <$> to_lower_full c
      end
      ++ lower_chars (if is_case_ignorable ch then after_cased else is_cased ch)
           rest
  end.

(** [s.lower()]. *)
Definition lower (s : string) : string :=
  encode (lower_chars false (decode s)).

(** [s.lower()] for a text of ASCII characters: the letters A-Z change. *)
Definition is_upper (c : ascii) : bool :=
  let n := N_of_ascii c in (65 <=? n)%N && (n <=? 90)%N.

Definition lower_char (c : ascii) : ascii :=
  if is_upper c then ascii_of_N (N_of_ascii c + 32) else c.

Fixpoint ascii_lower (s : string) : string :=
  match s with
  | EmptyString => EmptyString
  | String c s' => String (lower_char c) (ascii_lower s')
  end.

Fixpoint is_ascii (s : string) : bool :=
  match s with
  | EmptyString => true
  | String c s' => (N_of_ascii c <? 128)%N && is_ascii s'
  end.

(** *** [str.strip] *)

(** [str.isspace] of a character. *)
Definition is_space (ch : char) : bool :=
  match ch with
  | Code c => in_ranges c whitespace_table
  | Byte _ => false
  end.

Fixpoint lstrip (l : list char) : list char :=
  match l with
  | [] => []
  | ch :: rest => if is_space ch then lstrip rest else l
  end.

Fixpoint rstrip (l : list char) : list char :=
  match l with
  | [] => []
  | ch :: rest =>
      match rstrip rest with
      | [] => if is_space ch then [] else [ch]
      | t => ch :: t
      end
  end.

(** [s.strip()]. *)
Definition strip (s : string) : string :=
  encode (rstrip (lstrip (decode s))).

(** *** [int] of a text *)

(** The value of a decimal digit of any script. *)
Definition decimal_digit (c : Z) : option Z :=
  (λ r, (c - r.1) mod 10)
  <$> List.find (λ r, (r.1 <=? c) && (c <=? r.2)) decimal_table.

(** What [int] reads in place of a character: a character below 127 is
    kept, white space becomes a space, a decimal digit becomes its ASCII
    digit, and anything else becomes a question mark, with which no number
    is written. *)
Definition to_ascii (ch : char) : ascii :=
  match ch with
  | Byte _ => "?"%char
  | Code c =>
      if c <? 127 then byte_of c
      else if is_space ch then " "%char
      else match decimal_digit c with
           | Some d => byte_of (48 + d)
           | None => "?"%char
           end
  end.

(** The white space that the parser of integers skips: tab to carriage
    return, and the space. *)
Definition is_c_space (a : ascii) : bool :=
  let n := N_of_ascii a in
  ((9 <=? n)%N && (n <=? 13)%N) || (n =? 32)%N.

Fixpoint skip_spaces (l : list ascii) : list ascii :=
  match l with
  | [] => []
  | a :: rest => if is_c_space a then skip_spaces rest else l
  end.

Definition digit_val (c : ascii) : option Z :=
  let n := N_of_ascii c in
  if (48 <=? n)%N && (n <=? 57)%N then Some (Z.of_N n - 48) else None.

(** The digits of an integer literal, most significant first; one underscore
    is allowed between two digits, and white space may follow the last
    digit.  [prev] tells whether the previous character was a digit. *)
Fixpoint int_digits (acc : Z) (prev : bool) (l : list ascii) : option Z :=
  match l with
  | [] => if prev then Some acc else None
  | c :: rest =>
      match digit_val c with
      | Some d => int_digits (10 * acc + d) true rest
      | None =>
          if Ascii.eqb c "_"%char && prev then int_digits acc false rest
          else if prev then
            match skip_spaces l with
            | [] => Some acc
            | _ => None
            end
          else None
      end
  end.

(** [int(s)] for a [str] in base ten: white space, an optional sign, digits,
    white space.  [None] stands for the [ValueError]. *)
Definition py_int (s : string) : option Z :=
  match skip_spaces (to_ascii <$> decode s) with
  | "-"%char :: t => Z.opp <$> int_digits 0 false t
  | "+"%char :: t => int_digits 0 false t
  | t => int_digits 0 false t
  end.

(** *** [urllib.parse.unquote] *)

Definition hex_val (c : ascii) : option N :=
  let n := N_of_ascii c in
  if (48 <=? n)%N && (n <=? 57)%N then Some (n - 48)%N
  else if (65 <=? n)%N && (n <=? 70)%N then Some (n - 55)%N
  else if (97 <=? n)%N && (n <=? 102)%N then Some (n - 87)%N
  else None.

(** [urllib.parse.unquote]: one pass that replaces every [%XX] with two
    hexadecimal digits by the byte it names and keeps any other [%].  The
    result is the byte sequence; its decoding as UTF-8 text, which turns
    malformed sequences into U+FFFD, does not move, add or remove an ASCII
    character. *)
Fixpoint unquote (s : string) : string :=
  match s with
  | EmptyString => EmptyString
  | String c rest =>
      if Ascii.eqb c "%"%char then
        match rest with
        | String h1 (String h2 rest') =>
            match hex_val h1, hex_val h2 with
            | Some a, Some b => String (ascii_of_N (16 * a + b)) (unquote rest')
            | _, _ => String c (unquote rest)
            end
        | _ => String c (unquote rest)
        end
      else String c (unquote rest)
  end.

End PyStr.

(** ** Values, exceptions, the log *)

(** Python values: what [json.load] returns, what the probes return and what
    is put into log lines.  A finite [float] is the rational it denotes; a
    [dict] with [str] keys is the list of its items. *)
Inductive pyval :=
  | VNone
  | VBool (b : bool)
  | VInt (n : Z)
  | VFloat (q : Qc)
  | VStr (s : string)
  | VList (l : list pyval)
  | VTuple (l : list pyval)
  | VDict (items : list (string * pyval)).

(** A [list] of [str]. *)
Definition VStrList (l : list string) : pyval := VList (VStr <$> l).

(** [bool(v)]. *)
Definition truthy (v : pyval) : bool :=
  match v with
  | VNone => false
  | VBool b => b
  | VInt n => negb (n =? 0)
  | VFloat q => negb (bool_decide (q = Q2Qc 0))
  | VStr s => negb (String.eqb s EmptyString)
  | VList l | VTuple l => match l with [] => false | _ => true end
  | VDict items => match items with [] => false | _ => true end
  end.

(** A raised exception: its class and [str(e)]. *)
Record exn := Exn { exn_class : string; exn_str : string }.

Inductive log_level := INFO | DEBUG | ERROR | SUCCESS | WARNING.

(** One line written by [log_message]: the level and the message.  The
    message is an f-string, kept as its text with [{}] for each hole and the
    values put into the holes. *)
Record log_entry := Log {
  log_level_of : log_level;
  log_text : string;
  log_args : list pyval
}.

(** A line of [valid.txt]:
    [f"{url} -> {final_url} (Laddoo Type: {laddoo_type})\n"]. *)
Record match_line := MatchLine {
  ml_url : string;
  ml_final_url : string;
  ml_laddoo_type : string
}.

(** The arguments of one call of [telegram_bot.send_valid_link]. *)
Record notification := Notification {
  nt_code : string;
  nt_redirect_url : string;
  nt_patterns_found : list string;
  nt_system_name : string;
  nt_laddoo_type : string
}.

(** The requests that leave the process. *)
Inductive request :=
  | CurlHttpCode (url : string)      (* curl -o /dev/null -s -w %{http_code} *)
  | CurlUrlEffective (url : string)  (* curl -Ls -o /dev/null -w %{url_effective} *)
  | RequestsHead (url : string)      (* requests.head(allow_redirects=False) *)
  | RequestsGet (url : string).      (* requests.get(allow_redirects=True) *)

(** Whether a request follows redirects. *)
Definition follows_redirects (r : request) : bool :=
  match r with
  | CurlUrlEffective _ | RequestsGet _ => true
  | CurlHttpCode _ | RequestsHead _ => false
  end.

(** What the outside answers.  Each call either returns or raises; the
    answer to a request is a function of the URL asked for. *)
Record world := World {
  (** [subprocess.run] of the two curl commands: the captured stdout *)
  curl_http_code : string → exn + string;
  curl_url_effective : string → exn + string;
  (** [requests.head]: the status code *)
  requests_head : string → exn + Z;
  (** [requests.get]: the status code and [response.url] *)
  requests_get : string → exn + (Z * string);
  (** [telegram_bot.send_valid_link]: its boolean result *)
  telegram_send_valid_link : notification → exn + bool;
  (** [SYSTEM_NAME], as [ask_for_system_name] has set it *)
  SYSTEM_NAME : string
}.

(** ** Configuration (lines 17-53 of [LaddooHunt.py]) *)

Definition OUTPUT_FILE : string := "valid.txt".
Definition CHECKPOINT_FILE : string := "checkpoint.json".
Definition LADDOO_PATTERNS : list string :=
  ["iplladdoo2025"; "socialTitle=Psst"; "Laddoo+for+you"].
Definition LADDOO_TYPES : list string :=
  ["Steady"; "Sparky"; "Zen"; "Elastic"; "Boom"; "Dash"; "Bazooka"; "Dizzy";
   "Sunny"; "Ninja"; "Wally"].
Definition ENABLE_TELEGRAM : bool := true.
Definition VERBOSE : bool := true.

(** ** The match classifier *)

(** The three variables of the pattern loop of [check_url_curl] (lines
    235-256) and of [check_url_requests] (lines 327-348), and the lines the
    loop logs. *)
Record scan := Scan {
  all_patterns_found : bool;
  found_patterns : list string;
  missing_patterns : list string;
  scan_log : list log_entry
}.

Definition scan_init : scan :=
  {| all_patterns_found := true; found_patterns := [];
     missing_patterns := []; scan_log := [] |}.

(** One turn of [for pattern in LADDOO_PATTERNS]. *)
Definition scan_step (final_url decoded_url : string) (acc : scan)
    (pattern : string) : scan :=
  let in_raw := PyStr.contains pattern final_url in
  let in_decoded := PyStr.contains pattern decoded_url in
  if in_raw || in_decoded then
    {| all_patterns_found := all_patterns_found acc;
       found_patterns := found_patterns acc ++ [pattern];
       missing_patterns := missing_patterns acc;
       scan_log := scan_log acc
         ++ (if in_raw
             then [Log DEBUG "Found pattern in raw URL: {}" [VStr pattern]]
             else [])
         ++ (if in_decoded
             then [Log DEBUG "Found pattern in decoded URL: {}" [VStr pattern]]
             else []) |}
  else
    {| all_patterns_found := false;
       found_patterns := found_patterns acc;
       missing_patterns := missing_patterns acc ++ [pattern];
       scan_log := scan_log acc
         ++ [Log DEBUG "Missing pattern: {}" [VStr pattern]] |}.

Definition scan_patterns (patterns : list string)
    (final_url decoded_url : string) : scan :=
  fold_left (scan_step final_url decoded_url) patterns scan_init.

(** The classifier on a resolved URL: the loop run on the URL and on
    [unquote] of it. *)
Definition classify (final_url : string) : scan :=
  scan_patterns LADDOO_PATTERNS final_url (PyStr.unquote final_url).

(** [extract_laddoo_type], lines 166-171. *)
Fixpoint extract_from (types : list string) (url : string) : string :=
  match types with
  | [] => "Other"
  | laddoo_type :: rest =>
      if PyStr.contains (PyStr.lower laddoo_type) (PyStr.lower url)
      then laddoo_type
      else extract_from rest url
  end.

Definition extract_laddoo_type (url : string) : string :=
  extract_from LADDOO_TYPES url.

(** ** Files, state and the monad of effects *)

(** The content of a file that [json.load] reads.  A file that [json.dump]
    wrote from dicts, lists, strings and numbers holds a document, and
    [json.load] gives that document back; on any other content [json.load]
    raises. *)
Inductive file :=
  | FJson (document : pyval)
  | FMalformed (e : exn).

(** An f-string that is not a log line: its text with [{}] for each hole,
    and the values put into the holes. *)
Record fstring := FString { fs_text : string; fs_args : list pyval }.

(** What the functions read and change.  The disk is readable and writable:
    [open] does not raise.  Lines printed on the terminal are left out. *)
Record state := State {
  st_log : list log_entry;            (* the logs file, oldest line first *)
  st_output : list match_line;        (* OUTPUT_FILE, oldest line first *)
  st_telegram : list notification;    (* calls of send_valid_link *)
  st_requests : list request;         (* requests sent, oldest first *)
  st_files : gmap string file;        (* the checkpoint file and its .tmp *)
  st_result_queue : list fstring;     (* result_queue, oldest item first *)
  st_counter : Z;                     (* counter.count *)
  st_task_done : nat                  (* calls of work_queue.task_done *)
}.

Definition set_log (f : list log_entry → list log_entry) (st : state) : state :=
  State (f (st_log st)) (st_output st) (st_telegram st) (st_requests st)
        (st_files st) (st_result_queue st) (st_counter st) (st_task_done st).
Definition set_output (f : list match_line → list match_line) (st : state) : state :=
  State (st_log st) (f (st_output st)) (st_telegram st) (st_requests st)
        (st_files st) (st_result_queue st) (st_counter st) (st_task_done st).
Definition set_telegram (f : list notification → list notification) (st : state) : state :=
  State (st_log st) (st_output st) (f (st_telegram st)) (st_requests st)
        (st_files st) (st_result_queue st) (st_counter st) (st_task_done st).
Definition set_requests (f : list request → list request) (st : state) : state :=
  State (st_log st) (st_output st) (st_telegram st) (f (st_requests st))
        (st_files st) (st_result_queue st) (st_counter st) (st_task_done st).
Definition set_files (f : gmap string file → gmap string file) (st : state) : state :=
  State (st_log st) (st_output st) (st_telegram st) (st_requests st)
        (f (st_files st)) (st_result_queue st) (st_counter st) (st_task_done st).
Definition set_result_queue (f : list fstring → list fstring) (st : state) : state :=
  State (st_log st) (st_output st) (st_telegram st) (st_requests st)
        (st_files st) (f (st_result_queue st)) (st_counter st) (st_task_done st).
Definition set_counter (f : Z → Z) (st : state) : state :=
  State (st_log st) (st_output st) (st_telegram st) (st_requests st)
        (st_files st) (st_result_queue st) (f (st_counter st)) (st_task_done st).
Definition set_task_done (f : nat → nat) (st : state) : state :=
  State (st_log st) (st_output st) (st_telegram st) (st_requests st)
        (st_files st) (st_result_queue st) (st_counter st) (f (st_task_done st)).

Definition initial_state : state := State [] [] [] [] ∅ [] 0 0%nat.

(** The result of running a piece of code: it returns or it raises. *)
Inductive outcome (A : Type) :=
  | Ret (a : A)
  | Raise (e : exn).
Arguments Ret {A} a.
Arguments Raise {A} e.

Definition M (A : Type) : Type := state → outcome A * state.

Definition ret {A} (a : A) : M A := λ st, (Ret a, st).
Definition raise {A} (e : exn) : M A := λ st, (Raise e, st).
Definition bind {A B} (m : M A) (k : A → M B) : M B := λ st,
  match m st with
  | (Ret a, st') => k a st'
  | (Raise e, st') => (Raise e, st')
  end.
(** [try: m  except Exception as e: h e]. *)
Definition catch {A} (m : M A) (h : exn → M A) : M A := λ st,
  match m st with
  | (Ret a, st') => (Ret a, st')
  | (Raise e, st') => h e st'
  end.

#[global] Instance M_ret : MRet M := @ret.
#[global] Instance M_bind : MBind M := λ A B k m, bind m k.

Definition modify (f : state → state) : M unit := λ st, (Ret tt, f st).
Definition when (b : bool) (m : M unit) : M unit := if b then m else ret tt.

(** A call that the world answers. *)
Definition answer {A} (r : exn + A) : M A :=
  match r with
  | inl e => raise e
  | inr a => ret a
  end.

(** [log_message], lines 66-74. *)
Definition log_message (text : string) (args : list pyval) (level : log_level)
    : M unit :=
  if negb VERBOSE then ret tt
  else modify (set_log (λ l, l ++ [Log level text args])).

Definition log_lines (ls : list log_entry) : M unit :=
  if negb VERBOSE then ret tt else modify (set_log (λ l, l ++ ls)).

(** Sending a request: it is recorded, then the world answers. *)
Definition send {A} (r : request) (reply : exn + A) : M A :=
  modify (set_requests (λ l, l ++ [r]));; answer reply.

(** [int(s)]. *)
Definition int_of_str (s : string) : M Z :=
  match PyStr.py_int s with
  | Some n => ret n
  | None =>
      raise (Exn "ValueError" ("invalid literal for int() with base 10: " +:+ s))
  end.

Definition candidate_url (code : string) : string :=
  "https://gpay.app.goo.gl/" +:+ code.

(** ** The probe client *)

(** [is_valid_url], lines 173-200. *)
Definition is_valid_url (w : world) (code : string) (use_curl : bool) : M bool :=
  let url := candidate_url code in
  catch
    (if use_curl then
       stdout ← send (CurlHttpCode url) (curl_http_code w url);
       status_code ← int_of_str (PyStr.strip stdout);
       log_message "URL validity check for {} returned status code: {}"
         [VStr url; VInt status_code] DEBUG;;
       ret ((200 <=? status_code) && (status_code <? 400))
     else
       status_code ← send (RequestsHead url) (requests_head w url);
       log_message "URL validity check for {} returned status code: {}"
         [VStr url; VInt status_code] DEBUG;;
       ret ((200 <=? status_code) && (status_code <? 400)))
    (λ e,
       log_message "Error checking URL validity for {}: {}"
         [VStr url; VStr (exn_str e)] ERROR;;
       ret false).

(** The guarded call of [telegram_bot.send_valid_link] that both probes make
    (lines 281-289 and 375-384). *)
Definition notify_telegram (w : world) (code final_url : string)
    (found : list string) (laddoo_type : string) : M unit :=
  when ENABLE_TELEGRAM
    (let n := Notification code final_url found (SYSTEM_NAME w) laddoo_type in
     catch
       (modify (set_telegram (λ l, l ++ [n]));;
        success ← answer (telegram_send_valid_link w n);
        ret tt)
       (λ e,
          log_message "Error sending Telegram notification: {}"
            [VStr (exn_str e)] ERROR)).

(** [with open(OUTPUT_FILE, "a") as f: f.write(...)]. *)
Definition append_output (line : match_line) : M unit :=
  modify (set_output (λ l, l ++ [line])).

(** [check_url_curl], lines 206-298. *)
Definition check_url_curl (w : world) (code : string) : M pyval :=
  let url := candidate_url code in
  catch
    (valid ← is_valid_url w code true;
     if negb valid then
       log_message "Skipping pattern check for invalid URL: {}" [VStr url] INFO;;
       ret (VTuple [VBool false; VStr code; VNone; VNone; VNone])
     else
       log_message "Running curl check for {}" [VStr url] INFO;;
       stdout ← send (CurlUrlEffective url) (curl_url_effective w url);
       let final_url := PyStr.strip stdout in
       let decoded_url := PyStr.unquote final_url in
       log_message "URL analysis:" [] DEBUG;;
       log_message "Original URL: {}" [VStr url] DEBUG;;
       log_message "Final URL: {}" [VStr final_url] DEBUG;;
       log_message "Decoded URL: {}" [VStr decoded_url] DEBUG;;
       log_message "Checking for ALL patterns: {}"
         [VStrList LADDOO_PATTERNS] DEBUG;;
       let sc := scan_patterns LADDOO_PATTERNS final_url decoded_url in
       log_lines (scan_log sc);;
       if all_patterns_found sc then
         log_message "All {} required patterns found!"
           [VInt (Z.of_nat (length LADDOO_PATTERNS))] SUCCESS;;
         log_message "VALID Laddoo URL found: {}" [VStr url] SUCCESS;;
         log_message "All patterns found: {}"
           [VStrList (found_patterns sc)] INFO;;
         let laddoo_type := extract_laddoo_type decoded_url in
         log_message "Identified laddoo type: {}" [VStr laddoo_type] INFO;;
         log_message "URL {} is valid with patterns: {}"
           [VStr url; VStrList (found_patterns sc)] INFO;;
         log_message "Redirects to: {}" [VStr final_url] INFO;;
         log_message "Laddoo Type: {}" [VStr laddoo_type] INFO;;
         append_output (MatchLine url final_url laddoo_type);;
         notify_telegram w code final_url (found_patterns sc) laddoo_type;;
         ret (VTuple [VBool true; VStr code; VStr url; VStr final_url;
                      VStrList (found_patterns sc); VStr laddoo_type])
       else
         log_message "Found only {}/{} required patterns"
           [VInt (Z.of_nat (length (found_patterns sc)));
            VInt (Z.of_nat (length LADDOO_PATTERNS))] INFO;;
         log_message "Missing patterns: {}"
           [VStrList (missing_patterns sc)] DEBUG;;
         ret (VTuple [VBool false; VStr code; VNone; VStr final_url; VNone]))
    (λ e,
       log_message "Error in curl check: {}" [VStr (exn_str e)] ERROR;;
       ret (VTuple [VBool false; VStr code; VStr ("Error: " +:+ exn_str e);
                    VNone; VNone])).

(** [check_url_requests], lines 301-393.  When the test of line 355 fails the
    function reaches its end and returns [None]. *)
Definition check_url_requests (w : world) (code : string) : M pyval :=
  let url := candidate_url code in
  catch
    (valid ← is_valid_url w code false;
     if negb valid then
       log_message "Skipping pattern check for invalid URL: {}" [VStr url] INFO;;
       ret (VTuple [VBool false; VStr code; VNone; VNone; VNone])
     else
       log_message "Running requests check for {}" [VStr url] INFO;;
       response ← send (RequestsGet url) (requests_get w url);
       let status_code := fst response in
       let final_url := snd response in
       let decoded_url := PyStr.unquote final_url in
       log_message "URL analysis:" [] DEBUG;;
       log_message "Original URL: {}" [VStr url] DEBUG;;
       log_message "Status Code: {}" [VInt status_code] DEBUG;;
       log_message "Final URL: {}" [VStr final_url] DEBUG;;
       log_message "Decoded URL: {}" [VStr decoded_url] DEBUG;;
       log_message "Checking for ALL patterns: {}"
         [VStrList LADDOO_PATTERNS] DEBUG;;
       let sc := scan_patterns LADDOO_PATTERNS final_url decoded_url in
       log_lines (scan_log sc);;
       if all_patterns_found sc then
         log_message "All {} required patterns found!"
           [VInt (Z.of_nat (length LADDOO_PATTERNS))] SUCCESS;;
         log_message "VALID Laddoo URL found: {}" [VStr url] SUCCESS;;
         log_message "All patterns found: {}"
           [VStrList (found_patterns sc)] INFO;;
         if all_patterns_found sc
            || (0 <? Z.of_nat (length (found_patterns sc))) then
           let laddoo_type := extract_laddoo_type decoded_url in
           log_message "Identified laddoo type: {}" [VStr laddoo_type] INFO;;
           append_output (MatchLine url final_url laddoo_type);;
           notify_telegram w code final_url (found_patterns sc) laddoo_type;;
           ret (VTuple [VBool true; VStr code; VStr url; VStr final_url;
                        VStrList (found_patterns sc); VStr laddoo_type])
         else ret VNone
       else
         log_message "Found only {}/{} required patterns"
           [VInt (Z.of_nat (length (found_patterns sc)));
            VInt (Z.of_nat (length LADDOO_PATTERNS))] INFO;;
         log_message "Missing patterns: {}"
           [VStrList (missing_patterns sc)] DEBUG;;
         ret (VTuple [VBool false; VStr code; VNone; VStr final_url; VNone]))
    (λ e,
       log_message "Error in requests check: {}" [VStr (exn_str e)] ERROR;;
       ret (VTuple [VBool false; VStr code; VStr ("Error: " +:+ exn_str e);
                    VNone; VNone])).

(** ** The worker *)

(** The items that iterating over a value gives; [None] when the value is not
    iterable. *)
Definition py_iter (v : pyval) : option (list pyval) :=
  match v with
  | VList l | VTuple l => Some l
  | VStr s => Some ((λ c, VStr (String c EmptyString)) <$> list_ascii_of_string s)
  | VDict items => Some ((λ kv, VStr (fst kv)) <$> items)
  | VNone | VBool _ | VInt _ | VFloat _ => None
  end.

#[global] Instance pyval_inhabited : Inhabited pyval := populate VNone.

(** [x1, ..., xn = v]: the [n] values bound, or the exception raised. *)
Definition unpack (n : nat) (v : pyval) : M (list pyval) :=
  match py_iter v with
  | None => raise (Exn "TypeError" "cannot unpack non-iterable object")
  | Some l =>
      if (length l <? n)%nat then
        raise (Exn "ValueError"
                 ("not enough values to unpack (expected " +:+ pretty n
                  +:+ ", got " +:+ pretty (length l) +:+ ")"))
      else if (n <? length l)%nat then
        raise (Exn "ValueError"
                 ("too many values to unpack (expected " +:+ pretty n +:+ ")"))
      else ret l
  end.

(** [len(v)]. *)
Definition py_len (v : pyval) : M nat :=
  match v with
  | VList l | VTuple l => ret (length l)
  | VStr s => ret (String.length s)
  | VDict items => ret (length items)
  | VNone | VBool _ | VInt _ | VFloat _ =>
      raise (Exn "TypeError" "object has no len()")
  end.

(** [counter.increment()]. *)
Definition counter_increment : M Z := λ st,
  let st' := set_counter (λ c, c + 1) st in (Ret (st_counter st'), st').

Definition result_queue_put (item : fstring) : M unit :=
  modify (set_result_queue (λ q, q ++ [item])).

Definition task_done : M unit := modify (set_task_done S).

Definition check_func (w : world) (use_curl : bool) : string → M pyval :=
  if use_curl then check_url_curl w else check_url_requests w.

(** The statements of the [try] block of [worker] after the item is known to
    be a code (lines 407-418). *)
Definition worker_try (w : world) (use_curl : bool) (code : string) : M unit :=
  count ← counter_increment;
  when (count mod 100 =? 0)
    (log_message "Progress: {} codes processed" [VInt count] INFO);;
  result ← check_func w use_curl code;
  vars ← unpack 5 result;
  let valid := vars !!! 0%nat in
  let code' := vars !!! 1%nat in
  when (truthy valid)
    (result_queue_put (FString "https://gpay.app.goo.gl/{}" [code']));;
  task_done.

(** The [try] block from line 407 on with the handler of line 421:
    [except Exception as e: log_message(f"Worker error: {str(e)}", "ERROR")]. *)
Definition worker_turn (w : world) (use_curl : bool) (code : string) : M unit :=
  catch (worker_try w use_curl code)
    (λ e, log_message "Worker error: {}" [VStr (exn_str e)] ERROR).

(** What [work_queue.get(timeout=1)] gives: [queue.Empty] is raised, or an
    item is returned, which is a code or [None]. *)
Inductive dequeued :=
  | QueueEmpty
  | Item (code : option string).

(** One turn of the [while] loop of [worker] as the worker sees it: the value
    of [stop_event.is_set()] at the head of the loop, the result of the
    [get], and the value of [stop_event.is_set()] after it. *)
Record turn := Turn {
  stop_at_head : bool;
  got : dequeued;
  stop_after_get : bool
}.

(** A turn in which no stop is asked for and [code] is dequeued. *)
Definition probe_turn (code : string) : turn := Turn false (Item (Some code)) false.

(** [worker], lines 397-422, along the turns its loop takes.  The list ends
    where the worker is no longer looked at. *)
Fixpoint worker (w : world) (use_curl : bool) (turns : list turn) : M unit :=
  match turns with
  | [] => ret tt
  | t :: rest =>
      if stop_at_head t then ret tt
      else
        match got t with
        | QueueEmpty => worker w use_curl rest
        | Item None => ret tt
        | Item (Some code) =>
            if stop_after_get t then ret tt
            else
              worker_turn w use_curl code;;
              worker w use_curl rest
        end
  end.

(** [test_single_code], lines 618-641. *)
Definition test_single_code (w : world) (code : string) (use_curl : bool)
    : M pyval :=
  result ← check_func w use_curl code;
  n ← py_len result;
  vars ← (if (6 <=? n)%nat then unpack 6 result else unpack 5 result);
  let valid := vars !!! 0%nat in
  let code' := vars !!! 1%nat in
  when (negb (truthy valid))
    (log_message "Tested URL: https://gpay.app.goo.gl/{} - Not valid"
       [code'] INFO);;
  ret valid.

(** ** The dedup tracker *)

(** [UrlTracker], lines 92-110: the object is its field [processed_urls].
    Each method runs under the lock of the object, so it is one step. *)
Module UrlTracker.

Definition init : gset string := ∅.

Definition is_processed (url : string) (processed_urls : gset string) : bool :=
  bool_decide (url ∈ processed_urls).

(** The result, and the set after the call. *)
Definition mark_processed (url : string) (processed_urls : gset string)
    : bool * gset string :=
  if bool_decide (url ∈ processed_urls) then (false, processed_urls)
  else (true, processed_urls ∪ {[url]}).

Definition get_processed_count (processed_urls : gset string) : nat :=
  size processed_urls.

(** A sequence of calls of [mark_processed]: the results, and the set after
    the last call. *)
Fixpoint mark_all (urls : list string) (processed_urls : gset string)
    : list bool * gset string :=
  match urls with
  | [] => ([], processed_urls)
  | url :: rest =>
      let '(r, s) := mark_processed url processed_urls in
      let '(rs, s') := mark_all rest s in
      (r :: rs, s')
  end.

End UrlTracker.

(** ** The checkpoint store *)

(** The members of a [set]: [None], numbers and strings.  [True], [1] and
    [1.0] are equal and hash alike, so a number is the rational it denotes. *)
Inductive hashable :=
  | HNone
  | HNum (q : Qc)
  | HStr (s : string).

#[global] Instance hashable_eq_dec : EqDecision hashable.
Proof. solve_decision. Defined.

#[global] Instance hashable_countable : Countable hashable.
Proof.
  refine (inj_countable'
    (λ h, match h with
          | HNone => inl ()
          | HNum q => inr (inl q)
          | HStr s => inr (inr s)
          end)
    (λ x, match x with
          | inl () => HNone
          | inr (inl q) => HNum q
          | inr (inr s) => HStr s
          end) _).
  by intros [].
Defined.

(** [hash(v)] succeeds on [None], numbers and strings; lists and dicts are
    unhashable.  [json.load] makes no tuple. *)
Definition hash_key (v : pyval) : option hashable :=
  match v with
  | VNone => Some HNone
  | VBool b => Some (HNum (Q2Qc (inject_Z (if b then 1 else 0))))
  | VInt n => Some (HNum (Q2Qc (inject_Z n)))
  | VFloat q => Some (HNum q)
  | VStr s => Some (HStr s)
  | VList _ | VDict _ => None
  | VTuple l => None
  end.

(** [set(v)]. *)
Definition py_set (v : pyval) : M (gset hashable) :=
  match py_iter v with
  | None => raise (Exn "TypeError" "object is not iterable")
  | Some l =>
      match mapM hash_key l with
      | Some keys => ret (list_to_set keys)
      | None => raise (Exn "TypeError" "unhashable type")
      end
  end.

Fixpoint assoc (key : string) (items : list (string * pyval)) : option pyval :=
  match items with
  | [] => None
  | (k, v) :: rest => if String.eqb k key then Some v else assoc key rest
  end.

(** [d.get(key, default)]. *)
Definition dict_get (d : pyval) (key : string) (dflt : pyval) : M pyval :=
  match d with
  | VDict items => ret (default dflt (assoc key items))
  | _ => raise (Exn "AttributeError" "object has no attribute 'get'")
  end.

(** [a or b]: [b] is evaluated only when [a] is false. *)
Definition py_or (a : pyval) (b : M pyval) : M pyval :=
  if truthy a then ret a else b.

(** [time.localtime(t)] takes a number, or [None] for the present time; its
    result is kept as the number of seconds.  The limits of the platform on
    the size of [t] are left out. *)
Definition localtime (t : pyval) (now : Qc) : M Qc :=
  match t with
  | VNone => ret now
  | VBool b => ret (Q2Qc (inject_Z (if b then 1 else 0)))
  | VInt n => ret (Q2Qc (inject_Z n))
  | VFloat q => ret q
  | VStr _ | VList _ | VTuple _ | VDict _ =>
      raise (Exn "TypeError" "an integer is required")
  end.

Definition file_exists (path : string) : M bool := λ st,
  (Ret (bool_decide (is_Some (st_files st !! path))), st).

(** [open(path, 'w')] followed by [json.dump(data, f)]. *)
Definition write_json (path : string) (data : pyval) : M unit :=
  modify (set_files (<[path := FJson data]>)).

(** [os.replace(src, dst)]: the file moves, over [dst] if it exists. *)
Definition os_replace (src dst : string) : M unit := λ st,
  match st_files st !! src with
  | Some content =>
      (Ret tt, set_files (λ fs, <[dst := content]> (delete src fs)) st)
  | None => (Raise (Exn "FileNotFoundError" src), st)
  end.

(** [os.rename(src, dst)]: where the system refuses to rename over an
    existing file, [FileExistsError] is raised; [save_checkpoint] calls it
    only when [dst] does not exist. *)
Definition os_rename (src dst : string) : M unit := λ st,
  match st_files st !! src, st_files st !! dst with
  | Some content, None =>
      (Ret tt, set_files (λ fs, <[dst := content]> (delete src fs)) st)
  | Some _, Some _ => (Raise (Exn "FileExistsError" dst), st)
  | None, _ => (Raise (Exn "FileNotFoundError" src), st)
  end.

(** [open(path, "r")] followed by [json.load(f)]. *)
Definition read_json (path : string) : M pyval := λ st,
  match st_files st !! path with
  | Some (FJson document) => (Ret document, st)
  | Some (FMalformed e) => (Raise e, st)
  | None => (Raise (Exn "FileNotFoundError" path), st)
  end.

(** [save_checkpoint], lines 530-556.  [now] is the value of [time.time()].
    [processed] holds candidate codes and [counter_value] is an [int]. *)
Definition save_checkpoint (processed : gset string) (counter_value : Z)
    (now : Qc) : M bool :=
  catch
    (let checkpoint_data :=
       VDict [("codes", VStrList (elements processed));
              ("counter", VInt counter_value);
              ("timestamp", VFloat now)] in
     let temp_file := CHECKPOINT_FILE +:+ ".tmp" in
     write_json temp_file checkpoint_data;;
     present ← file_exists CHECKPOINT_FILE;
     (if (present : bool) then os_replace temp_file CHECKPOINT_FILE
      else os_rename temp_file CHECKPOINT_FILE);;
     log_message "Checkpoint saved with {} codes" [VInt counter_value] INFO;;
     ret true)
    (λ e,
       log_message "Failed to save checkpoint: {}" [VStr (exn_str e)] ERROR;;
       ret false).

(** The [try] block of [load_checkpoint], lines 562-576.  [now] is the value
    of [time.time()].  The string that [strftime] makes is not empty, so the
    [or] of line 569 keeps it; the log line holds the time as a number. *)
Definition load_checkpoint_try (now : Qc) : M (gset hashable * pyval) :=
  present ← file_exists CHECKPOINT_FILE;
  if (present : bool) then
    checkpoint_data ← read_json CHECKPOINT_FILE;
    codes ← dict_get checkpoint_data "codes" (VList []);
    codes' ← py_or codes (dict_get checkpoint_data "processed_codes" (VList []));
    processed_codes ← py_set codes';
    count ← dict_get checkpoint_data "counter" (VInt 0);
    processed_count ← py_or count (dict_get checkpoint_data "processed_count" (VInt 0));
    saved_at ← dict_get checkpoint_data "timestamp" (VFloat now);
    timestamp ← localtime saved_at now;
    log_message "Checkpoint loaded: {} codes from {}"
      [processed_count; VFloat timestamp] INFO;;
    ret (processed_codes, processed_count)
  else ret (∅, VInt 0).

(** [load_checkpoint], lines 559-580: the [try] block and its handler. *)
Definition load_checkpoint (now : Qc) : M (gset hashable * pyval) :=
  catch (load_checkpoint_try now)
    (λ e,
       log_message "Error loading checkpoint: {}" [VStr (exn_str e)] ERROR;;
       ret (∅, VInt 0)).

(** ** The orchestrator *)

(** The start of [main], lines 720-747: the checkpoint is loaded and, when it
    holds codes, the user is asked whether to resume; [resume_choice] is the
    answer typed.  The result is [processed_codes].  The start of the
    auto-save thread and the choice of the backend, which come in between,
    do not touch the seen-set or the counter and are left out. *)
Definition startup (now : Qc) (resume_choice : string) : M (gset hashable) :=
  '(processed_codes, last_count) ← load_checkpoint now;
  modify (set_counter (λ _, Z.of_nat (size processed_codes)));;
  log_message "Checkpoint loaded: {} codes processed"
    [VInt (Z.of_nat (size processed_codes))] INFO;;
  if (0 <? size processed_codes)%nat then
    let resume := String.eqb (PyStr.lower resume_choice) "y" in
    if negb resume then
      modify (set_counter (λ _, 0));;
      log_message "Starting fresh session, ignoring checkpoint" [] INFO;;
      ret ∅
    else
      log_message "Resuming from checkpoint with {} processed codes"
        [VInt (Z.of_nat (size processed_codes))] INFO;;
      ret processed_codes
  else ret processed_codes.

(** The generation loop of [main], lines 793-799, on the codes that the
    calls of [generate_random_code] return: a code in the seen-set is
    skipped, any other is put on the work queue and added to the seen-set. *)
Fixpoint generation_loop (draws : list string)
    (processed_codes : gset hashable) (work_queue : list string)
    : gset hashable * list string :=
  match draws with
  | [] => (processed_codes, work_queue)
  | code :: rest =>
      if bool_decide (HStr code ∈ processed_codes)
      then generation_loop rest processed_codes work_queue
      else generation_loop rest (processed_codes ∪ {[HStr code]})
             (work_queue ++ [code])
  end.

(** A run of [main] after the start: the code typed for the single test, if
    the user asked for one, is tested (lines 772-776); then the generation
    loop fills the work queue, starting from the seen-set [processed_codes],
    and the queued codes are probed.  [draws] are the codes that
    [generate_random_code] returns.  The saves of the checkpoint made along
    the loop do not touch the output file or the notifications and are left
    out. *)
Definition session (w : world) (use_curl : bool) (test_code : option string)
    (draws : list string) (processed_codes : gset hashable) : M unit :=
  match test_code with
  | Some code => test_single_code w code use_curl;; ret tt
  | None => ret tt
  end;;
  let work_queue := (generation_loop draws processed_codes []).2 in
  worker w use_curl (probe_turn <$> work_queue).

(** ** Notions used in the statements *)

(** [label] occurs in [url] up to the case of letters: the lowercase form
    of [label] is a part of the lowercase form of [url]. *)
Definition ci_substring_of (label url : string) : Prop :=
  PyStr.substring_of (PyStr.lower label) (PyStr.lower url).

(** A time stamp that [time.localtime] reads on every platform: a number of
    seconds from 0 to 2^31. *)
Definition plain_timestamp (v : pyval) : bool :=
  match v with
  | VInt n => (0 <=? n) && (n <? 2 ^ 31)
  | VFloat q =>
      bool_decide (0 ≤ q)%Qc && bool_decide (q < Q2Qc (inject_Z (2 ^ 31)))%Qc
  | _ => false
  end.

(** The same for texts of ASCII characters, on the text itself: a part of
    [url] and [label] differ in the case of the letters A-Z only. *)
Definition ascii_ci_substring_of (label url : string) : Prop :=
  ∃ l u r : string,
    url = l +:+ u +:+ r ∧ PyStr.ascii_lower u = PyStr.ascii_lower label.

(** The first request of a probe and the status it yields: [None] when the
    call raises or, for curl, when its output is not a number. *)
Definition phase1_request (use_curl : bool) (code : string) : request :=
  if use_curl then CurlHttpCode (candidate_url code)
  else RequestsHead (candidate_url code).

Definition phase1_status (w : world) (use_curl : bool) (code : string)
    : option Z :=
  if use_curl then
    match curl_http_code w (candidate_url code) with
    | inr stdout => PyStr.py_int (PyStr.strip stdout)
    | inl _ => None
    end
  else
    match requests_head w (candidate_url code) with
    | inr status_code => Some status_code
    | inl _ => None
    end.

(** The second request of a probe and the final URL it yields. *)
Definition phase2_request (use_curl : bool) (code : string) : request :=
  if use_curl then CurlUrlEffective (candidate_url code)
  else RequestsGet (candidate_url code).

Definition phase2_final_url (w : world) (use_curl : bool) (code : string)
    : exn + string :=
  if use_curl then
    match curl_url_effective w (candidate_url code) with
    | inr stdout => inr (PyStr.strip stdout)
    | inl e => inl e
    end
  else
    match requests_get w (candidate_url code) with
    | inr response => inr (snd response)
    | inl e => inl e
    end.

(** The candidate is a match: the status is in [200, 400), the final URL is
    obtained and the classifier finds every pattern in it. *)
Definition is_match (w : world) (use_curl : bool) (code : string) : bool :=
  match phase1_status w use_curl code with
  | Some status_code =>
      (200 <=? status_code) && (status_code <? 400) &&
      match phase2_final_url w use_curl code with
      | inr final_url => all_patterns_found (classify final_url)
      | inl _ => false
      end
  | None => false
  end.

(** The first component of a result tuple is true. *)
Definition confirmed (result : pyval) : bool :=
  match result with
  | VTuple (valid :: _) => truthy valid
  | _ => false
  end.

(** How many lines of the output file, and how many notifications, are
    those of the match key [candidate_url code]. *)
Definition persisted (code : string) (st : state) : nat :=
  length (filter (λ line, ml_url line = candidate_url code) (st_output st)).

Definition notified (code : string) (st : state) : nat :=
  length (filter (λ n, nt_code n = code) (st_telegram st)).

(** A log line of level [ERROR]. *)
Definition is_error (entry : log_entry) : Prop :=
  log_level_of entry = ERROR.

(** ** A world for the examples *)

(** A resolved URL that holds the three patterns, one of them only after
    decoding. *)
Definition demo_final_url : string :=
  "https://pay.google.com/gp/v/campaign/iplladdoo2025?socialTitle%3DPsst&text=Laddoo+for+you&laddoo=zen".

(** The code [UMtJXP] redirects to [demo_final_url]; the code [slow] times
    out on both backends; for the code [odd] curl prints no status; for the
    code [lost] the status is a redirect and the second request fails; any
    other code gives the status 404. *)
Definition demo_world : world := {|
  curl_http_code := λ url,
    if String.eqb url (candidate_url "UMtJXP") then inr "302"
    else if String.eqb url (candidate_url "lost") then inr "302"
    else if String.eqb url (candidate_url "slow")
      then inl (Exn "TimeoutExpired" "Command timed out after 8 seconds")
    else if String.eqb url (candidate_url "odd") then inr EmptyString
    else inr "404";
  curl_url_effective := λ url,
    if String.eqb url (candidate_url "UMtJXP") then inr demo_final_url
    else if String.eqb url (candidate_url "lost")
      then inl (Exn "TimeoutExpired" "Command timed out after 8 seconds")
    else inr url;
  requests_head := λ url,
    if String.eqb url (candidate_url "UMtJXP") then inr 302
    else if String.eqb url (candidate_url "lost") then inr 302
    else if String.eqb url (candidate_url "slow")
      then inl (Exn "ReadTimeout" "Read timed out. (read timeout=8)")
    else inr 404;
  requests_get := λ url,
    if String.eqb url (candidate_url "UMtJXP") then inr (200, demo_final_url)
    else if String.eqb url (candidate_url "lost")
      then inl (Exn "ConnectionError" "Connection aborted.")
    else inr (404, url);
  telegram_send_valid_link := λ n, inr true;
  SYSTEM_NAME := EmptyString
|}.

(** ** Further code of [LaddooHunt.py] *)

(** A world that differs from [w] in the answers of
    [telegram_bot.send_valid_link] only. *)
Definition with_telegram (w : world) (reply : notification → exn + bool)
    : world :=
  World (curl_http_code w) (curl_url_effective w) (requests_head w)
        (requests_get w) reply (SYSTEM_NAME w).

(** The turn ends the loop of [worker]: the stop event is set at the head of
    the loop, or the item is [None], or the stop event is set after the
    [get]. *)
Definition stops (t : turn) : bool :=
  stop_at_head t ||
  match got t with
  | QueueEmpty => false
  | Item None => true
  | Item (Some _) => stop_after_get t
  end.

(** The turn is a time-out of [work_queue.get] with the stop event clear. *)
Definition idle (t : turn) : bool :=
  negb (stop_at_head t) &&
  match got t with
  | QueueEmpty => true
  | Item _ => false
  end.

(** [ResultQueue.get], lines 120-124: [queue.Empty] is caught and [None] is
    returned, as for an item that is [None]. *)
Definition ResultQueue_get (d : dequeued) : option string :=
  match d with
  | QueueEmpty => None
  | Item item => item
  end.

(** [ResultWriter], lines 127-163.  The object is its batch, its tracker and
    the lines of its output file, [f"{url}\n"] for each; the file is
    writable, so the bare [except] of [run] is never entered. *)
Module ResultWriter.

Record t := Make {
  batch : list string;
  url_tracker : gset string;
  output_file : list string
}.

(** [_write_batch], lines 153-159. *)
Definition write_batch (self : t) : t :=
  match batch self with
  | [] => self
  | _ => Make [] (url_tracker self) (output_file self ++ batch self)
  end.

(** One turn of the loop of [run] as the writer sees it: the value of
    [self.running] at the head of the loop and the result of
    [self.result_queue.queue.get(timeout=2)]. *)
Record turn := Turn { running : bool; got : dequeued }.

(** [run], lines 138-151, along the turns its loop takes. *)
Fixpoint run (turns : list turn) (self : t) : t :=
  match turns with
  | [] => self
  | tn :: rest =>
      if negb (running tn) then self
      else
        match ResultQueue_get (got tn) with
        | None => write_batch self
        | Some item =>
            let '(new, tracker) :=
              UrlTracker.mark_processed item (url_tracker self) in
            if new then
              run rest
                (write_batch
                   (Make (batch self ++ [item]) tracker (output_file self)))
            else run rest (Make (batch self) tracker (output_file self))
        end
  end.

(** A turn that delivers [item] while the writer is running. *)
Definition deliver (item : string) : turn := Turn true (Item (Some item)).

End ResultWriter.

(** [string.ascii_letters + string.digits]. *)
Definition charset : string :=
  "abcdefghijklmnopqrstuvwxyzABCDEFGHIJKLMNOPQRSTUVWXYZ0123456789".

(** [random.choice(seq)]: the element of [seq] at an index below its length
    that the generator picks; [r] is the number the generator yields, and the
    index is [r] reduced below the length. *)
Definition random_choice (seq : string) (r : nat) : ascii :=
  default "000"%char (String.get (r mod String.length seq) seq).

(** [generate_random_code], lines 425-428.  [rng] gives the numbers of the
    generator, [pos] is how many it has yielded. *)
Definition generate_random_code (length : Z) (rng : nat → nat) (pos : nat)
    : string :=
  string_of_list_ascii
    ((λ i, random_choice charset (rng (pos + i)%nat)) <$> seq 0 (Z.to_nat length)).

(** The characters of a code: letters and digits. *)
Definition is_alnum (c : ascii) : bool :=
  let n := N_of_ascii c in
  ((48 <=? n)%N && (n <=? 57)%N) || ((65 <=? n)%N && (n <=? 90)%N)
  || ((97 <=? n)%N && (n <=? 122)%N).

Definition LOGS_FILE : string := "logs.txt".

(** [get_logs_filename], lines 202-204, for a value of [SYSTEM_NAME]. *)
Definition get_logs_filename (system_name : string) : string :=
  if negb (String.eqb system_name EmptyString)
  then system_name +:+ "-" +:+ LOGS_FILE
  else LOGS_FILE.

(** A world in which every code redirects to a URL that holds one of the
    three patterns. *)
Definition partial_world : world := {|
  curl_http_code := λ url, inr "301";
  curl_url_effective := λ url, inr "https://pay.google.com/?c=iplladdoo2025";
  requests_head := λ url, inr 301;
  requests_get := λ url, inr (200, "https://pay.google.com/?c=iplladdoo2025");
  telegram_send_valid_link := λ n, inl (Exn "RuntimeError" "no channel");
  SYSTEM_NAME := "box"
|}.

(** ** The notifier of [telegram_bot.py] *)

Module TelegramBot.

(** [LOGS_FILE], line 21. *)
Definition LOGS_FILE : string := "logs.txt".

(** A value that is a [str] or [None], and [bool] of it. *)
Definition truthy_str (a : option string) : bool :=
  match a with
  | Some s => negb (String.eqb s EmptyString)
  | None => false
  end.

(** [a or b]. *)
Definition or_else (a b : option string) : option string :=
  if truthy_str a then a else b.

(** The environment variables [TELEGRAM_BOT_TOKEN] and [TELEGRAM_CHAT_ID]. *)
Record environ := Environ {
  env_token : option string;
  env_chat_id : option string
}.

(** The line feed. *)
Definition nl : string := String (ascii_of_nat 10) EmptyString.

(** The JSON body of a [sendMessage] request. *)
Record payload := Payload {
  p_chat_id : option string;
  p_text : string;
  p_parse_mode : string
}.

(** [response.raise_for_status()] raises for the statuses from 400 to 599. *)
Definition is_http_error (status : Z) : bool :=
  (400 <=? status) && (status <? 600).

Module TelegramNotifier.

(** The fields of an instance that is initialised.  [base_url] is set only
    when the notifier is enabled. *)
Record t := Make {
  token : option string;
  chat_id : option string;
  system_name : string;
  enabled : bool
}.

Definition base_url (self : t) : string :=
  "https://api.telegram.org/bot" +:+ default EmptyString (token self).

(** The body of [__init__], lines 41-59, for an instance that is not
    initialised yet. *)
Definition init (env : environ) (token chat_id system_name : option string)
    : t :=
  let token' := or_else token (env_token env) in
  let chat_id' := or_else chat_id (env_chat_id env) in
  let system_name' :=
    default EmptyString (or_else system_name (Some EmptyString)) in
  Make token' chat_id' system_name'
    (negb (negb (truthy_str token') || negb (truthy_str chat_id'))).

(** [TelegramNotifier(token, chat_id, system_name)], lines 33-45: there is
    one instance, and [__init__] returns at once when it is initialised.
    [instance] is [None] before the first call. *)
Definition new (env : environ) (token chat_id system_name : option string)
    (instance : option t) : t :=
  match instance with
  | Some self => self
  | None => init env token chat_id system_name
  end.

(** [get_logs_filename], lines 138-142. *)
Definition get_logs_filename (self : t) : string :=
  if negb (String.eqb (system_name self) EmptyString)
  then system_name self +:+ "-" +:+ LOGS_FILE
  else LOGS_FILE.

(** The text of the message of [send_valid_link], lines 101-119. *)
Definition message (self : t) (code : string)
    (redirect_url : option string) (patterns_found : option (list string))
    (system_name : option string) (laddoo_type : option string) : string :=
  let url := "https://gpay.app.goo.gl/" +:+ code in
  let active_system_name :=
    or_else system_name (Some (TelegramNotifier.system_name self)) in
  "🎯 *Valid Ladoo Found!*" +:+ nl +:+ nl
  +:+ (if truthy_str active_system_name
       then "• System: *" +:+ default EmptyString active_system_name
            +:+ "*" +:+ nl
       else EmptyString)
  +:+ "• Code: `" +:+ code +:+ "`" +:+ nl
  +:+ "• URL: " +:+ url +:+ nl
  +:+ (if truthy_str laddoo_type
       then "• Ladoo Type: *" +:+ default EmptyString laddoo_type
            +:+ "*" +:+ nl
       else EmptyString)
  +:+ (if truthy_str redirect_url
       then "• Redirects to: " +:+ default EmptyString redirect_url +:+ nl
       else EmptyString)
  +:+ match patterns_found with
      | Some (p :: ps) =>
          nl +:+ "*Patterns Found:*" +:+ nl
          +:+ foldr (λ pattern rest, "✅ " +:+ pattern +:+ nl +:+ rest)
                EmptyString (p :: ps)
      | _ => EmptyString
      end.

(** The [try] block of [send_valid_link], lines 101-133.  [post] is what
    [requests.post] does with a URL and a JSON body: it raises or gives the
    status of the response, and [raise_for_status] raises for an error
    status; the text of that error is kept as the status.  The result is the
    value returned or the exception raised, and the requests posted. *)
Definition send_valid_link_try (post : string → payload → exn + Z)
    (self : t) (code : string) (redirect_url : option string)
    (patterns_found : option (list string)) (system_name : option string)
    (laddoo_type : option string) : outcome bool * list (string * payload) :=
  let text :=
    message self code redirect_url patterns_found system_name laddoo_type in
  let api_url := base_url self +:+ "/sendMessage" in
  let body := Payload (chat_id self) text "Markdown" in
  match post api_url body with
  | inl e => (Raise e, [(api_url, body)])
  | inr status =>
      if is_http_error status
      then (Raise (Exn "HTTPError" (pretty status)), [(api_url, body)])
      else (Ret true, [(api_url, body)])
  end.

(** The method [send_valid_link], lines 95-136: a disabled notifier returns
    at once, and [except Exception] turns what the block raises into
    [False]. *)
Definition send_valid_link (post : string → payload → exn + Z)
    (self : t) (code : string) (redirect_url : option string)
    (patterns_found : option (list string)) (system_name : option string)
    (laddoo_type : option string) : outcome bool * list (string * payload) :=
  if negb (enabled self) then (Ret false, [])
  else
    match
      send_valid_link_try post self code redirect_url patterns_found
        system_name laddoo_type
    with
    | (Raise e, posts) => (Ret false, posts)
    | (Ret result, posts) => (Ret result, posts)
    end.

End TelegramNotifier.

(** [initialize_bot], lines 280-285: the global [SYSTEM_NAME] of the module
    and the notifier. *)
Definition initialize_bot (env : environ) (token chat_id : string)
    (system_name : option string) (instance : option TelegramNotifier.t)
    : string * TelegramNotifier.t :=
  (default EmptyString (or_else system_name (Some EmptyString)),
   TelegramNotifier.new env (Some token) (Some chat_id) system_name instance).

(** The function [send_valid_link], lines 287-290, on the notification that
    [LaddooHunt.py] hands over. *)
Definition send_valid_link (env : environ) (post : string → payload → exn + Z)
    (instance : option TelegramNotifier.t) (n : notification)
    : outcome bool * list (string * payload) :=
  let notifier := TelegramNotifier.new env None None None instance in
  TelegramNotifier.send_valid_link post notifier (nt_code n)
    (Some (nt_redirect_url n)) (Some (nt_patterns_found n))
    (Some (nt_system_name n)) (Some (nt_laddoo_type n)).

End TelegramBot.



(** A world whose notification channel is [telegram_bot.send_valid_link]:
    the call returns what the function returns and raises what it raises. *)
Definition bot_world (w : world) (env : TelegramBot.environ)
    (post : string → TelegramBot.payload → exn + Z)
    (instance : option TelegramBot.TelegramNotifier.t) : world :=
  with_telegram w
    (λ n, match (TelegramBot.send_valid_link env post instance n).1 with
          | Ret result => inr result
          | Raise e => inl e
          end).

(** ** Notions used in the statements *)

(** The elements of a list, each once, in the order of their first
    occurrence: the head, then the first occurrences of the rest without the
    head. *)
Fixpoint first_occurrences (l : list string) : list string :=
  match l with
  | [] => []
  | x :: rest => x :: filter (λ y, y ≠ x) (first_occurrences rest)
  end.

(** * Properties *)

Example contains_ex1 : PyStr.contains "x=1" "https://h/abc?x=1" = true.
Proof. reflexivity. Qed.
Example contains_ex2 : PyStr.contains "x=1" "https://h/abc?x=2" = false.
Proof. reflexivity. Qed.
Example unquote_ex1 :
  PyStr.unquote "socialTitle%3DPsst%2c+a%zz%4" = "socialTitle=Psst,+a%zz%4".
Proof. reflexivity. Qed.
Example unquote_ex2 : PyStr.unquote "%%41%2541" = "%A%41".
Proof. reflexivity. Qed.
Example py_int_ex1 : PyStr.py_int " 302
" = Some 302.
Proof. reflexivity. Qed.
Example py_int_ex2 : PyStr.py_int EmptyString = None.
Proof. reflexivity. Qed.
Example py_int_ex3 : PyStr.py_int "-1_0" = Some (-10).
Proof. reflexivity. Qed.
Example py_int_ex4 : PyStr.py_int "1__0" = None.
Proof. reflexivity. Qed.
Example py_int_ex5 : PyStr.py_int " ٣٠٢ " = Some 302.
Proof. vm_compute. reflexivity. Qed.
Example py_int_ex6 : PyStr.py_int "302²" = None.
Proof. vm_compute. reflexivity. Qed.
Example lower_ex : PyStr.lower "Laddoo+Type=ZEN&k" = "laddoo+type=zen&k".
Proof. vm_compute. reflexivity. Qed.
Example lower_kelvin : PyStr.lower "SPARKY" = "sparky".
Proof. vm_compute. reflexivity. Qed.
Example lower_dotted_i : PyStr.lower "DİZZY" = "di̇zzy".
Proof. vm_compute. reflexivity. Qed.
Example lower_sigma : PyStr.lower "ΟΔΟΣ ΣΟΣ" = "οδος σος".
Proof. vm_compute. reflexivity. Qed.
Example strip_ex :
  PyStr.strip "  https://h/a b 　" = "https://h/a b".
Proof. vm_compute. reflexivity. Qed.
Example extract_ex_kelvin :
  extract_laddoo_type (PyStr.unquote "https://h/?type=spar%E2%84%AAy")
  = "Sparky".
Proof. vm_compute. reflexivity. Qed.

(** *** Facts about the search for a substring *)

Lemma startswith_spec (p s : string) :
  PyStr.startswith p s = true ↔ ∃ r : string, s = p +:+ r.
Proof.
  revert s. induction p as [|a p IH]; intros s; simpl.
  - split; [intros _; by exists s | done].
  - destruct s as [|b s].
    + split; [done | intros [r Hr]; discriminate Hr].
    + destruct (Ascii.eqb a b) eqn:Hab.
      * apply Ascii.eqb_eq in Hab as ->. rewrite IH.
        split; intros [r Hr]; exists r; [by rewrite Hr | by injection Hr].
      * apply Ascii.eqb_neq in Hab.
        split; [done | intros [r Hr]; injection Hr; congruence].
Qed.

Lemma contains_spec (p s : string) :
  PyStr.contains p s = true ↔ PyStr.substring_of p s.
Proof.
  unfold PyStr.substring_of. induction s as [|b s IH]; simpl.
  - rewrite orb_false_r, startswith_spec. split.
    + intros [r Hr]. by exists EmptyString, r.
    + intros [[|c l] [r Hr]]; [by exists r | discriminate Hr].
  - rewrite orb_true_iff, IH, startswith_spec. split.
    + intros [[r Hr] | (l & r & Hr)].
      * by exists EmptyString, r.
      * exists (String b l), r. by rewrite Hr.
    + intros ([|c l] & r & Hr).
      * left. by exists r.
      * right. exists l, r. by injection Hr.
Qed.

Lemma contains_false_spec (p s : string) :
  PyStr.contains p s = false ↔ ¬ PyStr.substring_of p s.
Proof. rewrite <- contains_spec. by destruct (PyStr.contains p s). Qed.

Example classify_ex1 :
  all_patterns_found
    (classify "https://x/iplladdoo2025?socialTitle%3DPsst&t=Laddoo+for+you")
  = true.
Proof. reflexivity. Qed.
Example classify_ex2 :
  let r := classify "https://x/iplladdoo2025?socialTitle%3DPsst" in
  (all_patterns_found r, found_patterns r, missing_patterns r)
  = (false, ["iplladdoo2025"; "socialTitle=Psst"], ["Laddoo+for+you"]).
Proof. reflexivity. Qed.
Example extract_ex1 : extract_laddoo_type "https://x/?a=ZEN+sparky" = "Sparky".
Proof. reflexivity. Qed.
Example extract_ex2 : extract_laddoo_type "https://x/?a=laddoo" = "Other".
Proof. reflexivity. Qed.

(** ** The match classifier *)

(** The pattern loop, from any value of its three variables: the flag stays
    true as long as every pattern is present, and the patterns are split, in
    order, into those found and those missing. *)
Lemma scan_fold (final_url decoded_url : string) (patterns : list string)
    (acc : scan) :
  let present p :=
    PyStr.contains p final_url || PyStr.contains p decoded_url in
  let r := fold_left (scan_step final_url decoded_url) patterns acc in
  all_patterns_found r = all_patterns_found acc && forallb present patterns
  ∧ found_patterns r = found_patterns acc ++ List.filter present patterns
  ∧ missing_patterns r
    = missing_patterns acc ++ List.filter (λ p, negb (present p)) patterns.
Proof.
  intros present. revert acc.
  induction patterns as [|p ps IH]; intros acc; simpl.
  - by rewrite andb_true_r, !app_nil_r.
  - destruct (IH (scan_step final_url decoded_url acc p)) as (Ha & Hf & Hm).
    rewrite Ha, Hf, Hm. unfold scan_step. fold (present p).
    destruct (present p); simpl.
    + by rewrite <- app_assoc.
    + by rewrite andb_false_r, <- app_assoc.
Qed.

(** C1.  For every resolved URL, [all_patterns_found] is true exactly when
    each required pattern is a substring of the URL or of the URL decoded
    once by [unquote]; a pattern that is in neither makes the flag false and
    is in the list of missing patterns. *)
Theorem classify_all_patterns_found (final_url : string) :
  (all_patterns_found (classify final_url) = true ↔
     ∀ p, p ∈ LADDOO_PATTERNS →
       PyStr.substring_of p final_url
       ∨ PyStr.substring_of p (PyStr.unquote final_url))
  ∧ (∀ p, p ∈ LADDOO_PATTERNS →
       ¬ PyStr.substring_of p final_url →
       ¬ PyStr.substring_of p (PyStr.unquote final_url) →
       all_patterns_found (classify final_url) = false
       ∧ p ∈ missing_patterns (classify final_url)).
Proof.
  unfold classify, scan_patterns.
  destruct (scan_fold final_url (PyStr.unquote final_url) LADDOO_PATTERNS
              scan_init) as (Ha & _ & Hm).
  cbv zeta in Ha, Hm. rewrite Ha, Hm. clear Ha Hm. simpl all_patterns_found.
  simpl missing_patterns. rewrite andb_true_l, app_nil_l.
  assert (Hall : ∀ ps : list string,
    forallb (λ p, PyStr.contains p final_url
                  || PyStr.contains p (PyStr.unquote final_url)) ps = true ↔
    ∀ p, p ∈ ps → PyStr.substring_of p final_url
                  ∨ PyStr.substring_of p (PyStr.unquote final_url)).
  { intros ps. rewrite forallb_forall. split; intros H p Hp.
    - apply list_elem_of_In, H, orb_true_iff in Hp.
      by rewrite <- !contains_spec.
    - apply list_elem_of_In, H in Hp. apply orb_true_iff.
      by rewrite !contains_spec. }
  split; [apply Hall|].
  intros p Hp Hraw Hdec. split.
  - apply not_true_is_false. rewrite Hall. intros H.
    destruct (H p Hp); tauto.
  - apply list_elem_of_In, filter_In. split; [by apply list_elem_of_In|].
    apply contains_false_spec in Hraw, Hdec. by rewrite Hraw, Hdec.
Qed.

(** *** Facts about the characters of a text *)

Lemma byte_of_val (a : ascii) : PyStr.byte_of (PyStr.byte_val a) = a.
Proof.
  unfold PyStr.byte_of, PyStr.byte_val. by rewrite N2Z.id, ascii_N_embedding.
Qed.

Lemma byte_val_range (a : ascii) : 0 ≤ PyStr.byte_val a < 256.
Proof.
  unfold PyStr.byte_val. pose proof (N_ascii_bounded a). lia.
Qed.

Lemma is_cont_spec (b : Z) : PyStr.is_cont b = true ↔ 0x80 ≤ b ≤ 0xBF.
Proof. unfold PyStr.is_cont. rewrite andb_true_iff, !Z.leb_le. done. Qed.

(** The bytes of the characters of a text are the text: [decode] loses
    nothing, and [encode] puts every byte back. *)
Lemma encode_decode (s : string) : PyStr.encode (PyStr.decode s) = s.
Proof.
  remember (String.length s) as n eqn:Hn.
  revert s Hn. induction (lt_wf n) as [n _ IH]. intros s ->.
  assert (Hrec : ∀ a t, (String.length t < String.length s)%nat →
            PyStr.encode (PyStr.Byte a :: PyStr.decode t) = String a t).
  { intros a t Ht. unfold PyStr.encode. cbn [foldr PyStr.encode_char].
    fold (PyStr.encode (PyStr.decode t)). by rewrite (IH _ Ht t eq_refl). }
  destruct s as [|a0 s1]; [done|].
  pose proof (byte_val_range a0) as H0.
  cbn [PyStr.decode]. cbv zeta.
  destruct (PyStr.byte_val a0 <? 0x80) eqn:Hascii.
  { apply Z.ltb_lt in Hascii.
    unfold PyStr.encode. cbn [foldr PyStr.encode_char].
    fold (PyStr.encode (PyStr.decode s1)).
    rewrite (IH (String.length s1)) by (cbn; lia || done).
    rewrite (proj2 (Z.ltb_lt _ _)) by lia. by rewrite byte_of_val. }
  destruct s1 as [|a1 s2]; [done|].
  pose proof (byte_val_range a1) as H1.
  destruct ((0xC2 <=? PyStr.byte_val a0) && (PyStr.byte_val a0 <=? 0xDF)
            && PyStr.is_cont (PyStr.byte_val a1)) eqn:H2b.
  { apply andb_true_iff in H2b as [H2b Hc1%is_cont_spec].
    apply andb_true_iff in H2b as [Hlo%Z.leb_le Hhi%Z.leb_le].
    unfold PyStr.encode. cbn [foldr PyStr.encode_char].
    fold (PyStr.encode (PyStr.decode s2)).
    rewrite (IH (String.length s2)) by (cbn; lia || done).
    set (c := (PyStr.byte_val a0 - 0xC0) * 64 + (PyStr.byte_val a1 - 0x80)).
    assert (c / 64 = PyStr.byte_val a0 - 0xC0) as Hd.
    { symmetry. apply Z.div_unique with (PyStr.byte_val a1 - 0x80); lia. }
    assert (c mod 64 = PyStr.byte_val a1 - 0x80) as Hm.
    { symmetry. apply Z.mod_unique with (PyStr.byte_val a0 - 0xC0); lia. }
    rewrite (proj2 (Z.ltb_ge _ _)) by lia.
    rewrite (proj2 (Z.ltb_lt c 0x800)) by lia.
    rewrite Hd, Hm.
    replace (0xC0 + (PyStr.byte_val a0 - 0xC0)) with (PyStr.byte_val a0) by lia.
    replace (0x80 + (PyStr.byte_val a1 - 0x80)) with (PyStr.byte_val a1) by lia.
    by rewrite !byte_of_val. }
  destruct s2 as [|a2 s3]; [apply Hrec; cbn; lia|].
  pose proof (byte_val_range a2) as H2.
  match goal with
  | |- context [if ?t then _ else _] => destruct t eqn:H3b
  end.
  { repeat (apply andb_true_iff in H3b as [H3b ?]).
    apply Z.leb_le in H3b.
    repeat match goal with
      | H : PyStr.is_cont _ = true |- _ => apply is_cont_spec in H
      | H : (_ <=? _) = true |- _ => apply Z.leb_le in H
      | H : negb _ = true |- _ => clear H
      end.
    unfold PyStr.encode. cbn [foldr PyStr.encode_char].
    fold (PyStr.encode (PyStr.decode s3)).
    rewrite (IH (String.length s3)) by (cbn; lia || done).
    set (c := (PyStr.byte_val a0 - 0xE0) * 4096
              + (PyStr.byte_val a1 - 0x80) * 64 + (PyStr.byte_val a2 - 0x80))
      in *.
    assert (c / 64
            = (PyStr.byte_val a0 - 0xE0) * 64 + (PyStr.byte_val a1 - 0x80))
      as Hd.
    { symmetry. apply Z.div_unique with (PyStr.byte_val a2 - 0x80); lia. }
    assert (c mod 64 = PyStr.byte_val a2 - 0x80) as Hm.
    { symmetry. apply Z.mod_unique
        with ((PyStr.byte_val a0 - 0xE0) * 64 + (PyStr.byte_val a1 - 0x80));
        lia. }
    assert (c / 4096 = PyStr.byte_val a0 - 0xE0) as Hd2.
    { symmetry. apply Z.div_unique
        with ((PyStr.byte_val a1 - 0x80) * 64 + (PyStr.byte_val a2 - 0x80));
        lia. }
    assert ((c / 64) mod 64 = PyStr.byte_val a1 - 0x80) as Hm2.
    { rewrite Hd. symmetry.
      apply Z.mod_unique with (PyStr.byte_val a0 - 0xE0); lia. }
    rewrite (proj2 (Z.ltb_ge _ _)) by lia.
    rewrite (proj2 (Z.ltb_ge c 0x800)) by lia.
    rewrite (proj2 (Z.ltb_lt c 0x10000)) by lia.
    rewrite Hd2, Hm2, Hm.
    replace (0xE0 + (PyStr.byte_val a0 - 0xE0)) with (PyStr.byte_val a0) by lia.
    replace (0x80 + (PyStr.byte_val a1 - 0x80)) with (PyStr.byte_val a1) by lia.
    replace (0x80 + (PyStr.byte_val a2 - 0x80)) with (PyStr.byte_val a2) by lia.
    by rewrite !byte_of_val. }
  destruct s3 as [|a3 s4]; [apply Hrec; cbn; lia|].
  pose proof (byte_val_range a3) as H3.
  match goal with
  | |- context [if ?t then _ else _] => destruct t eqn:H4b
  end; [|apply Hrec; cbn; lia].
  repeat (apply andb_true_iff in H4b as [H4b ?]).
  apply Z.leb_le in H4b.
  repeat match goal with
    | H : PyStr.is_cont _ = true |- _ => apply is_cont_spec in H
    | H : (_ <=? _) = true |- _ => apply Z.leb_le in H
    end.
  unfold PyStr.encode. cbn [foldr PyStr.encode_char].
  fold (PyStr.encode (PyStr.decode s4)).
  rewrite (IH (String.length s4)) by (cbn; lia || done).
  set (c := (PyStr.byte_val a0 - 0xF0) * 262144
            + (PyStr.byte_val a1 - 0x80) * 4096
            + (PyStr.byte_val a2 - 0x80) * 64 + (PyStr.byte_val a3 - 0x80))
    in *.
  assert (c mod 64 = PyStr.byte_val a3 - 0x80) as Hm.
  { symmetry. apply Z.mod_unique
      with ((PyStr.byte_val a0 - 0xF0) * 4096
            + (PyStr.byte_val a1 - 0x80) * 64 + (PyStr.byte_val a2 - 0x80));
      lia. }
  assert (c / 64
          = (PyStr.byte_val a0 - 0xF0) * 4096
            + (PyStr.byte_val a1 - 0x80) * 64 + (PyStr.byte_val a2 - 0x80))
    as Hd.
  { symmetry. apply Z.div_unique with (PyStr.byte_val a3 - 0x80); lia. }
  assert ((c / 64) mod 64 = PyStr.byte_val a2 - 0x80) as Hm2.
  { rewrite Hd. symmetry. apply Z.mod_unique
      with ((PyStr.byte_val a0 - 0xF0) * 64 + (PyStr.byte_val a1 - 0x80));
      lia. }
  assert (c / 4096
          = (PyStr.byte_val a0 - 0xF0) * 64 + (PyStr.byte_val a1 - 0x80))
    as Hd2.
  { symmetry. apply Z.div_unique
      with ((PyStr.byte_val a2 - 0x80) * 64 + (PyStr.byte_val a3 - 0x80));
      lia. }
  assert ((c / 4096) mod 64 = PyStr.byte_val a1 - 0x80) as Hm3.
  { rewrite Hd2. symmetry.
    apply Z.mod_unique with (PyStr.byte_val a0 - 0xF0); lia. }
  assert (c / 262144 = PyStr.byte_val a0 - 0xF0) as Hd3.
  { symmetry. apply Z.div_unique
      with ((PyStr.byte_val a1 - 0x80) * 4096
            + (PyStr.byte_val a2 - 0x80) * 64 + (PyStr.byte_val a3 - 0x80));
      lia. }
  rewrite (proj2 (Z.ltb_ge _ _)) by lia.
  rewrite (proj2 (Z.ltb_ge c 0x800)) by lia.
  rewrite (proj2 (Z.ltb_ge c 0x10000)) by lia.
  rewrite Hd3, Hm3, Hm2, Hm.
  replace (0xF0 + (PyStr.byte_val a0 - 0xF0)) with (PyStr.byte_val a0) by lia.
  replace (0x80 + (PyStr.byte_val a1 - 0x80)) with (PyStr.byte_val a1) by lia.
  replace (0x80 + (PyStr.byte_val a2 - 0x80)) with (PyStr.byte_val a2) by lia.
  replace (0x80 + (PyStr.byte_val a3 - 0x80)) with (PyStr.byte_val a3) by lia.
  by rewrite !byte_of_val.
Qed.

(** *** Facts about [lower] *)

Lemma append_assoc (a b c : string) : (a +:+ b) +:+ c = a +:+ b +:+ c.
Proof.
  induction a as [|x a IH]; [done|].
  change (String x ((a +:+ b) +:+ c) = String x (a +:+ b +:+ c)).
  by f_equal.
Qed.

(** The lowercase form of ASCII text goes through concatenation, and a split
    of the lowercase form comes from a split of the text. *)
Lemma ascii_lower_app (s t : string) :
  PyStr.ascii_lower (s +:+ t) = PyStr.ascii_lower s +:+ PyStr.ascii_lower t.
Proof. induction s as [|c s IH]; simpl; [done | by rewrite IH]. Qed.

Lemma ascii_lower_app_inv (s a b : string) :
  PyStr.ascii_lower s = a +:+ b →
  ∃ s1 s2,
    s = s1 +:+ s2 ∧ PyStr.ascii_lower s1 = a ∧ PyStr.ascii_lower s2 = b.
Proof.
  revert s. induction a as [|c a IH]; intros s H; simpl in H.
  - by exists EmptyString, s.
  - destruct s as [|d s]; [discriminate H|]. simpl in H.
    injection H as Hc Hs. destruct (IH s Hs) as (s1 & s2 & -> & H1 & H2).
    exists (String d s1), s2. simpl. by rewrite Hc, H1.
Qed.

(** An ASCII character is its own code point; it is not the capital sigma,
    and its lowercase form is that of the letters A-Z. *)
Lemma lower_ascii_char (a : ascii) :
  (N_of_ascii a <? 128)%N = true →
  (PyStr.byte_val a <? 0x80) = true
  ∧ (PyStr.byte_val a =? 0x3A3) = false
  ∧ PyStr.encode (PyStr.Code <$> PyStr.to_lower_full (PyStr.byte_val a))
    = String (PyStr.lower_char a) EmptyString.
Proof.
  destruct a as [[] [] [] [] [] [] [] []]; intros H; try discriminate H;
    vm_compute; done.
Qed.

Lemma encode_app (l k : list PyStr.char) :
  PyStr.encode (l ++ k) = PyStr.encode l +:+ PyStr.encode k.
Proof.
  induction l as [|ch l IH]; [done|].
  cbn [app]. unfold PyStr.encode in *. cbn [foldr].
  by rewrite IH, append_assoc.
Qed.

Lemma lower_chars_ascii (s : string) (after_cased : bool) :
  PyStr.is_ascii s = true →
  PyStr.encode (PyStr.lower_chars after_cased (PyStr.decode s))
  = PyStr.ascii_lower s.
Proof.
  revert after_cased. induction s as [|a s IH]; intros after_cased Hs;
    [done|].
  cbn [PyStr.is_ascii] in Hs. apply andb_true_iff in Hs as [Ha Hs].
  destruct (lower_ascii_char a Ha) as (Hlt & Hsigma & Hlow).
  cbn [PyStr.decode]. cbv zeta. rewrite Hlt.
  cbn [PyStr.lower_chars]. rewrite Hsigma, encode_app, Hlow, IH by done.
  done.
Qed.

(** On ASCII text [lower] changes the letters A-Z and nothing else. *)
Lemma lower_ascii (s : string) :
  PyStr.is_ascii s = true → PyStr.lower s = PyStr.ascii_lower s.
Proof. apply lower_chars_ascii. Qed.

(** The test of [extract_laddoo_type] is the search of the label up to
    case. *)
Lemma contains_lower_spec (label url : string) :
  PyStr.contains (PyStr.lower label) (PyStr.lower url) = true
  ↔ ci_substring_of label url.
Proof. apply contains_spec. Qed.

(** For ASCII text, the search up to case is the search for a part of the
    URL that differs from the label in the case of letters only. *)
Lemma ci_substring_of_ascii (label url : string) :
  PyStr.is_ascii label = true →
  PyStr.is_ascii url = true →
  ci_substring_of label url ↔ ascii_ci_substring_of label url.
Proof.
  intros Hlabel Hurl.
  unfold ci_substring_of, ascii_ci_substring_of, PyStr.substring_of.
  rewrite !lower_ascii by done. split.
  - intros (l' & r' & H).
    apply ascii_lower_app_inv in H as (l & ur & -> & _ & H).
    apply ascii_lower_app_inv in H as (u & r & -> & Hu & _).
    by exists l, u, r.
  - intros (l & u & r & -> & Hu).
    exists (PyStr.ascii_lower l), (PyStr.ascii_lower r).
    by rewrite !ascii_lower_app, Hu.
Qed.

(** C10.  The category of a resolved URL is the first label of
    [LADDOO_TYPES] that occurs in the URL up to the case of letters; when no
    label occurs it is the default label ["Other"].  To occur up to case is
    to occur in the lowercase form; for ASCII text that is
    [ascii_ci_substring_of], by [ci_substring_of_ascii]. *)
Theorem extract_laddoo_type_first_match (url : string) :
  (∃ (i : nat) (label : string),
      LADDOO_TYPES !! i = Some label
      ∧ ci_substring_of label url
      ∧ (∀ (j : nat) (other : string),
           (j < i)%nat → LADDOO_TYPES !! j = Some other →
           ¬ ci_substring_of other url)
      ∧ extract_laddoo_type url = label)
  ∨ ((∀ label, label ∈ LADDOO_TYPES → ¬ ci_substring_of label url)
     ∧ extract_laddoo_type url = "Other").
Proof.
  unfold extract_laddoo_type. generalize LADDOO_TYPES. intros types.
  induction types as [|t types IH]; simpl.
  - right. split; [|done]. intros label Hl. by apply elem_of_nil in Hl.
  - destruct (PyStr.contains (PyStr.lower t) (PyStr.lower url)) eqn:Ht.
    + left. exists 0%nat, t. apply contains_lower_spec in Ht.
      repeat split; [done|]. intros j other Hj. lia.
    + assert (Hnot : ¬ ci_substring_of t url).
      { rewrite <- contains_lower_spec. by rewrite Ht. }
      destruct IH as [(i & label & Hi & Hci & Hfirst & Hres) | [Hnone Hres]].
      * left. exists (S i), label. repeat split; [done..| |done].
        intros [|j] other Hj Hother; simpl in Hother.
        -- by injection Hother as <-.
        -- eapply Hfirst; [|done]. lia.
      * right. split; [|done]. intros label Hl.
        apply elem_of_cons in Hl as [-> | Hl]; [done | by apply Hnone].
Qed.

(** ** The dedup tracker *)

Lemma mark_processed_new (k : string) (s : gset string) :
  k ∉ s → UrlTracker.mark_processed k s = (true, s ∪ {[k]}).
Proof. intros H. unfold UrlTracker.mark_processed. by rewrite bool_decide_false. Qed.

Lemma mark_processed_seen (k : string) (s : gset string) :
  k ∈ s → UrlTracker.mark_processed k s = (false, s).
Proof. intros H. unfold UrlTracker.mark_processed. by rewrite bool_decide_true. Qed.

(** After a sequence of calls the set holds what it held and the keys of the
    calls. *)
Lemma mark_all_set (urls : list string) (s : gset string) :
  (UrlTracker.mark_all urls s).2 = s ∪ list_to_set urls.
Proof.
  revert s. induction urls as [|u urls IH]; intros s; simpl.
  - set_solver.
  - destruct (UrlTracker.mark_processed u s) as [r s1] eqn:Hm.
    specialize (IH s1). destruct (UrlTracker.mark_all urls s1) as [rs s2].
    simpl in *. rewrite IH. unfold UrlTracker.mark_processed in Hm.
    case_bool_decide; injection Hm as <- <-; set_solver.
Qed.

(** C5.  From a new tracker, after calls with other keys, the first call of
    [mark_processed] with [k] returns true and adds [k] to the set; after any
    further calls, a call with [k] returns false and leaves the set as it
    is. *)
Theorem mark_processed_first_then_never (k : string)
    (before between : list string) :
  k ∉ before →
  let s0 := (UrlTracker.mark_all before UrlTracker.init).2 in
  let first := UrlTracker.mark_processed k s0 in
  let s2 := (UrlTracker.mark_all between first.2).2 in
  let again := UrlTracker.mark_processed k s2 in
  first.1 = true ∧ first.2 = s0 ∪ {[k]} ∧ k ∈ first.2
  ∧ again.1 = false ∧ again.2 = s2.
Proof.
  intros Hk s0 first s2 again.
  assert (Hs0 : k ∉ s0).
  { unfold s0, UrlTracker.init. rewrite mark_all_set. set_solver. }
  assert (Hfirst : first = (true, s0 ∪ {[k]})) by by apply mark_processed_new.
  assert (Hs2 : k ∈ s2).
  { unfold s2. rewrite mark_all_set, Hfirst. set_solver. }
  assert (Hagain : again = (false, s2)) by by apply mark_processed_seen.
  rewrite Hfirst, Hagain. simpl. repeat split; set_solver.
Qed.

Lemma mark_processed_first_then_never_witness :
  let s0 := (UrlTracker.mark_all ["a"; "b"] UrlTracker.init).2 in
  let first := UrlTracker.mark_processed "k" s0 in
  let s2 := (UrlTracker.mark_all ["b"; "k"; "c"] first.2).2 in
  let again := UrlTracker.mark_processed "k" s2 in
  first.1 = true ∧ first.2 = s0 ∪ {["k"]} ∧ "k" ∈ first.2
  ∧ again.1 = false ∧ again.2 = s2.
Proof.
  apply (mark_processed_first_then_never "k" ["a"; "b"] ["b"; "k"; "c"]).
  apply (bool_decide_unpack _). vm_compute. exact I.
Defined.

(** ** Running the probes *)

Arguments scan_patterns : simpl never.
Arguments extract_laddoo_type : simpl never.
Arguments PyStr.py_int : simpl never.
Arguments PyStr.strip : simpl never.
Arguments PyStr.lower : simpl never.
Arguments PyStr.unquote : simpl never.
Arguments candidate_url : simpl never.

Ltac unfold_M :=
  unfold check_func, check_url_curl, check_url_requests, is_valid_url,
    notify_telegram, append_output, send, answer, int_of_str, log_message,
    log_lines, when, modify, catch, mbind, M_bind, bind, mret, M_ret, ret,
    raise in *.

(** One step of the case analysis along a probe: on an answer of the world
    or on a test of the code, wherever it occurs. *)
Ltac probe_step :=
  let go t := (destruct t in *) in
  match goal with
  | |- context [curl_http_code ?w ?u] => go (curl_http_code w u)
  | _ : context [curl_http_code ?w ?u] |- _ => go (curl_http_code w u)
  | |- context [requests_head ?w ?u] => go (requests_head w u)
  | _ : context [requests_head ?w ?u] |- _ => go (requests_head w u)
  | |- context [PyStr.py_int ?s] => go (PyStr.py_int s)
  | _ : context [PyStr.py_int ?s] |- _ => go (PyStr.py_int s)
  | |- context [(200 <=? ?a) && (?a <? 400)] => go ((200 <=? a) && (a <? 400))
  | _ : context [(200 <=? ?a) && (?a <? 400)] |- _ =>
      go ((200 <=? a) && (a <? 400))
  | |- context [curl_url_effective ?w ?u] => go (curl_url_effective w u)
  | _ : context [curl_url_effective ?w ?u] |- _ => go (curl_url_effective w u)
  | |- context [requests_get ?w ?u] => go (requests_get w u)
  | _ : context [requests_get ?w ?u] |- _ => go (requests_get w u)
  | |- context [all_patterns_found ?sc] => go (all_patterns_found sc)
  | _ : context [all_patterns_found ?sc] |- _ => go (all_patterns_found sc)
  | |- context [telegram_send_valid_link ?w ?n] =>
      go (telegram_send_valid_link w n)
  end.

Ltac probe_cases :=
  unfold is_match, phase1_status, phase2_final_url, phase1_request,
    phase2_request, classify, confirmed in *;
  unfold_M; simpl in *;
  repeat (probe_step; simpl in *; simplify_eq; try done).

Lemma range_test (a : Z) : (200 <=? a) && (a <? 400) = true ↔ 200 ≤ a < 400.
Proof. rewrite andb_true_iff, Z.leb_le, Z.ltb_lt. done. Qed.

Section Probe.

Context (w : world) (use_curl : bool) (code : string) (st : state).

(** A probe returns a tuple and never raises; the tuple says "valid" exactly
    for a match, and has six components then, five otherwise. *)
Lemma check_func_returns :
  ∃ l st',
    check_func w use_curl code st = (Ret (VTuple l), st')
    ∧ confirmed (VTuple l) = is_match w use_curl code
    ∧ length l = (if is_match w use_curl code then 6 else 5)%nat.
Proof. destruct use_curl; probe_cases; eauto. Qed.

(** A probe writes one line to the output file for a match, none otherwise. *)
Lemma check_func_output :
  ∃ lines,
    st_output (check_func w use_curl code st).2 = st_output st ++ lines
    ∧ (if is_match w use_curl code
       then ∃ line, lines = [line] ∧ ml_url line = candidate_url code
       else lines = []).
Proof. destruct use_curl; probe_cases; eauto using app_nil_r. Qed.

(** A probe calls [send_valid_link] once for a match, never otherwise. *)
Lemma check_func_telegram :
  ∃ ns,
    st_telegram (check_func w use_curl code st).2 = st_telegram st ++ ns
    ∧ (if is_match w use_curl code
       then ∃ n, ns = [n] ∧ nt_code n = code
       else ns = []).
Proof. destruct use_curl; probe_cases; eauto using app_nil_r. Qed.

(** A probe leaves the result queue, the counter, the count of finished
    tasks and the checkpoint files alone. *)
Lemma check_func_frame :
  let st' := (check_func w use_curl code st).2 in
  st_result_queue st' = st_result_queue st
  ∧ st_counter st' = st_counter st
  ∧ st_task_done st' = st_task_done st
  ∧ st_files st' = st_files st.
Proof. destruct use_curl; probe_cases. Qed.

(** The requests of a probe: the status check, and the request that follows
    redirects only when the status is in [200, 400). *)
Lemma check_func_requests :
  st_requests (check_func w use_curl code st).2
  = st_requests st ++ phase1_request use_curl code ::
      match phase1_status w use_curl code with
      | Some status_code =>
          if (200 <=? status_code) && (status_code <? 400)
          then [phase2_request use_curl code] else []
      | None => []
      end.
Proof. destruct use_curl; probe_cases; by rewrite <- app_assoc. Qed.

(** The result of a probe whose status check fails or gives a status outside
    [200, 400). *)
Lemma check_func_invalid :
  match phase1_status w use_curl code with
  | Some status_code => (200 <=? status_code) && (status_code <? 400) = false
  | None => True
  end →
  (check_func w use_curl code st).1
  = Ret (VTuple [VBool false; VStr code; VNone; VNone; VNone]).
Proof. intros H. destruct use_curl; probe_cases. Qed.

(** The lines a probe logs when its status check raises or gives no
    number: one of them is an error. *)
Lemma check_func_phase1_error :
  phase1_status w use_curl code = None →
  ∃ lines,
    st_log (check_func w use_curl code st).2 = st_log st ++ lines
    ∧ Exists is_error lines.
Proof.
  intros H. destruct use_curl; probe_cases;
    rewrite <- app_assoc; eexists; (split; [done|]);
    apply Exists_cons_hd; done.
Qed.

(** The result and the log of a probe whose second request raises. *)
Lemma check_func_phase2_error (status_code : Z) (e : exn) :
  phase1_status w use_curl code = Some status_code →
  (200 <=? status_code) && (status_code <? 400) = true →
  phase2_final_url w use_curl code = inl e →
  (check_func w use_curl code st).1
  = Ret (VTuple [VBool false; VStr code; VStr ("Error: " +:+ exn_str e);
                 VNone; VNone])
  ∧ ∃ lines,
      st_log (check_func w use_curl code st).2 = st_log st ++ lines
      ∧ Exists is_error lines.
Proof.
  intros H1 Hr H2. destruct use_curl; probe_cases;
    (split; [done|]); rewrite <- !app_assoc; eexists; (split; [done|]);
    simpl; repeat first [by apply Exists_cons_hd | apply Exists_cons_tl].
Qed.

End Probe.

(** ** Running the worker *)

(** The state in which the probe of a turn starts: the counter is
    incremented, and every hundredth code the progress is logged. *)
Lemma worker_turn_run (w : world) (use_curl : bool) (code : string)
    (st : state) :
  ∃ st0,
    st_output st0 = st_output st
    ∧ st_telegram st0 = st_telegram st
    ∧ st_requests st0 = st_requests st
    ∧ st_result_queue st0 = st_result_queue st
    ∧ st_task_done st0 = st_task_done st
    ∧ st_counter st0 = st_counter st + 1
    ∧ worker_try w use_curl code st
      = (let st1 := (check_func w use_curl code st0).2 in
         if is_match w use_curl code
         then (Raise (Exn "ValueError" "too many values to unpack (expected 5)"),
               st1)
         else (Ret tt, set_task_done S st1))
    ∧ worker_turn w use_curl code st
      = (let st1 := (check_func w use_curl code st0).2 in
         (Ret tt,
          if is_match w use_curl code
          then set_log
                 (λ l, l ++ [Log ERROR "Worker error: {}"
                               [VStr "too many values to unpack (expected 5)"]])
                 st1
          else set_task_done S st1)).
Proof.
  exists (if (st_counter st + 1) mod 100 =? 0
          then set_log (λ l, l ++ [Log INFO "Progress: {} codes processed"
                                     [VInt (st_counter st + 1)]])
                 (set_counter (λ c, c + 1) st)
          else set_counter (λ c, c + 1) st).
  unfold worker_turn, catch, worker_try, counter_increment, when, log_message,
    modify, mbind, M_bind, bind, ret.
  simpl. destruct ((st_counter st + 1) mod 100 =? 0); simpl;
    match goal with
    | |- context [check_func w use_curl code ?s] =>
        destruct (check_func_returns w use_curl code s)
          as (l & st1 & Hc & Hconf & Hlen)
    end;
    rewrite Hc; simpl; destruct (is_match w use_curl code).
  1,3: do 7 (destruct l as [|? l]; try discriminate Hlen); done.
  all: do 6 (destruct l as [|? l]; try discriminate Hlen);
    simpl in Hconf; unfold unpack, task_done, result_queue_put, modify, ret;
    simpl; by rewrite Hconf.
Qed.

Lemma candidate_url_inj (c1 c2 : string) :
  candidate_url c1 = candidate_url c2 → c1 = c2.
Proof.
  unfold candidate_url. generalize "https://gpay.app.goo.gl/".
  intros p. induction p as [|a p IH]; intros H.
  - exact H.
  - apply IH. by injection H.
Qed.

Lemma persisted_app (c : string) (st st' : state) (lines : list match_line) :
  st_output st' = st_output st ++ lines →
  persisted c st'
  = (persisted c st
     + length (filter (λ line, ml_url line = candidate_url c) lines))%nat.
Proof. intros H. unfold persisted. by rewrite H, filter_app, length_app. Qed.

Lemma notified_app (c : string) (st st' : state) (ns : list notification) :
  st_telegram st' = st_telegram st ++ ns →
  notified c st'
  = (notified c st + length (filter (λ n, nt_code n = c) ns))%nat.
Proof. intros H. unfold notified. by rewrite H, filter_app, length_app. Qed.

(** What one turn of the worker on a code does: it returns, the counter
    grows by one, the result queue is as before, and the match key of the
    code gains one line and one notification exactly when the code is a
    match. *)
Lemma worker_turn_effects (w : world) (use_curl : bool) (code : string)
    (st : state) :
  ∃ st',
    worker_turn w use_curl code st = (Ret tt, st')
    ∧ st_result_queue st' = st_result_queue st
    ∧ st_counter st' = st_counter st + 1
    ∧ ∀ c,
        let hit := if bool_decide (c = code) && is_match w use_curl code
                   then 1%nat else 0%nat in
        persisted c st' = (persisted c st + hit)%nat
        ∧ notified c st' = (notified c st + hit)%nat.
Proof.
  destruct (worker_turn_run w use_curl code st)
    as (st0 & Hout & Htg & _ & Hq & _ & Hcnt & _ & Hturn).
  rewrite Hturn. cbv zeta. eexists. split; [reflexivity|].
  destruct (check_func_frame w use_curl code st0) as (Hq1 & Hc1 & _ & _).
  destruct (check_func_output w use_curl code st0) as (lines & Hlines & Hl).
  destruct (check_func_telegram w use_curl code st0) as (ns & Hns & Hn).
  cbv zeta in Hq1, Hc1.
  remember (check_func w use_curl code st0) as r eqn:Hr. clear Hr Hturn.
  destruct r as [o st1]. cbn [snd] in *.
  rewrite Hout in Hlines. rewrite Htg in Hns.
  assert (Hfin : ∀ stf, st_output stf = st_output st1 →
            st_telegram stf = st_telegram st1 →
            ∀ c, let hit := if bool_decide (c = code) && is_match w use_curl code
                            then 1%nat else 0%nat in
                 persisted c stf = (persisted c st + hit)%nat
                 ∧ notified c stf = (notified c st + hit)%nat).
  { intros stf Ho Ht c. rewrite <- Ho in Hlines. rewrite <- Ht in Hns.
    rewrite (persisted_app c st stf lines Hlines),
      (notified_app c st stf ns Hns).
    destruct (is_match w use_curl code).
    - destruct Hl as (line & -> & Hline). destruct Hn as (n & -> & Hn).
      rewrite !filter_cons, !filter_nil, Hline, Hn.
      case_bool_decide as Hc.
      + subst c. rewrite !decide_True by reflexivity. split; reflexivity.
      + rewrite !decide_False; [split; reflexivity | congruence |].
        intros Heq. apply candidate_url_inj in Heq. congruence.
    - subst lines ns. rewrite andb_false_r. split; reflexivity. }
  destruct (is_match w use_curl code); simpl;
    (split; [congruence|]); (split; [lia|]); apply Hfin; reflexivity.
Qed.

(** The worker returns whatever its turns are, and never puts anything on
    the result queue. *)
Lemma worker_result_queue (w : world) (use_curl : bool) (turns : list turn)
    (st : state) :
  ∃ st',
    worker w use_curl turns st = (Ret tt, st')
    ∧ st_result_queue st' = st_result_queue st.
Proof.
  revert st. induction turns as [|t turns IH]; intros st; simpl.
  - by exists st.
  - destruct (stop_at_head t); [by exists st|].
    destruct (got t) as [|[code|]]; [apply IH | | by exists st].
    destruct (stop_after_get t); [by exists st|].
    destruct (worker_turn_effects w use_curl code st) as (st1 & Hrun & Hq & _).
    unfold mbind, M_bind, bind. rewrite Hrun.
    destruct (IH st1) as (st' & Hw & Hq'). exists st'. split; [done|].
    congruence.
Qed.

(** The worker on a list of codes, none of its turns seeing a stop: every
    code is probed, and each match among them gains a line and a
    notification for each time it occurs in the list. *)
Lemma worker_probe_turns (w : world) (use_curl : bool) (codes : list string)
    (st : state) :
  ∃ st',
    worker w use_curl (probe_turn <$> codes) st = (Ret tt, st')
    ∧ st_counter st' = st_counter st + Z.of_nat (length codes)
    ∧ ∀ c,
        let hits := if is_match w use_curl c
                    then length (filter (λ x, x = c) codes) else 0%nat in
        persisted c st' = (persisted c st + hits)%nat
        ∧ notified c st' = (notified c st + hits)%nat.
Proof.
  revert st. induction codes as [|code codes IH]; intros st.
  - exists st. simpl. repeat split; try lia.
    all: destruct (is_match w use_curl c); lia.
  - destruct (worker_turn_effects w use_curl code st)
      as (st1 & Hrun & _ & Hcnt & Hhit).
    destruct (IH st1) as (st' & Hw & Hcnt' & Hhits).
    exists st'. simpl. unfold mbind, M_bind, bind. rewrite Hrun.
    split; [done|]. split; [lia|]. intros c. cbv zeta.
    destruct (Hhit c) as [Hp Hn]. destruct (Hhits c) as [Hp' Hn'].
    rewrite Hp', Hn', Hp, Hn. rewrite filter_cons.
    case_bool_decide as Hc.
    + subst c. rewrite decide_True by reflexivity. cbn [andb length].
      destruct (is_match w use_curl code); lia.
    + rewrite decide_False by congruence. cbn [andb]. lia.
Qed.

(** ** The orchestrator's queue *)

(** The generation loop keeps the work queue free of repetitions: every
    queued code is in the seen-set, and a code in the seen-set is skipped. *)
Lemma generation_loop_NoDup (draws : list string) (seen : gset hashable)
    (queue : list string) :
  NoDup queue → (∀ c, c ∈ queue → HStr c ∈ seen) →
  NoDup (generation_loop draws seen queue).2.
Proof.
  revert seen queue. induction draws as [|code draws IH];
    intros seen queue Hnd Hseen; simpl; [done|].
  case_bool_decide as Hin; [by apply IH|].
  apply IH.
  - apply NoDup_app. repeat split; [done| |apply NoDup_singleton].
    intros c Hc Hc'. apply list_elem_of_singleton in Hc' as ->.
    by apply Hin, Hseen.
  - intros c Hc. apply elem_of_app in Hc as [Hc|Hc].
    + apply elem_of_union_l. by apply Hseen.
    + apply list_elem_of_singleton in Hc as ->. set_solver.
Qed.

Lemma count_NoDup (c : string) (codes : list string) :
  NoDup codes →
  length (filter (λ x, x = c) codes)
  = if bool_decide (c ∈ codes) then 1%nat else 0%nat.
Proof.
  induction 1 as [|x codes Hx Hnd IH]; [done|].
  rewrite filter_cons. destruct (decide (x = c)) as [->|Hne].
  - rewrite bool_decide_true by left. cbn [length]. rewrite IH.
    by rewrite bool_decide_false.
  - rewrite IH. case_bool_decide as Hc.
    + rewrite bool_decide_true; [done | by right].
    + rewrite bool_decide_false; [done|].
      intros Hc'. apply elem_of_cons in Hc' as [->|Hc']; done.
Qed.

Lemma submseteq_NoDup (l k : list string) : l ⊆+ k → NoDup k → NoDup l.
Proof.
  intros Hl Hk. apply submseteq_sublist_l in Hl as (l2 & Hsub & Hperm).
  eapply sublist_NoDup; [|exact Hsub]. by rewrite Hperm.
Qed.

(** ** Matches are written and notified by the probe itself *)

(** C3, amended.  The workers probe codes taken from the work queue, each
    dequeued code once; the generation loop never queues a code twice.
    [codes] lists the dequeued codes in the order in which they are probed,
    whichever worker probes them: the numbers of lines and of notifications
    of a key do not depend on how the probes of several workers interleave.
    For every code, the lines of the output file and the notifications that
    are those of its match key grow by exactly one when the code is probed
    and is a match, and do not change otherwise. *)
Theorem pool_persists_match_once (w : world) (use_curl : bool)
    (draws : list string) (seen : gset hashable) (codes : list string)
    (st : state) :
  codes ⊆+ (generation_loop draws seen []).2 →
  ∃ st',
    worker w use_curl (probe_turn <$> codes) st = (Ret tt, st')
    ∧ ∀ c,
        let hit := if bool_decide (c ∈ codes) && is_match w use_curl c
                   then 1%nat else 0%nat in
        persisted c st' = (persisted c st + hit)%nat
        ∧ notified c st' = (notified c st + hit)%nat.
Proof.
  intros Hsub.
  assert (Hnd : NoDup codes).
  { eapply submseteq_NoDup; [exact Hsub|].
    apply generation_loop_NoDup; [apply NoDup_nil_2|].
    intros c Hc. by apply elem_of_nil in Hc. }
  destruct (worker_probe_turns w use_curl codes st) as (st' & Hw & _ & Hhits).
  exists st'. split; [exact Hw|]. intros c. cbv zeta.
  destruct (Hhits c) as [Hp Hn]. rewrite Hp, Hn, (count_NoDup c codes Hnd).
  by destruct (is_match w use_curl c), (bool_decide (c ∈ codes)).
Qed.

Lemma pool_persists_match_once_witness :
  ∃ st',
    worker demo_world true (probe_turn <$> ["abc"; "UMtJXP"]) initial_state
    = (Ret tt, st')
    ∧ ∀ c,
        let hit := if bool_decide (c ∈ ["abc"; "UMtJXP"])
                      && is_match demo_world true c
                   then 1%nat else 0%nat in
        persisted c st' = (persisted c initial_state + hit)%nat
        ∧ notified c st' = (notified c initial_state + hit)%nat.
Proof.
  apply (pool_persists_match_once demo_world true
           ["UMtJXP"; "abc"; "UMtJXP"; "xyz"] ∅ ["abc"; "UMtJXP"]
           initial_state).
  apply (bool_decide_unpack _). vm_compute. exact I.
Defined.

(** C3 as stated fails: a code tested at the start of a run is not put into
    the seen-set, so the generation loop can queue it again; the match is
    then written to the output file twice and notified twice in one run. *)
Lemma session_persists_match_twice :
  let st := (session demo_world true (Some "UMtJXP") ["abc"; "UMtJXP"] ∅
               initial_state).2 in
  is_match demo_world true "UMtJXP" = true
  ∧ persisted "UMtJXP" st = 2%nat
  ∧ notified "UMtJXP" st = 2%nat.
Proof. vm_compute. done. Qed.

Example probe_match_curl :
  (check_func demo_world true "UMtJXP" initial_state).1
  = Ret (VTuple [VBool true; VStr "UMtJXP";
                 VStr "https://gpay.app.goo.gl/UMtJXP"; VStr demo_final_url;
                 VStrList LADDOO_PATTERNS; VStr "Zen"]).
Proof. vm_compute. reflexivity. Qed.

Example probe_unparsable_status :
  let r := check_func demo_world true "odd" initial_state in
  r.1 = Ret (VTuple [VBool false; VStr "odd"; VNone; VNone; VNone])
  ∧ st_requests r.2 = [CurlHttpCode "https://gpay.app.goo.gl/odd"]
  ∧ log_level_of <$> st_log r.2 = [ERROR; INFO].
Proof. vm_compute. done. Qed.

Example probe_second_request_fails :
  let r := check_func demo_world false "lost" initial_state in
  r.1 = Ret (VTuple [VBool false; VStr "lost";
                     VStr "Error: Connection aborted."; VNone; VNone])
  ∧ st_requests r.2 = [RequestsHead "https://gpay.app.goo.gl/lost";
                       RequestsGet "https://gpay.app.goo.gl/lost"].
Proof. vm_compute. done. Qed.

Example worker_goes_on_after_a_match :
  let r := worker demo_world true
             [probe_turn "UMtJXP"; Turn false QueueEmpty false;
              probe_turn "slow"; Turn false (Item None) false;
              probe_turn "never"] initial_state in
  r.1 = Ret tt
  ∧ st_counter r.2 = 2
  ∧ st_result_queue r.2 = []
  ∧ st_task_done r.2 = 1%nat
  ∧ length (st_output r.2) = 1%nat.
Proof. vm_compute. done. Qed.

(** ** The worker and the result of a match *)

(** C4.  When a probe returns a result whose first component is true, the
    result is a tuple of six components.  The worker unpacks the result into
    five names, so its [try] block raises [ValueError] before it reaches
    [result_queue.put]; the handler logs the error and the turn ends.  On no
    sequence of turns does the worker put anything on the result queue. *)
Theorem confirmed_match_never_enqueued (w : world) (use_curl : bool)
    (code : string) (st st1 : state) (result : pyval) :
  check_func w use_curl code st = (Ret result, st1) →
  confirmed result = true →
  (∃ l, result = VTuple l ∧ length l = 6%nat)
  ∧ unpack 5 result st1
    = (Raise (Exn "ValueError" "too many values to unpack (expected 5)"), st1)
  ∧ (∃ st',
       worker_try w use_curl code st
       = (Raise (Exn "ValueError" "too many values to unpack (expected 5)"),
          st')
       ∧ st_result_queue st' = st_result_queue st)
  ∧ (∃ st' lines,
       worker_turn w use_curl code st = (Ret tt, st')
       ∧ st_log st'
         = lines ++ [Log ERROR "Worker error: {}"
                       [VStr "too many values to unpack (expected 5)"]]
       ∧ st_result_queue st' = st_result_queue st)
  ∧ (∀ turns st0, ∃ st',
       worker w use_curl turns st0 = (Ret tt, st')
       ∧ st_result_queue st' = st_result_queue st0).
Proof.
  intros Hcheck Hconf.
  destruct (check_func_returns w use_curl code st)
    as (l & st1' & Hc & Hconf' & Hlen).
  rewrite Hcheck in Hc. injection Hc as -> <-.
  rewrite Hconf in Hconf'. symmetry in Hconf'. rewrite Hconf' in Hlen.
  split; [by exists l|]. split; [|split; [|split]].
  - do 7 (destruct l as [|? l]; try discriminate Hlen). reflexivity.
  - destruct (worker_turn_run w use_curl code st)
      as (st0 & _ & _ & _ & Hq & _ & _ & Htry & _).
    rewrite Htry, Hconf'. cbv zeta. eexists. split; [reflexivity|].
    destruct (check_func_frame w use_curl code st0) as (Hq1 & _).
    cbv zeta in Hq1. congruence.
  - destruct (worker_turn_run w use_curl code st)
      as (st0 & _ & _ & _ & Hq & _ & _ & _ & Hturn).
    rewrite Hturn, Hconf'. cbv zeta. eexists. eexists. split; [reflexivity|].
    destruct (check_func_frame w use_curl code st0) as (Hq1 & _).
    cbv zeta in Hq1. split; [reflexivity | cbn; congruence].
  - intros turns st0. apply worker_result_queue.
Qed.

Lemma confirmed_match_never_enqueued_witness :
  let r := check_func demo_world true "UMtJXP" initial_state in
  (∃ l, VTuple [VBool true; VStr "UMtJXP"; VStr (candidate_url "UMtJXP");
                VStr demo_final_url; VStrList LADDOO_PATTERNS; VStr "Zen"]
        = VTuple l ∧ length l = 6%nat)
  ∧ (∃ st',
       worker_try demo_world true "UMtJXP" initial_state
       = (Raise (Exn "ValueError" "too many values to unpack (expected 5)"),
          st')
       ∧ st_result_queue st' = st_result_queue initial_state).
Proof.
  intros r.
  destruct (confirmed_match_never_enqueued demo_world true "UMtJXP"
              initial_state r.2
              (VTuple [VBool true; VStr "UMtJXP"; VStr (candidate_url "UMtJXP");
                       VStr demo_final_url; VStrList LADDOO_PATTERNS;
                       VStr "Zen"]))
    as (H6 & _ & Htry & _).
  - vm_compute. reflexivity.
  - vm_compute. reflexivity.
  - split; [exact H6 | exact Htry].
Defined.

(** ** The probe client *)

Lemma is_match_out_of_range (w : world) (use_curl : bool) (code : string)
    (status_code : Z) :
  phase1_status w use_curl code = Some status_code →
  ¬ (200 ≤ status_code < 400) →
  (200 <=? status_code) && (status_code <? 400) = false
  ∧ is_match w use_curl code = false.
Proof.
  intros H1 Hr.
  assert (Hr' : (200 <=? status_code) && (status_code <? 400) = false).
  { apply not_true_iff_false. by rewrite range_test. }
  unfold is_match. by rewrite H1, Hr'.
Qed.

(** C7.  When the status check of a candidate yields a status outside
    [200, 400), the probe returns the result [(False, code, None, None,
    None)] at once: the status check, which does not follow redirects, is the
    only request it has sent, and nothing is written or notified. *)
Theorem bad_status_stops_probe (w : world) (use_curl : bool) (code : string)
    (status_code : Z) (st : state) :
  phase1_status w use_curl code = Some status_code →
  ¬ (200 ≤ status_code < 400) →
  ∃ st',
    check_func w use_curl code st
    = (Ret (VTuple [VBool false; VStr code; VNone; VNone; VNone]), st')
    ∧ st_requests st' = st_requests st ++ [phase1_request use_curl code]
    ∧ follows_redirects (phase1_request use_curl code) = false
    ∧ st_output st' = st_output st
    ∧ st_telegram st' = st_telegram st.
Proof.
  intros H1 Hr.
  destruct (is_match_out_of_range w use_curl code status_code H1 Hr)
    as [Hrange Hm].
  exists (check_func w use_curl code st).2. repeat split.
  - rewrite (surjective_pairing (check_func w use_curl code st)) at 1.
    f_equal. apply check_func_invalid. by rewrite H1.
  - by rewrite check_func_requests, H1, Hrange.
  - by destruct use_curl.
  - destruct (check_func_output w use_curl code st) as (lines & Hl & Hlines).
    rewrite Hm in Hlines. subst lines. by rewrite app_nil_r in Hl.
  - destruct (check_func_telegram w use_curl code st) as (ns & Hl & Hns).
    rewrite Hm in Hns. subst ns. by rewrite app_nil_r in Hl.
Qed.

Lemma bad_status_stops_probe_witness :
  ∃ st',
    check_func demo_world true "abc123" initial_state
    = (Ret (VTuple [VBool false; VStr "abc123"; VNone; VNone; VNone]), st')
    ∧ st_requests st'
      = st_requests initial_state ++ [phase1_request true "abc123"]
    ∧ follows_redirects (phase1_request true "abc123") = false
    ∧ st_output st' = st_output initial_state
    ∧ st_telegram st' = st_telegram initial_state.
Proof.
  apply (bad_status_stops_probe demo_world true "abc123" 404 initial_state).
  - vm_compute. reflexivity.
  - lia.
Defined.

(** C8.  A probe never raises.  When the status check raises or gives no
    number, the probe returns [(False, code, None, None, None)] and logs an
    error; when the second request raises, it returns [(False, code,
    "Error: ...", None, None)] and logs an error.  Whatever the probe of a
    code does, the worker's turn on it returns, and the worker goes on with
    the turns that follow. *)
Theorem probe_failure_is_contained (w : world) (use_curl : bool)
    (code : string) (st : state) :
  (∃ v st', check_func w use_curl code st = (Ret v, st'))
  ∧ (phase1_status w use_curl code = None →
       ∃ st' lines,
         check_func w use_curl code st
         = (Ret (VTuple [VBool false; VStr code; VNone; VNone; VNone]), st')
         ∧ st_log st' = st_log st ++ lines ∧ Exists is_error lines)
  ∧ (∀ status_code e,
       phase1_status w use_curl code = Some status_code →
       200 ≤ status_code < 400 →
       phase2_final_url w use_curl code = inl e →
       ∃ st' lines,
         check_func w use_curl code st
         = (Ret (VTuple [VBool false; VStr code;
                         VStr ("Error: " +:+ exn_str e); VNone; VNone]), st')
         ∧ st_log st' = st_log st ++ lines ∧ Exists is_error lines)
  ∧ (∀ rest, ∃ st',
       worker_turn w use_curl code st = (Ret tt, st')
       ∧ st_counter st' = st_counter st + 1
       ∧ worker w use_curl (probe_turn code :: rest) st
         = worker w use_curl rest st').
Proof.
  repeat split.
  - destruct (check_func_returns w use_curl code st) as (l & st' & Hc & _).
    by exists (VTuple l), st'.
  - intros H1.
    destruct (check_func_phase1_error w use_curl code st H1) as (lines & Hl & He).
    exists (check_func w use_curl code st).2, lines. split; [|done].
    rewrite (surjective_pairing (check_func w use_curl code st)) at 1.
    f_equal. apply check_func_invalid. by rewrite H1.
  - intros status_code e H1 Hr H2. apply range_test in Hr.
    destruct (check_func_phase2_error w use_curl code st status_code e H1 Hr H2)
      as (Hv & lines & Hl & He).
    exists (check_func w use_curl code st).2, lines. split; [|done].
    rewrite (surjective_pairing (check_func w use_curl code st)) at 1.
    by f_equal.
  - intros rest.
    destruct (worker_turn_effects w use_curl code st) as (st' & Hrun & _ & Hc & _).
    exists st'. repeat split; [done..|].
    simpl. unfold mbind, M_bind, bind. by rewrite Hrun.
Qed.

Lemma probe_failure_is_contained_witness :
  (∃ st' lines,
     check_func demo_world true "slow" initial_state
     = (Ret (VTuple [VBool false; VStr "slow"; VNone; VNone; VNone]), st')
     ∧ st_log st' = st_log initial_state ++ lines ∧ Exists is_error lines)
  ∧ (∃ st' lines,
       check_func demo_world false "lost" initial_state
       = (Ret (VTuple [VBool false; VStr "lost";
                       VStr ("Error: " +:+ "Connection aborted."); VNone;
                       VNone]), st')
       ∧ st_log st' = st_log initial_state ++ lines ∧ Exists is_error lines).
Proof.
  split.
  - apply (proj1 (proj2 (probe_failure_is_contained demo_world true "slow"
                           initial_state))).
    vm_compute. reflexivity.
  - apply (proj1 (proj2 (proj2 (probe_failure_is_contained demo_world false
                                  "lost" initial_state)))
             302 (Exn "ConnectionError" "Connection aborted.")).
    + vm_compute. reflexivity.
    + lia.
    + vm_compute. reflexivity.
Defined.

(** ** The checkpoint store *)

Lemma os_replace_run (src dst : string) (content : file) (st : state) :
  st_files st !! src = Some content →
  os_replace src dst st
  = (Ret tt, set_files (λ fs, <[dst := content]> (delete src fs)) st).
Proof. intros H. unfold os_replace. by rewrite H. Qed.

Lemma os_rename_run (src dst : string) (content : file) (st : state) :
  st_files st !! src = Some content →
  st_files st !! dst = None →
  os_rename src dst st
  = (Ret tt, set_files (λ fs, <[dst := content]> (delete src fs)) st).
Proof. intros H1 H2. unfold os_rename. by rewrite H1, H2. Qed.

Lemma temp_file_ne : CHECKPOINT_FILE +:+ ".tmp" ≠ CHECKPOINT_FILE.
Proof. vm_compute. discriminate. Qed.

(** [save_checkpoint] returns [True]; afterwards the checkpoint file holds
    the document made of the codes, the counter and the time, and the
    temporary file is gone. *)
Lemma save_checkpoint_run (processed : gset string) (n : Z) (t : Qc)
    (st : state) :
  ∃ st1,
    save_checkpoint processed n t st = (Ret true, st1)
    ∧ st_files st1 !! CHECKPOINT_FILE
      = Some (FJson (VDict [("codes", VStrList (elements processed));
                            ("counter", VInt n);
                            ("timestamp", VFloat t)]))
    ∧ st_files st1 !! (CHECKPOINT_FILE +:+ ".tmp") = None
    ∧ st_log st1
      = st_log st ++ [Log INFO "Checkpoint saved with {} codes" [VInt n]].
Proof.
  unfold save_checkpoint, catch, write_json, file_exists, log_message, modify,
    mbind, M_bind, bind, ret. cbn [negb VERBOSE st_files set_files].
  set (doc := FJson _). set (tmp := CHECKPOINT_FILE +:+ ".tmp").
  set (st_w := set_files <[tmp := doc]> st).
  assert (Htmp : st_files st_w !! tmp = Some doc) by apply lookup_insert_eq.
  assert (Hdst : st_files st_w !! CHECKPOINT_FILE
                 = st_files st !! CHECKPOINT_FILE).
  { apply lookup_insert_ne, temp_file_ne. }
  assert (Hmove : (if bool_decide
                        (is_Some (<[tmp := doc]> (st_files st) !! CHECKPOINT_FILE))
                   then os_replace tmp CHECKPOINT_FILE
                   else os_rename tmp CHECKPOINT_FILE) st_w
          = (Ret tt,
             set_files (λ fs, <[CHECKPOINT_FILE := doc]> (delete tmp fs)) st_w)).
  { change (<[tmp := doc]> (st_files st)) with (st_files st_w).
    case_bool_decide as Hex.
    - by apply os_replace_run.
    - apply os_rename_run; [done|]. by apply eq_None_not_Some. }
  rewrite Hmove. eexists. split; [reflexivity|]. cbn [st_files set_log set_files st_log].
  split; [apply lookup_insert_eq|]. split; [|reflexivity].
  rewrite lookup_insert_ne by (symmetry; apply temp_file_ne).
  apply lookup_delete_eq.
Qed.

Lemma mapM_hash_key_strings (l : list string) :
  mapM hash_key (VStr <$> l) = Some (HStr <$> l).
Proof.
  induction l as [|s l IH]; [done|].
  rewrite fmap_cons. cbn. by rewrite IH.
Qed.

Lemma py_set_strings (l : list string) (st : state) :
  py_set (VStrList l) st = (Ret (list_to_set (HStr <$> l)), st).
Proof.
  unfold py_set, VStrList. cbn [py_iter]. by rewrite mapM_hash_key_strings.
Qed.

(** [load_checkpoint] on a checkpoint file that holds the codes of a set,
    an integer counter and a time. *)
Lemma load_checkpoint_document (processed : gset string) (n : Z) (t now : Qc)
    (st : state) :
  st_files st !! CHECKPOINT_FILE
  = Some (FJson (VDict [("codes", VStrList (elements processed));
                        ("counter", VInt n);
                        ("timestamp", VFloat t)])) →
  load_checkpoint now st
  = (Ret (set_map HStr processed, VInt n),
     set_log (λ l, l ++ [Log INFO "Checkpoint loaded: {} codes from {}"
                           [VInt n; VFloat t]]) st).
Proof.
  intros Hfile.
  unfold load_checkpoint, load_checkpoint_try, catch, file_exists, read_json,
    mbind, M_bind, bind.
  cbn beta. rewrite Hfile. rewrite bool_decide_true by by eexists.
  cbn beta iota. rewrite Hfile. cbn beta iota.
  unfold dict_get, py_or, ret.
  cbn [assoc String.eqb Ascii.eqb Bool.eqb default from_option id].
  cbn beta iota.
  assert (Hcodes : ∀ st0 : state,
    (if truthy (VStrList (elements processed))
     then λ st : state, (Ret (VStrList (elements processed)), st)
     else λ st : state, (Ret (VList []), st)) st0
    = (Ret (VStrList (elements processed)), st0)).
  { intros st0. unfold VStrList.
    by destruct (elements processed). }
  rewrite Hcodes, py_set_strings.
  assert (Hcount : ∀ st0 : state,
    (if truthy (VInt n)
     then λ st : state, (Ret (VInt n), st)
     else λ st : state, (Ret (VInt 0), st)) st0
    = (Ret (VInt n), st0)).
  { intros st0. cbn [truthy]. destruct (n =? 0) eqn:Hn; [|done].
    apply Z.eqb_eq in Hn. by subst n. }
  rewrite Hcount. reflexivity.
Qed.

(** C2.  For every set [processed] of codes and every integer [n], in
    every state, [save_checkpoint processed n] returns [True], and
    [load_checkpoint] called afterwards returns the set of the same codes
    and the counter [n]. *)
Theorem checkpoint_round_trip (processed : gset string) (n : Z)
    (saved_at loaded_at : Qc) (st : state) :
  ∃ st1 st2,
    save_checkpoint processed n saved_at st = (Ret true, st1)
    ∧ load_checkpoint loaded_at st1
      = (Ret (set_map HStr processed, VInt n), st2).
Proof.
  destruct (save_checkpoint_run processed n saved_at st)
    as (st1 & Hsave & Hfile & _).
  exists st1. eexists. split; [exact Hsave|].
  by apply load_checkpoint_document.
Qed.

Example checkpoint_round_trip_empty :
  (load_checkpoint (Q2Qc 2)
     (save_checkpoint ∅ 0 (Q2Qc 1) initial_state).2).1
  = Ret (∅, VInt 0).
Proof. vm_compute. reflexivity. Qed.

(** A [try] whose handler returns is a computation that returns. *)
Lemma catch_returns {A} (m : M A) (h : exn → M A) (st : state) :
  (∀ e st0, ∃ a st', h e st0 = (Ret a, st')) →
  ∃ a st', catch m h st = (Ret a, st').
Proof.
  intros Hh. unfold catch. destruct (m st) as [[a|e] st0]; [by eauto|].
  apply Hh.
Qed.

(** C6.  [load_checkpoint] returns the empty set and zero when there is no
    checkpoint file.  When the file does not parse, or parses to something
    that is not a dictionary, it logs the error and returns the empty set
    and zero; so it does for any exception raised while the file is read.
    In every state it returns: it never raises. *)
Theorem load_checkpoint_never_fails (now : Qc) (st : state) :
  (st_files st !! CHECKPOINT_FILE = None →
     load_checkpoint now st = (Ret (∅, VInt 0), st))
  ∧ (∀ e,
       st_files st !! CHECKPOINT_FILE = Some (FMalformed e) →
       load_checkpoint now st
       = (Ret (∅, VInt 0),
          set_log (λ l, l ++ [Log ERROR "Error loading checkpoint: {}"
                                [VStr (exn_str e)]]) st))
  ∧ (∀ document,
       st_files st !! CHECKPOINT_FILE = Some (FJson document) →
       (∀ items, document ≠ VDict items) →
       ∃ e,
         load_checkpoint now st
         = (Ret (∅, VInt 0),
            set_log (λ l, l ++ [Log ERROR "Error loading checkpoint: {}"
                                  [VStr (exn_str e)]]) st))
  ∧ (∀ e st0,
       load_checkpoint_try now st = (Raise e, st0) →
       load_checkpoint now st
       = (Ret (∅, VInt 0),
          set_log (λ l, l ++ [Log ERROR "Error loading checkpoint: {}"
                                [VStr (exn_str e)]]) st0))
  ∧ (∃ r st', load_checkpoint now st = (Ret r, st')).
Proof.
  repeat split.
  - intros Hfile.
    unfold load_checkpoint, load_checkpoint_try, catch, file_exists, mbind,
      M_bind, bind.
    cbn beta. rewrite Hfile. rewrite bool_decide_false; [done|].
    by intros [? ?].
  - intros e Hfile.
    unfold load_checkpoint, load_checkpoint_try, catch, file_exists, read_json,
      mbind, M_bind, bind.
    cbn beta. rewrite Hfile. rewrite bool_decide_true by by eexists.
    cbn beta iota. rewrite Hfile. reflexivity.
  - intros document Hfile Hshape.
    unfold load_checkpoint, load_checkpoint_try, catch, file_exists, read_json,
      mbind, M_bind, bind.
    cbn beta. rewrite Hfile. rewrite bool_decide_true by by eexists.
    cbn beta iota. rewrite Hfile. cbn beta iota. unfold dict_get.
    destruct document; try (eexists; reflexivity).
    by destruct (Hshape items).
  - intros e st0 Htry. unfold load_checkpoint, catch. by rewrite Htry.
  - unfold load_checkpoint. apply catch_returns. intros e st0.
    by eexists _, _.
Qed.

Lemma load_checkpoint_never_fails_witness :
  load_checkpoint (Q2Qc 0) initial_state = (Ret (∅, VInt 0), initial_state)
  ∧ load_checkpoint (Q2Qc 0)
      (set_files
         <[CHECKPOINT_FILE := FMalformed
             (Exn "JSONDecodeError" "Expecting value: line 1 column 1 (char 0)")]>
         initial_state)
    = (Ret (∅, VInt 0),
       set_log
         (λ l, l ++ [Log ERROR "Error loading checkpoint: {}"
                       [VStr "Expecting value: line 1 column 1 (char 0)"]])
         (set_files
            <[CHECKPOINT_FILE := FMalformed
                (Exn "JSONDecodeError"
                   "Expecting value: line 1 column 1 (char 0)")]>
            initial_state)).
Proof.
  split.
  - apply (proj1 (load_checkpoint_never_fails (Q2Qc 0) initial_state)).
    vm_compute. reflexivity.
  - apply (proj1 (proj2 (load_checkpoint_never_fails (Q2Qc 0) _))
             (Exn "JSONDecodeError" "Expecting value: line 1 column 1 (char 0)")).
    vm_compute. reflexivity.
Defined.

(** ** The start of a run *)

(** C9 as stated fails.  A checkpoint saved while three codes were queued
    and one had been counted stores the counter 1, and [load_checkpoint]
    returns 1; after a resumed start the counter of the run is 3, the number
    of codes in the checkpoint. *)
Lemma startup_counter_is_not_the_stored_counter :
  let st0 :=
    (save_checkpoint {["abc"; "def"; "ghi"]} 1 (Q2Qc 100) initial_state).2 in
  (load_checkpoint (Q2Qc 200) st0).1
  = Ret (set_map HStr ({["abc"; "def"; "ghi"]} : gset string), VInt 1)
  ∧ st_counter (startup (Q2Qc 200) "y" st0).2 = 3
  ∧ st_counter (startup (Q2Qc 200) "y" st0).2 ≠ 1.
Proof.
  split; [|split].
  - reflexivity.
  - reflexivity.
  - vm_compute. discriminate.
Qed.

(** The resumed start, from what [load_checkpoint] returns: the seen-set is
    the loaded set and the counter is its size. *)
Lemma startup_from_loaded (now : Qc) (resume_choice : string)
    (st st1 : state) (codes : gset hashable) (count : pyval) :
  load_checkpoint now st = (Ret (codes, count), st1) →
  PyStr.lower resume_choice = "y" →
  ∃ st2,
    startup now resume_choice st = (Ret codes, st2)
    ∧ st_counter st2 = Z.of_nat (size codes).
Proof.
  intros Hload Hyes.
  unfold startup, mbind, M_bind, bind, log_message, modify, ret.
  rewrite Hload, Hyes. cbn [negb VERBOSE String.eqb Ascii.eqb Bool.eqb].
  destruct (0 <? size codes)%nat; eexists; (split; [reflexivity|done]).
Qed.

(** [load_checkpoint] on a checkpoint file with a list of codes that is not
    empty: the set of the codes is returned, whatever the file holds as the
    counter. *)
Lemma load_checkpoint_codes (items : list (string * pyval))
    (codes : list string) (now : Qc) (st : state) :
  st_files st !! CHECKPOINT_FILE = Some (FJson (VDict items)) →
  assoc "codes" items = Some (VStrList codes) →
  codes ≠ [] →
  from_option plain_timestamp true (assoc "timestamp" items) = true →
  ∃ count st1,
    load_checkpoint now st
    = (Ret (list_to_set (HStr <$> codes), count), st1).
Proof.
  intros Hfile Hcodes Hne Htime.
  unfold load_checkpoint, load_checkpoint_try, catch, file_exists, read_json,
    mbind, M_bind, bind.
  cbn beta. rewrite Hfile. rewrite bool_decide_true by by eexists.
  cbn beta iota. rewrite Hfile. cbn beta iota.
  unfold dict_get, py_or, ret. rewrite Hcodes.
  cbn [default from_option id]. cbn beta iota.
  assert (Htruthy : truthy (VStrList codes) = true).
  { unfold VStrList. by destruct codes. }
  rewrite Htruthy, py_set_strings. cbn beta iota.
  destruct (truthy (default (VInt 0) (assoc "counter" items))); cbn beta iota;
    (destruct (assoc "timestamp" items) as [[| | | | | | |]|];
     cbn [from_option plain_timestamp] in Htime; try discriminate Htime;
     cbn [default from_option id localtime]; unfold ret, log_message, modify;
     cbn [negb VERBOSE]; cbn beta iota; by eexists _, _).
Qed.

Lemma size_list_to_set_HStr (codes : list string) :
  size (list_to_set (C := gset hashable) (HStr <$> codes))
  = length (remove_dups codes).
Proof.
  transitivity
    (size (list_to_set (C := gset hashable) (HStr <$> remove_dups codes))).
  - f_equal. apply set_eq. intros x.
    rewrite !elem_of_list_to_set, !list_elem_of_fmap.
    by setoid_rewrite elem_of_remove_dups.
  - rewrite size_list_to_set, length_fmap; [done|].
    apply NoDup_fmap_2; [by intros ?? [= ->] | apply NoDup_remove_dups].
Qed.

(** C9, amended.  At the start of a run the checkpoint is loaded; when the
    checkpoint file holds a list of codes and the user answers "y" to the
    question whether to resume, the seen-set of the run is the set of the
    codes of the file and the counter of the run is the number of distinct
    codes in that list.  The counter stored in the file is not used: the
    result is the same whatever the file holds under ["counter"]. *)
Theorem startup_resumes_from_loaded_codes (now : Qc) (resume_choice : string)
    (st : state) (items : list (string * pyval)) (codes : list string) :
  st_files st !! CHECKPOINT_FILE = Some (FJson (VDict items)) →
  assoc "codes" items = Some (VStrList codes) →
  codes ≠ [] →
  from_option plain_timestamp true (assoc "timestamp" items) = true →
  PyStr.lower resume_choice = "y" →
  ∃ st2,
    startup now resume_choice st = (Ret (list_to_set (HStr <$> codes)), st2)
    ∧ st_counter st2 = Z.of_nat (size (list_to_set (C := gset hashable)
                                         (HStr <$> codes)))
    ∧ st_counter st2 = Z.of_nat (length (remove_dups codes)).
Proof.
  intros Hfile Hcodes Hne Htime Hyes.
  destruct (load_checkpoint_codes items codes now st Hfile Hcodes Hne Htime)
    as (count & st1 & Hload).
  destruct (startup_from_loaded now resume_choice st st1 _ count Hload Hyes)
    as (st2 & Hstart & Hcounter).
  exists st2. split_and!; [done..|].
  by rewrite Hcounter, size_list_to_set_HStr.
Qed.

Lemma startup_resumes_from_loaded_codes_witness :
  let st :=
    set_files
      <[CHECKPOINT_FILE :=
          FJson (VDict [("codes", VStrList ["abc"; "abc"; "def"]);
                        ("counter", VInt 7);
                        ("timestamp", VFloat (Q2Qc 100))])]>
      initial_state in
  ∃ st2,
    startup (Q2Qc 200) "Y" st
    = (Ret (list_to_set (HStr <$> ["abc"; "abc"; "def"])), st2)
    ∧ st_counter st2
      = Z.of_nat (size (list_to_set (C := gset hashable)
                          (HStr <$> ["abc"; "abc"; "def"])))
    ∧ st_counter st2 = Z.of_nat (length (remove_dups ["abc"; "abc"; "def"])).
Proof.
  apply (startup_resumes_from_loaded_codes (Q2Qc 200) "Y" _
           [("codes", VStrList ["abc"; "abc"; "def"]);
            ("counter", VInt 7);
            ("timestamp", VFloat (Q2Qc 100))]
           ["abc"; "abc"; "def"]);
    [reflexivity | reflexivity | discriminate | vm_compute; reflexivity
    | vm_compute; reflexivity].
Defined.

(** In that run the counter is 2, and not the 7 of the file. *)
Example startup_counts_distinct_codes :
  st_counter
    (startup (Q2Qc 200) "Y"
       (set_files
          <[CHECKPOINT_FILE :=
              FJson (VDict [("codes", VStrList ["abc"; "abc"; "def"]);
                            ("counter", VInt 7);
                            ("timestamp", VFloat (Q2Qc 100))])]>
          initial_state)).2
  = 2.
Proof. reflexivity. Qed.

(** * Further properties *)

(** ** The pattern loop *)

(** A list split by a test. *)
Lemma filter_split (present : string → bool) (l : list string) :
  let yes := List.filter present l in
  let no := List.filter (λ p, negb (present p)) l in
  yes ++ no ≡ₚ l
  ∧ yes `sublist_of` l
  ∧ no `sublist_of` l
  ∧ (forallb present l = true ↔ no = []).
Proof.
  induction l as [|p ps (IH1 & IH2 & IH3 & IH4)]; [done|].
  cbn [List.filter forallb]. destruct (present p); cbn [negb andb app].
  - repeat split; [by apply perm_skip | by apply sublist_skip
                   | by apply sublist_cons | apply IH4 | apply IH4].
  - repeat split; [| by apply sublist_cons | by apply sublist_skip
                   | discriminate | discriminate].
    rewrite <- Permutation_middle. by apply perm_skip.
Qed.

(** X1.  The pattern loop splits the list of patterns: the patterns found
    and the patterns missing keep their order, are together a rearrangement
    of the list and have no pattern in common; the flag is true exactly when
    no pattern is missing. *)
Theorem scan_splits_patterns (patterns : list string)
    (final_url decoded_url : string) :
  let r := scan_patterns patterns final_url decoded_url in
  found_patterns r ++ missing_patterns r ≡ₚ patterns
  ∧ found_patterns r `sublist_of` patterns
  ∧ missing_patterns r `sublist_of` patterns
  ∧ (∀ p, p ∈ found_patterns r → p ∉ missing_patterns r)
  ∧ (all_patterns_found r = true ↔ missing_patterns r = []).
Proof.
  unfold scan_patterns.
  destruct (scan_fold final_url decoded_url patterns scan_init)
    as (Ha & Hf & Hm).
  cbv zeta in *. rewrite Ha, Hf, Hm. clear Ha Hf Hm.
  cbn [scan_init all_patterns_found found_patterns missing_patterns].
  rewrite andb_true_l, !app_nil_l.
  destruct (filter_split
              (λ p, PyStr.contains p final_url || PyStr.contains p decoded_url)
              patterns) as (H1 & H2 & H3 & H4).
  repeat split; [done..| | apply H4 | apply H4].
  intros p Hf Hm. apply list_elem_of_In, filter_In in Hf as [_ Hf].
  apply list_elem_of_In, filter_In in Hm as [_ Hm].
  by rewrite Hf in Hm.
Qed.

(** When the flag is true the list of patterns found is the whole list. *)
Lemma scan_found_all (patterns : list string) (final_url decoded_url : string) :
  all_patterns_found (scan_patterns patterns final_url decoded_url) = true →
  found_patterns (scan_patterns patterns final_url decoded_url) = patterns.
Proof.
  unfold scan_patterns.
  destruct (scan_fold final_url decoded_url patterns scan_init)
    as (Ha & Hf & _).
  cbv zeta in *. rewrite Ha, Hf. clear Ha Hf.
  cbn [scan_init all_patterns_found found_patterns].
  rewrite andb_true_l, app_nil_l.
  induction patterns as [|p ps IH]; [done|]. cbn [forallb List.filter].
  destruct (_ || _); cbn [andb]; [|discriminate].
  intros H. by rewrite IH.
Qed.

(** ** The category *)

(** X2.  The category depends on the URL only up to the case of its
    letters, and it is one of the labels of [LADDOO_TYPES] or ["Other"]. *)
Theorem extract_laddoo_type_case_blind (url url' : string) :
  (PyStr.lower url = PyStr.lower url' →
     extract_laddoo_type url = extract_laddoo_type url')
  ∧ (extract_laddoo_type url ∈ LADDOO_TYPES ∨ extract_laddoo_type url = "Other").
Proof.
  unfold extract_laddoo_type. generalize LADDOO_TYPES. intros types. split.
  - intros Hl. induction types as [|t types IH]; [done|].
    cbn [extract_from]. by rewrite Hl, IH.
  - induction types as [|t types IH]; [by right|]. cbn [extract_from].
    destruct (PyStr.contains _ _).
    + left. by left.
    + destruct IH as [IH|IH]; [left; by right | by right].
Qed.

Lemma extract_laddoo_type_case_blind_witness :
  extract_laddoo_type "https://x/?t=DIZZY" = extract_laddoo_type "https://X/?T=dizzy".
Proof.
  apply (proj1 (extract_laddoo_type_case_blind "https://x/?t=DIZZY"
                  "https://X/?T=dizzy")).
  vm_compute. reflexivity.
Defined.

(** ** The probes *)

(** X3.  [is_valid_url] never raises and sends exactly one request, the
    status check.  It returns true exactly when the status check gives a
    status in [200, 400); when the check raises or gives no number it logs
    one error and returns false.  It writes nothing to the output file and
    notifies nobody. *)
Theorem is_valid_url_checks_status (w : world) (code : string)
    (use_curl : bool) (st : state) :
  ∃ st',
    is_valid_url w code use_curl st
    = (Ret match phase1_status w use_curl code with
           | Some status_code => (200 <=? status_code) && (status_code <? 400)
           | None => false
           end, st')
    ∧ st_requests st' = st_requests st ++ [phase1_request use_curl code]
    ∧ st_output st' = st_output st
    ∧ st_telegram st' = st_telegram st
    ∧ (phase1_status w use_curl code = None →
         ∃ line, st_log st' = st_log st ++ [line] ∧ is_error line).
Proof.
  destruct use_curl; probe_cases; eexists; repeat split; try done;
    intros _; eexists; split; done.
Qed.

(** X4.  A partial match is not a match: when the status is in [200, 400)
    and the final URL lacks a pattern, the probe returns [(False, code, None,
    final_url, None)], writes no line and sends no notification. *)
Theorem partial_match_is_discarded (w : world) (use_curl : bool)
    (code final_url : string) (status_code : Z) (st : state) :
  phase1_status w use_curl code = Some status_code →
  200 ≤ status_code < 400 →
  phase2_final_url w use_curl code = inr final_url →
  all_patterns_found (classify final_url) = false →
  ∃ st',
    check_func w use_curl code st
    = (Ret (VTuple [VBool false; VStr code; VNone; VStr final_url; VNone]), st')
    ∧ st_output st' = st_output st
    ∧ st_telegram st' = st_telegram st
    ∧ st_requests st'
      = st_requests st
        ++ [phase1_request use_curl code; phase2_request use_curl code].
Proof.
  intros H1 Hr H2 Hp. apply range_test in Hr.
  destruct use_curl; probe_cases; eexists; repeat split; try done;
    simpl; by rewrite <- app_assoc.
Qed.

Lemma partial_match_is_discarded_witness :
  ∃ st',
    check_func partial_world false "abc123" initial_state
    = (Ret (VTuple [VBool false; VStr "abc123"; VNone;
                    VStr "https://pay.google.com/?c=iplladdoo2025"; VNone]),
       st')
    ∧ st_output st' = st_output initial_state
    ∧ st_telegram st' = st_telegram initial_state
    ∧ st_requests st'
      = st_requests initial_state
        ++ [phase1_request false "abc123"; phase2_request false "abc123"].
Proof.
  apply (partial_match_is_discarded partial_world false "abc123"
           "https://pay.google.com/?c=iplladdoo2025" 301 initial_state).
  - vm_compute. reflexivity.
  - lia.
  - vm_compute. reflexivity.
  - vm_compute. reflexivity.
Defined.

(** X5.  What the notification channel answers does not change a probe: its
    result, the line it writes, the requests it sends and the notification it
    hands over are the same whether [send_valid_link] returns true, returns
    false or raises. *)
Theorem notification_outcome_is_ignored (w : world)
    (reply : notification → exn + bool) (use_curl : bool) (code : string)
    (st : state) :
  let r := check_func w use_curl code st in
  let r' := check_func (with_telegram w reply) use_curl code st in
  r'.1 = r.1
  ∧ st_output r'.2 = st_output r.2
  ∧ st_telegram r'.2 = st_telegram r.2
  ∧ st_requests r'.2 = st_requests r.2.
Proof.
  unfold with_telegram. destruct use_curl; probe_cases;
    destruct (reply _); done.
Qed.

(** X6.  The two backends agree: when the status that curl prints is the
    status that [requests.head] gives, and the stripped URL that curl prints
    is the URL that [requests.get] ends at, [check_url_curl] and
    [check_url_requests] return the same tuple, write the same line and hand
    over the same notification. *)
Theorem backends_agree (w : world) (code : string) (st : state) :
  phase1_status w true code = phase1_status w false code →
  phase2_final_url w true code = phase2_final_url w false code →
  (check_url_curl w code st).1 = (check_url_requests w code st).1
  ∧ st_output (check_url_curl w code st).2
    = st_output (check_url_requests w code st).2
  ∧ st_telegram (check_url_curl w code st).2
    = st_telegram (check_url_requests w code st).2.
Proof.
  intros H1 H2.
  unfold phase1_status, phase2_final_url in *. unfold_M. simpl in *.
  destruct (requests_get w (candidate_url code)) as [e|[status final]] in *;
    repeat (probe_step; simpl in *; simplify_eq; try done).
Qed.

Lemma backends_agree_witness :
  (check_url_curl demo_world "UMtJXP" initial_state).1
  = (check_url_requests demo_world "UMtJXP" initial_state).1
  ∧ st_output (check_url_curl demo_world "UMtJXP" initial_state).2
    = st_output (check_url_requests demo_world "UMtJXP" initial_state).2
  ∧ st_telegram (check_url_curl demo_world "UMtJXP" initial_state).2
    = st_telegram (check_url_requests demo_world "UMtJXP" initial_state).2.
Proof.
  apply (backends_agree demo_world "UMtJXP" initial_state).
  - vm_compute. reflexivity.
  - vm_compute. reflexivity.
Defined.

(** X7.  What a match leaves behind: the tuple returned holds the candidate
    URL, the final URL as received, the whole list of patterns and the
    category of the decoded URL; one line with the candidate URL, the final
    URL and the category is added to the output file, and one notification
    with the code, the final URL, the patterns, the system name and the
    category is handed over. *)
Theorem match_is_recorded (w : world) (use_curl : bool) (code : string)
    (st : state) :
  is_match w use_curl code = true →
  ∃ final_url st',
    let laddoo_type := extract_laddoo_type (PyStr.unquote final_url) in
    phase2_final_url w use_curl code = inr final_url
    ∧ check_func w use_curl code st
      = (Ret (VTuple [VBool true; VStr code; VStr (candidate_url code);
                      VStr final_url; VStrList LADDOO_PATTERNS;
                      VStr laddoo_type]), st')
    ∧ st_output st'
      = st_output st ++ [MatchLine (candidate_url code) final_url laddoo_type]
    ∧ st_telegram st'
      = st_telegram st
        ++ [Notification code final_url LADDOO_PATTERNS (SYSTEM_NAME w)
              laddoo_type].
Proof.
  intros Hm. unfold is_match in Hm.
  destruct (phase1_status w use_curl code) as [status_code|] eqn:H1; [|done].
  destruct ((200 <=? status_code) && (status_code <? 400)) eqn:Hr; [|done].
  destruct (phase2_final_url w use_curl code) as [e|final_url] eqn:H2; [done|].
  cbn [andb] in Hm. pose proof (scan_found_all _ _ _ Hm) as Hfound.
  exists final_url.
  destruct use_curl; probe_cases; rewrite ?Hfound; eexists; done.
Qed.

Lemma match_is_recorded_witness :
  ∃ final_url st',
    let laddoo_type := extract_laddoo_type (PyStr.unquote final_url) in
    phase2_final_url demo_world false "UMtJXP" = inr final_url
    ∧ check_func demo_world false "UMtJXP" initial_state
      = (Ret (VTuple [VBool true; VStr "UMtJXP"; VStr (candidate_url "UMtJXP");
                      VStr final_url; VStrList LADDOO_PATTERNS;
                      VStr laddoo_type]), st')
    ∧ st_output st'
      = st_output initial_state
        ++ [MatchLine (candidate_url "UMtJXP") final_url laddoo_type]
    ∧ st_telegram st'
      = st_telegram initial_state
        ++ [Notification "UMtJXP" final_url LADDOO_PATTERNS
              (SYSTEM_NAME demo_world) laddoo_type].
Proof.
  apply (match_is_recorded demo_world false "UMtJXP" initial_state).
  vm_compute. reflexivity.
Defined.

(** ** The worker *)

(** X8.  The worker ends at the first turn in which the stop event is set
    or the item is [None]: whatever is queued after that turn is not probed.
    A code dequeued in a turn whose stop event is set after the [get] is
    dropped without a probe. *)
Theorem worker_ends_at_stop (w : world) (use_curl : bool)
    (before : list turn) (t : turn) (after : list turn) (st : state) :
  stops t = true →
  worker w use_curl (before ++ t :: after) st = worker w use_curl before st.
Proof.
  intros Hstop. revert st. induction before as [|a before IH]; intros st.
  - cbn [app worker]. unfold stops in Hstop.
    destruct (stop_at_head t); [done|].
    destruct (got t) as [|[c|]]; [done| |done].
    cbn [orb] in Hstop. by rewrite Hstop.
  - cbn [app worker]. destruct (stop_at_head a); [done|].
    destruct (got a) as [|[c|]]; [apply IH | | done].
    destruct (stop_after_get a); [done|].
    unfold mbind, M_bind, bind.
    destruct (worker_turn w use_curl c st) as [[[]|e] st1]; [apply IH | done].
Qed.

Lemma worker_ends_at_stop_witness :
  worker demo_world true
    ([probe_turn "abc"] ++ Turn false (Item (Some "UMtJXP")) true
       :: [probe_turn "UMtJXP"]) initial_state
  = worker demo_world true [probe_turn "abc"] initial_state.
Proof.
  apply (worker_ends_at_stop demo_world true [probe_turn "abc"]
           (Turn false (Item (Some "UMtJXP")) true) [probe_turn "UMtJXP"]
           initial_state).
  reflexivity.
Defined.

(** One turn of the worker on a code: [task_done] is called when the code is
    not a match and is not called when it is. *)
Lemma worker_turn_task_done (w : world) (use_curl : bool) (code : string)
    (st : state) :
  ∃ st',
    worker_turn w use_curl code st = (Ret tt, st')
    ∧ st_counter st' = st_counter st + 1
    ∧ st_task_done st'
      = (st_task_done st + if is_match w use_curl code then 0 else 1)%nat.
Proof.
  destruct (worker_turn_run w use_curl code st)
    as (st0 & _ & _ & _ & _ & Htd & Hcnt & _ & Hturn).
  rewrite Hturn. cbv zeta. eexists. split; [reflexivity|].
  destruct (check_func_frame w use_curl code st0) as (_ & Hc1 & Htd1 & _).
  cbv zeta in Hc1, Htd1.
  destruct (is_match w use_curl code); cbn [set_log set_task_done st_counter
    st_task_done]; split; lia.
Qed.

(** X9.  After the worker has probed a list of codes the counter has grown
    by the number of codes, and [work_queue.task_done] has been called once
    for each code that is not a match and never for a match. *)
Theorem worker_counts (w : world) (use_curl : bool) (codes : list string)
    (st : state) :
  ∃ st',
    worker w use_curl (probe_turn <$> codes) st = (Ret tt, st')
    ∧ st_counter st' = st_counter st + Z.of_nat (length codes)
    ∧ st_task_done st'
      = (st_task_done st
         + length (List.filter (λ c, negb (is_match w use_curl c)) codes))%nat.
Proof.
  revert st. induction codes as [|code codes IH]; intros st.
  - exists st. cbn. repeat split; lia.
  - destruct (worker_turn_task_done w use_curl code st)
      as (st1 & Hrun & Hcnt & Htd).
    destruct (IH st1) as (st' & Hw & Hcnt' & Htd').
    exists st'. cbn [fmap list_fmap worker probe_turn stop_at_head got
      stop_after_get]. unfold mbind, M_bind, bind. rewrite Hrun.
    split; [exact Hw|]. cbn [List.filter length].
    destruct (is_match w use_curl code); cbn [negb length]; split; lia.
Qed.

(** X10.  A time-out of [work_queue.get] changes nothing: the worker does
    on a list of turns what it does on the list without its idle turns. *)
Theorem worker_skips_timeouts (w : world) (use_curl : bool)
    (turns : list turn) (st : state) :
  worker w use_curl (List.filter (λ t, negb (idle t)) turns) st
  = worker w use_curl turns st.
Proof.
  revert st. induction turns as [|t turns IH]; intros st; [done|].
  cbn [List.filter]. unfold idle at 1.
  destruct (stop_at_head t) eqn:Hh; cbn [negb andb].
  - cbn [worker]. by rewrite Hh.
  - destruct (got t) as [|[c|]] eqn:Hg; cbn [negb worker]; rewrite Hh, ?Hg.
    + apply IH.
    + destruct (stop_after_get t); [done|].
      unfold mbind, M_bind, bind.
      destruct (worker_turn w use_curl c st) as [[[]|e] st1]; [apply IH | done].
    + done.
Qed.

(** ** The dedup tracker *)

Lemma mark_all_true_count (urls : list string) (s : gset string) :
  size (UrlTracker.mark_all urls s).2
  = (size s + length (List.filter id (UrlTracker.mark_all urls s).1))%nat.
Proof.
  revert s. induction urls as [|u urls IH]; intros s; cbn [UrlTracker.mark_all].
  - cbn. lia.
  - unfold UrlTracker.mark_processed. case_bool_decide as Hu.
    + specialize (IH s). destruct (UrlTracker.mark_all urls s) as [rs s'].
      cbn in *. lia.
    + specialize (IH (s ∪ {[u]})).
      destruct (UrlTracker.mark_all urls (s ∪ {[u]})) as [rs s'].
      cbn in *. rewrite IH, size_union, size_singleton by set_solver. lia.
Qed.

(** X11.  After any sequence of calls of [mark_processed] on a new tracker,
    [get_processed_count] is the number of calls that returned true, which
    is the number of distinct keys, and [is_processed] holds exactly of the
    keys of the calls. *)
Theorem tracker_counts_distinct_keys (urls : list string) :
  let results := (UrlTracker.mark_all urls UrlTracker.init).1 in
  let tracker := (UrlTracker.mark_all urls UrlTracker.init).2 in
  UrlTracker.get_processed_count tracker = length (List.filter id results)
  ∧ UrlTracker.get_processed_count tracker = length (remove_dups urls)
  ∧ length results = length urls
  ∧ ∀ u, UrlTracker.is_processed u tracker = true ↔ u ∈ urls.
Proof.
  cbv zeta. unfold UrlTracker.get_processed_count, UrlTracker.is_processed,
    UrlTracker.init.
  split_and!; [| | |intros u; split].
  - rewrite mark_all_true_count, size_empty. lia.
  - rewrite mark_all_set, union_empty_l_L.
    rewrite <- (size_list_to_set (C := gset string) (remove_dups urls))
      by apply NoDup_remove_dups.
    f_equal. apply set_eq. intros x.
    by rewrite !elem_of_list_to_set, elem_of_remove_dups.
  - generalize (∅ : gset string). induction urls as [|u urls IH]; intros s;
      [done|]. cbn [UrlTracker.mark_all].
    destruct (UrlTracker.mark_processed u s) as [r s1].
    specialize (IH s1). destruct (UrlTracker.mark_all urls s1) as [rs s2].
    cbn in *. by rewrite IH.
  - intros H. apply bool_decide_eq_true in H.
    rewrite mark_all_set in H. set_solver.
  - intros H. apply bool_decide_eq_true. rewrite mark_all_set. set_solver.
Qed.

(** ** The result writer *)

(** [first_occurrences] and [filter] commute. *)
Lemma first_occurrences_filter (P : string → Prop) `{!∀ x, Decision (P x)}
    (l : list string) :
  first_occurrences (filter P l) = filter P (first_occurrences l).
Proof.
  induction l as [|x l IH]; [done|]. cbn [first_occurrences].
  destruct (decide (P x)) as [Hx|Hx].
  - rewrite !filter_cons_True by done. cbn [first_occurrences].
    rewrite IH, !list_filter_filter. f_equal.
    apply list_filter_iff. naive_solver.
  - rewrite !filter_cons_False by done. rewrite IH.
    symmetry. apply list_filter_filter_l. by intros y Hy ->.
Qed.

Lemma first_occurrences_new (seen : string → Prop) `{!∀ x, Decision (seen x)}
    (x : string) (l : list string) :
  first_occurrences (filter (λ y, ¬ (seen y ∨ y = x)) l)
  = filter (λ y, y ≠ x) (first_occurrences (filter (λ y, ¬ seen y) l)).
Proof.
  rewrite <- first_occurrences_filter, list_filter_filter. f_equal.
  apply list_filter_iff. naive_solver.
Qed.

Lemma filter_all {A} (P : A → Prop) `{!∀ x, Decision (P x)} (l : list A) :
  (∀ x, P x) → filter P l = l.
Proof.
  intros HP. induction l as [|x l IH]; [done|].
  by rewrite filter_cons_True, IH.
Qed.

(** The writer on a list of deliveries, starting with an empty batch: the
    batch is empty again at the end, the tracker has gained the items, and
    the file has gained the items that were new, in the order of their first
    delivery. *)
Lemma writer_deliveries (items : list string) (tracker : gset string)
    (file : list string) :
  ∃ new,
    ResultWriter.run (ResultWriter.deliver <$> items)
      (ResultWriter.Make [] tracker file)
    = ResultWriter.Make [] (tracker ∪ list_to_set items) (file ++ new)
    ∧ new = first_occurrences (filter (λ u, ¬ u ∈ tracker) items)
    ∧ NoDup new
    ∧ new `sublist_of` items
    ∧ ∀ u, u ∈ new ↔ u ∈ items ∧ u ∉ tracker.
Proof.
  revert tracker file. induction items as [|item items IH];
    intros tracker file.
  - exists []. cbn. rewrite app_nil_r, union_empty_r_L.
    split_and!; [done | done | constructor | done | set_solver].
  - cbn [fmap list_fmap ResultWriter.run ResultWriter.deliver
      ResultWriter.running ResultWriter.got negb ResultQueue_get
      ResultWriter.batch ResultWriter.url_tracker ResultWriter.output_file].
    unfold UrlTracker.mark_processed. case_bool_decide as Hin.
    + destruct (IH tracker file) as (new & Hrun & Heq & Hnd & Hsub & Hel).
      exists new. rewrite Hrun.
      split_and!; [| | done | by apply sublist_cons |].
      * f_equal. set_solver.
      * rewrite filter_cons_False by (intros Hn; by apply Hn). exact Heq.
      * intros u. rewrite Hel. set_solver.
    + cbn [app ResultWriter.write_batch ResultWriter.batch
        ResultWriter.url_tracker ResultWriter.output_file].
      destruct (IH (tracker ∪ {[item]}) (file ++ [item]))
        as (new & Hrun & Heq & Hnd & Hsub & Hel).
      exists (item :: new). rewrite Hrun. split_and!.
      * f_equal; [set_solver | by rewrite <- app_assoc].
      * rewrite filter_cons_True by done. cbn [first_occurrences]. f_equal.
        rewrite Heq, <- (first_occurrences_new (λ y, y ∈ tracker)). f_equal.
        apply list_filter_iff. set_solver.
      * apply NoDup_cons. split; [|done]. intros Hi. apply Hel in Hi.
        set_solver.
      * by apply sublist_skip.
      * intros u. rewrite elem_of_cons, Hel.
        destruct (decide (u = item)) as [->|Hne]; set_solver.
Qed.

(** X12.  The result writer writes each key once: on any list of
    deliveries, a writer with a new tracker appends to its file the
    delivered items without repetition, in the order of their first
    delivery, and ends with an empty batch. *)
Theorem writer_writes_each_key_once (items : list string)
    (file : list string) :
  ∃ new,
    ResultWriter.run (ResultWriter.deliver <$> items)
      (ResultWriter.Make [] UrlTracker.init file)
    = ResultWriter.Make [] (list_to_set items) (file ++ new)
    ∧ new = first_occurrences items
    ∧ NoDup new
    ∧ new `sublist_of` items
    ∧ ∀ u, u ∈ new ↔ u ∈ items.
Proof.
  destruct (writer_deliveries items UrlTracker.init file)
    as (new & Hrun & Heq & Hnd & Hsub & Hel).
  exists new. unfold UrlTracker.init in *.
  rewrite union_empty_l_L in Hrun. split_and!; [done | | done..|].
  - rewrite Heq. f_equal. apply filter_all. set_solver.
  - intros u. rewrite Hel. set_solver.
Qed.

Example writer_ex :
  ResultWriter.output_file
    (ResultWriter.run (ResultWriter.deliver <$> ["a"; "b"; "a"; "c"; "b"])
       (ResultWriter.Make [] UrlTracker.init []))
  = ["a"; "b"; "c"].
Proof. reflexivity. Qed.

(** X13.  [ResultQueue.get] turns a time-out into [None], the value that
    [stop] puts on the queue; so the writer ends at the first time-out of two
    seconds as it does at the stop value, and items delivered after it are
    never written. *)
Theorem writer_ends_at_timeout (before : list string)
    (t : ResultWriter.turn) (after : list ResultWriter.turn)
    (self : ResultWriter.t) :
  ResultQueue_get (ResultWriter.got t) = None →
  ResultWriter.run ((ResultWriter.deliver <$> before) ++ t :: after) self
  = ResultWriter.run ((ResultWriter.deliver <$> before) ++ [t]) self.
Proof.
  intros Hnone. revert self. induction before as [|item before IH];
    intros self.
  - cbn [fmap list_fmap app ResultWriter.run]. rewrite Hnone.
    by destruct (ResultWriter.running t).
  - cbn [fmap list_fmap app ResultWriter.run ResultWriter.deliver
      ResultWriter.running ResultWriter.got negb ResultQueue_get].
    destruct (UrlTracker.mark_processed item (ResultWriter.url_tracker self))
      as [[] tracker]; apply IH.
Qed.

Lemma writer_ends_at_timeout_witness :
  ResultWriter.run
    ((ResultWriter.deliver <$> ["a"; "b"])
       ++ ResultWriter.Turn true QueueEmpty :: [ResultWriter.deliver "c"])
    (ResultWriter.Make [] UrlTracker.init [])
  = ResultWriter.run
      ((ResultWriter.deliver <$> ["a"; "b"])
         ++ [ResultWriter.Turn true QueueEmpty])
      (ResultWriter.Make [] UrlTracker.init []).
Proof.
  apply (writer_ends_at_timeout ["a"; "b"]
           (ResultWriter.Turn true QueueEmpty) [ResultWriter.deliver "c"]).
  reflexivity.
Defined.

(** ** The checkpoint store, further *)

(** The state after [save_checkpoint]: the checkpoint file holds the new
    document, the temporary file is gone, one line is logged. *)
Lemma save_checkpoint_state (processed : gset string) (n : Z) (t : Qc)
    (st : state) :
  save_checkpoint processed n t st
  = (Ret true,
     set_log (λ l, l ++ [Log INFO "Checkpoint saved with {} codes" [VInt n]])
       (set_files
          (λ fs, <[CHECKPOINT_FILE :=
                     FJson (VDict [("codes", VStrList (elements processed));
                                   ("counter", VInt n);
                                   ("timestamp", VFloat t)])]>
                   (delete (CHECKPOINT_FILE +:+ ".tmp") fs)) st)).
Proof.
  unfold save_checkpoint, catch, write_json, file_exists, log_message, modify,
    mbind, M_bind, bind, ret. cbn [negb VERBOSE st_files set_files].
  set (doc := FJson _). set (tmp := CHECKPOINT_FILE +:+ ".tmp").
  set (st_w := set_files <[tmp := doc]> st).
  assert (Htmp : st_files st_w !! tmp = Some doc) by apply lookup_insert_eq.
  assert (Hmove : (if bool_decide
                        (is_Some (<[tmp := doc]> (st_files st) !! CHECKPOINT_FILE))
                   then os_replace tmp CHECKPOINT_FILE
                   else os_rename tmp CHECKPOINT_FILE) st_w
          = (Ret tt,
             set_files (λ fs, <[CHECKPOINT_FILE := doc]> (delete tmp fs)) st_w)).
  { change (<[tmp := doc]> (st_files st)) with (st_files st_w).
    case_bool_decide as Hex.
    - by apply os_replace_run.
    - apply os_rename_run; [done|]. by apply eq_None_not_Some. }
  rewrite Hmove. unfold st_w, set_log, set_files. cbn [st_log st_output
    st_telegram st_requests st_files st_result_queue st_counter st_task_done].
  by rewrite delete_insert_eq.
Qed.

(** X14.  A checkpoint replaces the one before it: after two saves,
    [load_checkpoint] returns the codes and the counter of the second. *)
Theorem checkpoint_is_replaced (processed1 processed2 : gset string)
    (n1 n2 : Z) (t1 t2 now : Qc) (st : state) :
  ∃ st1 st2 st3,
    save_checkpoint processed1 n1 t1 st = (Ret true, st1)
    ∧ save_checkpoint processed2 n2 t2 st1 = (Ret true, st2)
    ∧ load_checkpoint now st2
      = (Ret (set_map HStr processed2, VInt n2), st3).
Proof.
  destruct (save_checkpoint_run processed1 n1 t1 st) as (st1 & Hs1 & _).
  destruct (save_checkpoint_run processed2 n2 t2 st1)
    as (st2 & Hs2 & Hfile & _).
  exists st1, st2. eexists. split_and!; [done..|].
  by apply load_checkpoint_document.
Qed.

(** X15.  [save_checkpoint] leaves no temporary file behind, even when a
    stale one was there, and touches no other file; it changes neither the
    output file nor the counter. *)
Theorem save_checkpoint_touches_one_file (processed : gset string) (n : Z)
    (t : Qc) (st : state) :
  let st' := (save_checkpoint processed n t st).2 in
  st_files st' !! (CHECKPOINT_FILE +:+ ".tmp") = None
  ∧ (∀ path, path ≠ CHECKPOINT_FILE → path ≠ CHECKPOINT_FILE +:+ ".tmp" →
       st_files st' !! path = st_files st !! path)
  ∧ st_output st' = st_output st
  ∧ st_counter st' = st_counter st.
Proof.
  rewrite save_checkpoint_state. cbn [snd set_log set_files st_files st_output
    st_counter].
  split_and!; [| |done..].
  - rewrite lookup_insert_ne by (symmetry; apply temp_file_ne).
    apply lookup_delete_eq.
  - intros path H1 H2. by rewrite lookup_insert_ne, lookup_delete_ne.
Qed.

Lemma load_checkpoint_files (now : Qc) (st : state) :
  st_files (load_checkpoint now st).2 = st_files st.
Proof.
  unfold load_checkpoint, load_checkpoint_try, catch, file_exists, read_json,
    dict_get, py_or, py_set, localtime, log_message, modify, mbind, M_bind,
    bind, ret, raise.
  cbn [negb VERBOSE].
  case_bool_decide as Hex; [|done].
  destruct Hex as [[document|e] Hfile]; cbn beta iota; rewrite Hfile;
    cbn beta iota; [|done].
  by repeat (case_match; cbn beta iota; simplify_eq).
Qed.

(** X16.  [load_checkpoint] only reads: whatever the checkpoint file holds,
    the files, the output file, the counter and the queues are as before, and
    at most one line is added to the log. *)
Theorem load_checkpoint_only_reads (now : Qc) (st : state) :
  let st' := (load_checkpoint now st).2 in
  st_files st' = st_files st
  ∧ st_output st' = st_output st
  ∧ st_telegram st' = st_telegram st
  ∧ st_requests st' = st_requests st
  ∧ st_counter st' = st_counter st
  ∧ st_result_queue st' = st_result_queue st
  ∧ ∃ lines, st_log st' = st_log st ++ lines ∧ (length lines ≤ 1)%nat.
Proof.
  unfold load_checkpoint, load_checkpoint_try, catch, file_exists, read_json,
    dict_get, py_or, py_set, localtime, log_message, modify, mbind, M_bind,
    bind, ret, raise.
  cbn [negb VERBOSE].
  case_bool_decide as Hex.
  2:{ cbn. split_and!; [done..|]. exists []. rewrite app_nil_r.
      split; [done | cbn; lia]. }
  destruct Hex as [[document|e] Hfile]; cbn beta iota; rewrite Hfile;
    cbn beta iota.
  2:{ cbn. split_and!; [done..|]. eexists [_]. split; [done | cbn; lia]. }
  repeat (case_match; cbn beta iota; simplify_eq);
    cbn [snd set_log st_files st_output st_telegram st_requests st_counter
         st_result_queue st_log];
    (split_and!; [done..|]); eexists [_]; (split; [done | cbn; lia]).
Qed.

(** X17.  A checkpoint in the old format is read: when the file has no
    ["codes"], ["counter"] and ["timestamp"] keys and holds a list of codes
    under ["processed_codes"] and an integer under ["processed_count"],
    [load_checkpoint] returns those codes and that integer. *)
Theorem load_checkpoint_old_format (items : list (string * pyval))
    (codes : list string) (n : Z) (now : Qc) (st : state) :
  st_files st !! CHECKPOINT_FILE = Some (FJson (VDict items)) →
  assoc "codes" items = None →
  assoc "counter" items = None →
  assoc "timestamp" items = None →
  assoc "processed_codes" items = Some (VStrList codes) →
  assoc "processed_count" items = Some (VInt n) →
  load_checkpoint now st
  = (Ret (list_to_set (HStr <$> codes), VInt n),
     set_log (λ l, l ++ [Log INFO "Checkpoint loaded: {} codes from {}"
                           [VInt n; VFloat now]]) st).
Proof.
  intros Hfile Hc Hn Ht Hpc Hpn.
  unfold load_checkpoint, load_checkpoint_try, catch, file_exists, read_json,
    mbind, M_bind, bind.
  cbn beta. rewrite Hfile. rewrite bool_decide_true by by eexists.
  cbn beta iota. rewrite Hfile. cbn beta iota.
  unfold dict_get, py_or, ret. rewrite Hc, Hn, Ht, Hpc, Hpn.
  cbn [default from_option id truthy Z.eqb negb]. cbn beta iota.
  rewrite py_set_strings. reflexivity.
Qed.

Lemma load_checkpoint_old_format_witness :
  let st := set_files
              <[CHECKPOINT_FILE :=
                  FJson (VDict [("processed_codes", VStrList ["abc"; "def"]);
                                ("processed_count", VInt 7);
                                ("date_readable", VStr "2025-04-01 10:00:00")])]>
              initial_state in
  load_checkpoint (Q2Qc 5) st
  = (Ret (list_to_set (HStr <$> ["abc"; "def"]), VInt 7),
     set_log (λ l, l ++ [Log INFO "Checkpoint loaded: {} codes from {}"
                           [VInt 7; VFloat (Q2Qc 5)]]) st).
Proof.
  apply (load_checkpoint_old_format
           [("processed_codes", VStrList ["abc"; "def"]);
            ("processed_count", VInt 7);
            ("date_readable", VStr "2025-04-01 10:00:00")]
           ["abc"; "def"] 7 (Q2Qc 5)); reflexivity.
Defined.

(** ** The orchestrator, further *)

(** X18.  A fresh start: when the answer to the question whether to resume
    is not "y" or "Y", or when the checkpoint holds no code, the run starts
    from the empty seen-set with the counter at zero. *)
Theorem startup_fresh (now : Qc) (resume_choice : string) (st st1 : state)
    (codes : gset hashable) (count : pyval) :
  load_checkpoint now st = (Ret (codes, count), st1) →
  PyStr.lower resume_choice ≠ "y" ∨ codes = ∅ →
  ∃ st2,
    startup now resume_choice st = (Ret ∅, st2)
    ∧ st_counter st2 = 0
    ∧ st_files st2 = st_files st.
Proof.
  intros Hload Hfresh.
  pose proof (load_checkpoint_files now st) as Hfiles.
  rewrite Hload in Hfiles. cbn [snd] in Hfiles.
  unfold startup, mbind, M_bind, bind, log_message, modify, ret.
  rewrite Hload. cbn [negb VERBOSE]. cbn beta iota.
  destruct Hfresh as [Hno | ->].
  - destruct (0 <? size codes)%nat eqn:Hsize.
    + destruct (String.eqb (PyStr.lower resume_choice) "y") eqn:Hy.
      { by apply String.eqb_eq in Hy. }
      cbn [negb]. eexists. by split_and!.
    + apply Nat.ltb_ge in Hsize.
      assert (codes = ∅) as ->.
      { apply leibniz_equiv, size_empty_iff. lia. }
      eexists. by split_and!.
  - rewrite size_empty. cbn [Nat.ltb Nat.leb]. eexists. by split_and!.
Qed.

Lemma startup_fresh_witness :
  ∃ st2,
    startup (Q2Qc 200) "no"
      (save_checkpoint {["abc"; "def"]} 1 (Q2Qc 100) initial_state).2
    = (Ret ∅, st2)
    ∧ st_counter st2 = 0
    ∧ st_files st2
      = st_files (save_checkpoint {["abc"; "def"]} 1 (Q2Qc 100) initial_state).2.
Proof.
  apply (startup_fresh (Q2Qc 200) "no"
           (save_checkpoint {["abc"; "def"]} 1 (Q2Qc 100) initial_state).2
           (load_checkpoint (Q2Qc 200)
              (save_checkpoint {["abc"; "def"]} 1 (Q2Qc 100)
                 initial_state).2).2
           (set_map HStr ({["abc"; "def"]} : gset string))
           (VInt 1)).
  - reflexivity.
  - left. vm_compute. discriminate.
Defined.

(** The generation loop from any seen-set and queue: the seen-set gains the
    drawn codes, and the queue gains the drawn codes that were not seen,
    each once, in the order in which they were first drawn. *)
Lemma generation_loop_spec (draws : list string) (seen : gset hashable)
    (queue : list string) :
  ∃ new,
    generation_loop draws seen queue
    = (seen ∪ list_to_set (HStr <$> draws), queue ++ new)
    ∧ new = first_occurrences (filter (λ c, ¬ HStr c ∈ seen) draws)
    ∧ NoDup new
    ∧ new `sublist_of` draws
    ∧ ∀ c, c ∈ new ↔ c ∈ draws ∧ HStr c ∉ seen.
Proof.
  revert seen queue. induction draws as [|code draws IH]; intros seen queue.
  - exists []. cbn. rewrite app_nil_r, union_empty_r_L.
    split_and!; [done | done | constructor | done | set_solver].
  - cbn [generation_loop fmap list_fmap list_to_set]. case_bool_decide as Hin.
    + destruct (IH seen queue) as (new & Hrun & Heq & Hnd & Hsub & Hel).
      exists new. rewrite Hrun.
      split_and!; [| | done | by apply sublist_cons |].
      * f_equal. set_solver.
      * rewrite filter_cons_False by (intros Hn; by apply Hn). exact Heq.
      * intros c. rewrite Hel. rewrite elem_of_cons.
        split; [naive_solver|]. intros [[->|Hc] Hs]; [done | by split].
    + destruct (IH (seen ∪ {[HStr code]}) (queue ++ [code]))
        as (new & Hrun & Heq & Hnd & Hsub & Hel).
      exists (code :: new). rewrite Hrun. split_and!.
      * f_equal; [set_solver | by rewrite <- app_assoc].
      * rewrite filter_cons_True by done. cbn [first_occurrences]. f_equal.
        rewrite Heq, <- (first_occurrences_new (λ y, HStr y ∈ seen)). f_equal.
        apply list_filter_iff. intros c. rewrite elem_of_union, elem_of_singleton.
        split; intros Hc Hc'; apply Hc; destruct Hc' as [?|Hc'];
          [by left | right; congruence | by left | right; congruence].
      * apply NoDup_cons. split; [|done]. intros Hi. apply Hel in Hi.
        set_solver.
      * by apply sublist_skip.
      * intros c. rewrite !elem_of_cons, Hel.
        destruct (decide (c = code)) as [->|Hne]; [naive_solver|].
        assert (HStr c ≠ HStr code) by congruence. set_solver.
Qed.

(** X19.  The work queue that the generation loop builds from an empty
    queue holds exactly the drawn codes that are not in the seen-set, each
    once, in the order in which they were first drawn; afterwards every
    drawn code is in the seen-set, and nothing leaves the seen-set. *)
Theorem generation_loop_queues_new_codes (draws : list string)
    (seen : gset hashable) :
  let seen' := (generation_loop draws seen []).1 in
  let queue := (generation_loop draws seen []).2 in
  queue = first_occurrences (filter (λ c, ¬ HStr c ∈ seen) draws)
  ∧ NoDup queue
  ∧ queue `sublist_of` draws
  ∧ (∀ c, c ∈ queue ↔ c ∈ draws ∧ HStr c ∉ seen)
  ∧ seen ⊆ seen'
  ∧ (∀ c, c ∈ draws → HStr c ∈ seen').
Proof.
  destruct (generation_loop_spec draws seen [])
    as (new & Hrun & Heq & Hnd & Hsub & Hel).
  cbv zeta. rewrite Hrun. cbn [fst snd app].
  split_and!; [done..| set_solver |].
  intros c Hc. apply elem_of_union_r, elem_of_list_to_set, list_elem_of_fmap.
  by exists c.
Qed.

Example generation_loop_ex :
  (generation_loop ["a"; "b"; "a"; "s"; "c"; "b"] {[HStr "s"]} []).2
  = ["a"; "b"; "c"].
Proof. reflexivity. Qed.

Lemma size_set_map_HStr (processed : gset string) :
  size (set_map (D := gset hashable) HStr processed) = size processed.
Proof.
  unfold set_map. rewrite size_list_to_set.
  - by rewrite length_fmap.
  - apply NoDup_fmap_2; [|apply NoDup_elements]. by intros ?? [= ->].
Qed.

(** X20.  A resumed run does not probe again what the checkpoint holds:
    after [save_checkpoint] of a set of codes, a start of [main] that is
    answered "y" gives that set as the seen-set, and the generation loop
    started from it queues none of those codes, whatever codes are drawn. *)
Theorem resumed_run_skips_saved_codes (processed : gset string) (n : Z)
    (saved_at now : Qc) (resume_choice : string) (draws : list string)
    (st : state) :
  PyStr.lower resume_choice = "y" →
  ∃ st1 st2,
    save_checkpoint processed n saved_at st = (Ret true, st1)
    ∧ startup now resume_choice st1 = (Ret (set_map HStr processed), st2)
    ∧ st_counter st2 = Z.of_nat (size processed)
    ∧ ∀ c, c ∈ processed →
        c ∉ (generation_loop draws (set_map HStr processed) []).2.
Proof.
  intros Hyes.
  destruct (save_checkpoint_run processed n saved_at st)
    as (st1 & Hsave & Hfile & _).
  pose proof (load_checkpoint_document processed n saved_at now st1 Hfile)
    as Hload.
  exists st1.
  unfold startup, mbind, M_bind, bind, log_message, modify, ret.
  rewrite Hload, Hyes. cbn [negb VERBOSE String.eqb Ascii.eqb Bool.eqb].
  cbn beta iota.
  assert (Hq : ∀ c, c ∈ processed →
            c ∉ (generation_loop draws (set_map HStr processed) []).2);
    [|destruct (0 <? size _)%nat; eexists;
      (split_and!; [exact Hsave | reflexivity | | exact Hq]);
      cbn [set_log set_counter st_counter]; by rewrite size_set_map_HStr].
  intros c Hc Hq.
  destruct (generation_loop_spec draws (set_map HStr processed) [])
    as (new & Hrun & _ & _ & Hel).
  rewrite Hrun in Hq. cbn [snd app] in Hq. apply Hel in Hq as [_ Hq].
  apply Hq. by apply elem_of_map_2.
Qed.

Lemma resumed_run_skips_saved_codes_witness :
  ∃ st1 st2,
    save_checkpoint {["abc"; "def"]} 1 (Q2Qc 100) initial_state
    = (Ret true, st1)
    ∧ startup (Q2Qc 200) "Y" st1
      = (Ret (set_map HStr ({["abc"; "def"]} : gset string)), st2)
    ∧ st_counter st2 = Z.of_nat (size ({["abc"; "def"]} : gset string))
    ∧ ∀ c, c ∈ ({["abc"; "def"]} : gset string) →
        c ∉ (generation_loop ["def"; "xyz"; "abc"]
               (set_map HStr ({["abc"; "def"]} : gset string)) []).2.
Proof.
  apply (resumed_run_skips_saved_codes {["abc"; "def"]} 1 (Q2Qc 100)
           (Q2Qc 200) "Y" ["def"; "xyz"; "abc"] initial_state).
  vm_compute. reflexivity.
Defined.


(** ** The candidate generator *)

Lemma random_choice_charset (r : nat) :
  is_alnum (random_choice charset r) = true.
Proof.
  unfold random_choice.
  assert (Hlt : (r mod String.length charset < 62)%nat).
  { apply Nat.mod_upper_bound. by vm_compute. }
  revert Hlt. generalize (r mod String.length charset)%nat. intros i Hi.
  do 62 (destruct i as [|i]; [reflexivity|]). lia.
Qed.

Lemma length_string_of_list (l : list ascii) :
  String.length (string_of_list_ascii l) = length l.
Proof. induction l as [|c l IH]; [done|]. cbn. by rewrite IH. Qed.

(** X21.  A generated code has the length asked for (none when the length
    is negative) and consists of letters and digits, whatever the generator
    yields. *)
Theorem generate_random_code_shape (length : Z) (rng : nat → nat) (pos : nat) :
  String.length (generate_random_code length rng pos) = Z.to_nat length
  ∧ Forall (λ c, is_alnum c = true)
      (list_ascii_of_string (generate_random_code length rng pos)).
Proof.
  unfold generate_random_code. split.
  - by rewrite length_string_of_list, length_fmap, length_seq.
  - rewrite list_ascii_of_string_of_list_ascii. apply Forall_fmap, Forall_forall.
    intros i _. apply random_choice_charset.
Qed.

Example generate_random_code_ex :
  generate_random_code 6 (λ k, 7 * k + 30)%nat 2 = "SZ6dkr".
Proof. vm_compute. reflexivity. Qed.

(** ** The single test *)

(** X22.  [test_single_code] never raises and returns whether the code is a
    match.  It is a probe like any other: it writes the line and hands over
    the notification that the probe of the code makes; it does not change
    the counter. *)
Theorem test_single_code_is_a_probe (w : world) (code : string)
    (use_curl : bool) (st : state) :
  ∃ st',
    test_single_code w code use_curl st
    = (Ret (VBool (is_match w use_curl code)), st')
    ∧ st_output st' = st_output (check_func w use_curl code st).2
    ∧ st_telegram st' = st_telegram (check_func w use_curl code st).2
    ∧ st_counter st' = st_counter st.
Proof.
  unfold test_single_code, py_len, unpack.
  destruct use_curl; probe_cases; eexists; done.
Qed.

(** ** The notifier *)

Import TelegramBot.


(** X24.  The notifier is initialised once.  When the environment lacks the
    bot token or the chat id and the first notifier is built without
    arguments, a later [initialize_bot] with a token and a chat id returns
    that first, disabled notifier: [send_valid_link] then returns false and
    posts nothing. *)
Theorem notifier_is_initialised_once (env env' : environ)
    (token chat_id : string) (system_name : option string)
    (post : string → payload → exn + Z) (n : notification) :
  truthy_str (env_token env) && truthy_str (env_chat_id env) = false →
  let first := TelegramNotifier.new env None None None None in
  let later := (initialize_bot env' token chat_id system_name (Some first)).2 in
  later = first
  ∧ send_valid_link env' post (Some later) n = (Ret false, []).
Proof.
  intros Henv. simpl. split; [done|].
  unfold send_valid_link, TelegramNotifier.send_valid_link,
    TelegramNotifier.init, or_else. simpl.
  destruct (truthy_str (env_token env)), (truthy_str (env_chat_id env));
    done.
Qed.

Lemma notifier_is_initialised_once_witness :
  let first :=
    TelegramNotifier.new (Environ None (Some "42")) None None None None in
  let later :=
    (initialize_bot (Environ None None) "token" "42" (Some "box")
       (Some first)).2 in
  later = first
  ∧ send_valid_link (Environ None None) (λ _ _, inr 200) (Some later)
      (Notification "abc" "u" [] "box" "Wally")
    = (Ret false, []).
Proof.
  apply (notifier_is_initialised_once (Environ None (Some "42"))).
  reflexivity.
Defined.

(** X25.  The method [send_valid_link] never raises and posts at most
    once.  A disabled notifier posts nothing and returns false.  An enabled
    one posts one [sendMessage] request with the chat id, the message and
    the Markdown mode, and returns true exactly when the request gives a
    status outside 400..599; it returns false when the request raises. *)
Theorem send_valid_link_posts_once (post : string → payload → exn + Z)
    (self : TelegramNotifier.t) (code : string)
    (redirect_url : option string) (patterns_found : option (list string))
    (system_name laddoo_type : option string) :
  let r :=
    TelegramNotifier.send_valid_link post self code redirect_url
      patterns_found system_name laddoo_type in
  let api_url := TelegramNotifier.base_url self +:+ "/sendMessage" in
  let body :=
    Payload (TelegramNotifier.chat_id self)
      (TelegramNotifier.message self code redirect_url patterns_found
         system_name laddoo_type)
      "Markdown" in
  (∃ result, r.1 = Ret result)
  ∧ (length r.2 ≤ 1)%nat
  ∧ r.2 = (if TelegramNotifier.enabled self then [(api_url, body)] else [])
  ∧ (r.1 = Ret true ↔
       TelegramNotifier.enabled self = true
       ∧ ∃ status, post api_url body = inr status
                   ∧ ¬ (400 ≤ status < 600)).
Proof.
  simpl. unfold TelegramNotifier.send_valid_link,
    TelegramNotifier.send_valid_link_try.
  destruct (TelegramNotifier.enabled self); simpl.
  - destruct (post _ _) as [e|status]; simpl.
    + split_and!; [by eexists | lia | done |].
      split; [done | intros [_ (? & ? & _)]; done].
    + unfold is_http_error.
      destruct ((400 <=? status) && (status <? 600)) eqn:Hr; simpl.
      * apply andb_true_iff in Hr as [?%Z.leb_le ?%Z.ltb_lt].
        split_and!; [by eexists | lia | done |].
        split; [done | intros [_ (s & [= <-] & Hs)]; lia].
      * split_and!; [by eexists | lia | done |].
        split; [|done]. intros _. split; [done|]. exists status.
        split; [done|]. intros [?%Z.leb_le ?%Z.ltb_lt].
        rewrite andb_false_iff in Hr. destruct Hr; congruence.
  - split_and!; [by eexists | lia | done |].
    split; [done | intros [? _]; done].
Qed.

Lemma substring_of_here (p l r : string) :
  PyStr.substring_of p (l +:+ p +:+ r).
Proof. by exists l, r. Qed.

Lemma substring_of_app_l (p s t : string) :
  PyStr.substring_of p s → PyStr.substring_of p (s +:+ t).
Proof.
  intros (l & r & ->). exists l, (r +:+ t).
  by rewrite !append_assoc.
Qed.

Lemma substring_of_app_r (p s t : string) :
  PyStr.substring_of p t → PyStr.substring_of p (s +:+ t).
Proof.
  intros (l & r & ->). exists (s +:+ l), r.
  by rewrite !append_assoc.
Qed.

Lemma substring_of_head (p r : string) : PyStr.substring_of p (p +:+ r).
Proof. by exists EmptyString, r. Qed.

Lemma substring_of_lines (pattern : string) (l : list string) :
  pattern ∈ l →
  PyStr.substring_of pattern
    (foldr (λ pattern rest, "✅ " +:+ pattern +:+ nl +:+ rest) EmptyString l).
Proof.
  induction 1 as [q l | q q' l Hin IH]; cbn [foldr].
  - apply substring_of_app_r, substring_of_head.
  - do 3 apply substring_of_app_r. exact IH.
Qed.

(** X26.  The message of a notification names the link that was probed and
    every pattern that was found. *)
Theorem message_names_link_and_patterns (self : TelegramNotifier.t)
    (code : string) (redirect_url : option string) (found : list string)
    (system_name laddoo_type : option string) :
  let text :=
    TelegramNotifier.message self code redirect_url (Some found) system_name
      laddoo_type in
  PyStr.substring_of (candidate_url code) text
  ∧ ∀ pattern, pattern ∈ found → PyStr.substring_of pattern text.
Proof.
  simpl. unfold TelegramNotifier.message. split.
  - do 9 apply substring_of_app_r. apply substring_of_head.
  - intros pattern Hin. do 13 apply substring_of_app_r.
    destruct found as [|p ps]; [by apply elem_of_nil in Hin|].
    do 3 apply substring_of_app_r. by apply substring_of_lines.
Qed.

Lemma scan_log_text (final_url decoded_url : string)
    (patterns : list string) (acc : scan) :
  Forall (λ e, log_text e ≠ "Error sending Telegram notification: {}")
    (scan_log acc) →
  Forall (λ e, log_text e ≠ "Error sending Telegram notification: {}")
    (scan_log (fold_left (scan_step final_url decoded_url) patterns acc)).
Proof.
  revert acc. induction patterns as [|p ps IH]; intros acc Hacc; [done|].
  cbn [fold_left]. apply IH. unfold scan_step.
  destruct (PyStr.contains p final_url), (PyStr.contains p decoded_url);
    cbn [orb scan_log]; rewrite ?Forall_app; split_and!; try done;
    by repeat constructor.
Qed.

(** [telegram_bot.send_valid_link] returns: what [requests.post] or
    [raise_for_status] raises is caught. *)
Lemma send_valid_link_returns (env : environ)
    (post : string → payload → exn + Z)
    (instance : option TelegramNotifier.t) (n : notification) :
  ∃ result, (send_valid_link env post instance n).1 = Ret result.
Proof.
  unfold send_valid_link, TelegramNotifier.send_valid_link,
    TelegramNotifier.send_valid_link_try.
  destruct (negb _); [by eexists|].
  destruct (post _ _) as [e|status]; [by eexists|].
  destruct (is_http_error status); by eexists.
Qed.

(** X27.  [telegram_bot.send_valid_link] catches what it raises, so with it
    as the notification channel a probe never logs the error of a
    notification, whatever [requests.post] does: the probe adds lines to the
    log, and none of them is that error. *)
Theorem probe_never_logs_notification_error (w : world) (env : environ)
    (post : string → payload → exn + Z)
    (instance : option TelegramNotifier.t) (use_curl : bool) (code : string)
    (st : state) :
  ∃ added,
    st_log (check_func (bot_world w env post instance) use_curl code st).2
    = st_log st ++ added
    ∧ ∀ e, e ∈ added →
        log_text e ≠ "Error sending Telegram notification: {}".
Proof.
  unfold bot_world.
  set (reply := λ n : notification,
         match (send_valid_link env post instance n).1 with
         | Ret result => inr result
         | Raise e => inl e
         end).
  assert (Hreply : ∀ n, ∃ result : bool, reply n = inr result).
  { intros n. unfold reply.
    destruct (send_valid_link_returns env post instance n) as [result ->].
    by exists result. }
  clearbody reply. unfold with_telegram.
  destruct use_curl; probe_cases;
    repeat match goal with
      | |- context [reply ?n] =>
          let result := fresh "result" in
          let Hn := fresh "Hn" in
          destruct (Hreply n) as [result Hn]; rewrite Hn; simpl
      end;
    rewrite <- ?app_assoc; eexists; (split; [reflexivity|]);
    intros entry Hentry Ht;
    rewrite ?elem_of_app, ?elem_of_cons, ?elem_of_nil in Hentry;
    destruct_or?; subst; try done; try discriminate Ht;
    match goal with
    | H : _ ∈ scan_log (scan_patterns ?ps ?u ?d) |- _ =>
        pose proof (scan_log_text u d ps scan_init (Forall_nil_2 _)) as Hs;
        rewrite Forall_forall in Hs; by apply Hs in H
    end.
Qed.

(** A match in a world whose [requests.post] fails: the probe hands the
    notification over, the notifier posts once and returns false, and the
    probe logs no error. *)
Example probe_notifies_through_bot :
  let env := Environ (Some "token") (Some "42") in
  let post := λ (_ : string) (_ : payload),
                inl (Exn "ConnectionError" "Connection refused") in
  let r := check_func (bot_world demo_world env post None) true "UMtJXP"
             initial_state in
  is_match demo_world true "UMtJXP" = true
  ∧ length (st_telegram r.2) = 1%nat
  ∧ (∀ sent, sent ∈ st_telegram r.2 →
       (send_valid_link env post None sent).1 = Ret false
       ∧ (send_valid_link env post None sent).2.*1
         = ["https://api.telegram.org/bottoken/sendMessage"])
  ∧ Forall (λ e, log_level_of e ≠ ERROR) (st_log r.2).
Proof.
  split_and!.
  - vm_compute. reflexivity.
  - vm_compute. reflexivity.
  - intros sent Hsent. vm_compute in Hsent.
    apply list_elem_of_singleton in Hsent as ->.
    split; vm_compute; reflexivity.
  - vm_compute. by repeat constructor.
Qed.
